(** * Date-resolution pipeline of the haunted-places scripts

    Shallow embedding of the two date pipelines of the repository:

    - [Q4fgh]          : "step 4c date.py" inside [src/Q4fgh.py]
                         (regex cascade, sequential Wikipedia and DBpedia tiers);
    - [verifyparallel] : [src/verifyparallel.py]
                         (datefinder/dateparser extraction, cached narrow and
                         broad Wikipedia tiers run through a thread pool).

    Python [str] values are modelled as [string]; the character predicates
    below are the ASCII part of Python's Unicode predicates, so the
    development speaks about ASCII text (a byte above 127 is treated as
    neither digit, space nor word character).

    The third-party libraries (pandas' free-form [to_datetime], datefinder,
    dateparser, the wikipedia client, SPARQLWrapper, [Series.sample]) are not
    part of the repository: they are section variables, and the theorems
    hold for all of their behaviours.  Network calls act on an abstract
    [World], so that the same call may answer differently over time.  What
    the scripts fix by a format string ([strftime], [strptime], pandas'
    [to_datetime] with [format="%B %Y"]) is modelled concretely in [Dates].

    The worker threads of [parallel_lookup] are modelled as running their
    lookups one after the other, in the order of the submitted list.

    The other scripts of the repository are embedded after the pipelines:
    the evidence flags and the column moves of "foura and b.py"
    ([Evidence]), the time of day and the witness count of
    [src/unnamed/part_000] ([TimeOfDay], [Witness]), the event and
    apparition types of [src/Q4fgh.py] ([EventType], [Apparition]) and the
    reports of the date scripts ([Reports]).  spaCy's pipeline, the WordNet
    lemmatizer and the keyword sets built from WordNet are section
    variables as well. *)

From Stdlib Require Import ZArith Ascii String List Bool Lia Permutation Sorted.
From Stdlib Require QArith Qround.
From stdpp Require Import base option list gmap strings.

Local Open Scope Z_scope.

(** ** Python string operations *)

Module PyStr.

Definition code (c : ascii) : Z := Z.of_nat (nat_of_ascii c).

(** [str.isdigit], ASCII part; also the regex class [\d]. *)
Definition is_digit (c : ascii) : bool :=
  (48 <=? code c) && (code c <=? 57).

(** [str.isspace], ASCII part; also the regex class [\s]:
    TAB, LF, VT, FF, CR, the separators 0x1c..0x1f and the space. *)
Definition is_space (c : ascii) : bool :=
  ((9 <=? code c) && (code c <=? 13))
  || ((28 <=? code c) && (code c <=? 32)).

Definition is_upper (c : ascii) : bool :=
  (65 <=? code c) && (code c <=? 90).

Definition is_lower (c : ascii) : bool :=
  (97 <=? code c) && (code c <=? 122).

(** The regex class [\w], ASCII part. *)
Definition is_word (c : ascii) : bool :=
  is_digit c || is_upper c || is_lower c || (code c =? 95).

Definition lower_char (c : ascii) : ascii :=
  if is_upper c then ascii_of_nat (nat_of_ascii c + 32) else c.

Definition chars (s : string) : list ascii := list_ascii_of_string s.
Definition str (l : list ascii) : string := string_of_list_ascii l.

(** [s.lower()] *)
Definition lower (s : string) : string := str (map lower_char (chars s)).

Fixpoint lstrip (l : list ascii) : list ascii :=
  match l with
  | c :: l' => if is_space c then lstrip l' else l
  | [] => []
  end.

(** [s.strip()] *)
Definition strip (s : string) : string :=
  str (rev (lstrip (rev (lstrip (chars s))))).

(** Truthiness of a [str]: the empty string is falsy. *)
Definition truthy (s : string) : bool :=
  match s with EmptyString => false | _ => true end.

(** [s.split()]: maximal runs of non-space characters. *)
Fixpoint split_aux (cur : list ascii) (l : list ascii) : list string :=
  match l with
  | [] => match cur with [] => [] | _ => [str (rev cur)] end
  | c :: l' =>
      if is_space c
      then match cur with
           | [] => split_aux [] l'
           | _ => str (rev cur) :: split_aux [] l'
           end
      else split_aux (c :: cur) l'
  end.

Definition split (s : string) : list string := split_aux [] (chars s).

Fixpoint is_prefix (p l : list ascii) : bool :=
  match p, l with
  | [], _ => true
  | a :: p', b :: l' => if Ascii.eqb a b then is_prefix p' l' else false
  | _ :: _, [] => false
  end.

Fixpoint contains_chars (p l : list ascii) : bool :=
  is_prefix p l ||
  match l with
  | [] => false
  | _ :: l' => contains_chars p l'
  end.

(** [sub in s] *)
Definition contains (sub s : string) : bool :=
  contains_chars (chars sub) (chars s).

(** [len(s)] *)
Definition len (s : string) : Z := Z.of_nat (String.length s).

(** [min] of a non-empty list of strings (code-point order); on ties
    Python keeps the first, which for equal strings is the same value. *)
Definition str_min (a b : string) : string :=
  if String.ltb b a then b else a.

Definition min_list (d : string) (l : list string) : string :=
  match l with
  | [] => d
  | x :: l' => fold_left str_min l' x
  end.

End PyStr.

(** ** The fragment of Python's [re] used by the scripts

    A backtracking matcher in continuation-passing style: alternatives are
    tried left to right, repetitions are greedy, and [search] returns the
    leftmost match, as [re.search] does. *)

Module Re.
Import PyStr.

Inductive regex : Type :=
| Eps                                             (* empty pattern *)
| Lit (s : string)                                (* literal text *)
| Cls (p : ascii -> bool)                         (* one character of a class *)
| Rep (p : ascii -> bool) (lo : nat) (hi : option nat)
                                                  (* class{lo,hi}, greedy *)
| Seq (r1 r2 : regex)
| Alt (r1 r2 : regex)                             (* r1|r2 *)
| WordB                                           (* \b *)
| Group (r : regex).                              (* capturing ( ) *)

Definition Opt (r : regex) : regex := Alt r Eps.         (* r? *)
Definition Plus (p : ascii -> bool) : regex := Rep p 1 None.  (* class+ *)
Definition Exactly (p : ascii -> bool) (n : nat) : regex := Rep p n (Some n).

Fixpoint seqs (l : list regex) : regex :=
  match l with
  | [] => Eps
  | [r] => r
  | r :: l' => Seq r (seqs l')
  end.

Fixpoint alts (l : list string) : regex :=
  match l with
  | [] => Cls (fun _ => false)
  | [s] => Lit s
  | s :: l' => Alt (Lit s) (alts l')
  end.

(** Matcher state: the character before the cursor (for [\b]), the
    remaining input and the groups captured so far. *)
Record mstate : Type := MState {
  prev : option ascii;
  rest : list ascii;
  caps : list (list ascii)
}.

Definition word_opt (o : option ascii) : bool :=
  match o with Some c => is_word c | None => false end.

Definition at_boundary (st : mstate) : bool :=
  xorb (word_opt (prev st)) (word_opt (head (rest st))).

Fixpoint match_lit (p : list ascii) (pv : option ascii) (l : list ascii)
  : option (option ascii * list ascii) :=
  match p with
  | [] => Some (pv, l)
  | a :: p' =>
      match l with
      | b :: l' => if Ascii.eqb a b then match_lit p' (Some b) l' else None
      | [] => None
      end
  end.

Definition hi_open (hi : option nat) : bool :=
  match hi with Some O => false | _ => true end.

Definition hi_pred (hi : option nat) : option nat :=
  match hi with Some n => Some (Nat.pred n) | None => None end.

(** Greedy bounded repetition of a character class. *)
Fixpoint rep_class {A} (p : ascii -> bool) (lo : nat) (hi : option nat)
    (pv : option ascii) (l : list ascii) (cs : list (list ascii))
    (k : mstate -> option A) : option A :=
  let stop := match lo with
              | O => k (MState pv l cs)
              | S _ => None
              end in
  match l with
  | c :: l' =>
      if p c && hi_open hi
      then match rep_class p (Nat.pred lo) (hi_pred hi) (Some c) l' cs k with
           | Some r => Some r
           | None => stop
           end
      else stop
  | [] => stop
  end.

Definition consumed (before after : list ascii) : list ascii :=
  firstn (List.length before - List.length after) before.

Fixpoint run {A} (r : regex) (st : mstate) (k : mstate -> option A)
  : option A :=
  match r with
  | Eps => k st
  | Lit s =>
      match match_lit (chars s) (prev st) (rest st) with
      | Some (pv, l) => k (MState pv l (caps st))
      | None => None
      end
  | Cls p =>
      match rest st with
      | c :: l => if p c then k (MState (Some c) l (caps st)) else None
      | [] => None
      end
  | Rep p lo hi => rep_class p lo hi (prev st) (rest st) (caps st) k
  | Seq r1 r2 => run r1 st (fun st' => run r2 st' k)
  | Alt r1 r2 =>
      match run r1 st k with
      | Some x => Some x
      | None => run r2 st k
      end
  | WordB => if at_boundary st then k st else None
  | Group r' =>
      run r' st (fun st' =>
        k (MState (prev st') (rest st')
                  (caps st' ++ [consumed (rest st) (rest st')])))
  end.

(** A match object: [group(0)] and the numbered groups. *)
Record match_obj : Type := MatchObj {
  group0 : string;
  groups : list string
}.

Definition group (m : match_obj) (i : nat) : string :=
  match i with
  | O => group0 m
  | S j => nth j (groups m) EmptyString
  end.

Definition match_here (r : regex) (pv : option ascii) (l : list ascii)
  : option match_obj :=
  match run r (MState pv l []) Some with
  | Some st => Some (MatchObj (str (consumed l (rest st)))
                              (map str (caps st)))
  | None => None
  end.

Fixpoint search_from (r : regex) (pv : option ascii) (l : list ascii)
  : option match_obj :=
  match match_here r pv l with
  | Some m => Some m
  | None =>
      match l with
      | [] => None
      | c :: l' => search_from r (Some c) l'
      end
  end.

(** [re.search(r, s)] *)
Definition search (r : regex) (s : string) : option match_obj :=
  search_from r None (chars s).

(** [re.match(r, s)]: anchored at the start; also yields the end offset. *)
Definition match_start (r : regex) (s : string) : option (match_obj * nat) :=
  match match_here r None (chars s) with
  | Some m => Some (m, String.length (group0 m))
  | None => None
  end.

End Re.

(** ** Calendar values: [datetime.datetime] and its text forms *)

Module Dates.
Import PyStr Re.

(** A [datetime] (also used for pandas' [Timestamp]); [tzinfo] holds the
    UTC offset of an aware value. *)
Record datetime : Type := DateTime {
  year : Z; month : Z; day : Z;
  hour : Z; minute : Z; second : Z; microsecond : Z;
  tzinfo : option Z
}.

Definition date (y m d : Z) : datetime := DateTime y m d 0 0 0 0 None.

(** [d.replace(tzinfo=None)] *)
Definition replace_tzinfo_None (d : datetime) : datetime :=
  DateTime (year d) (month d) (day d)
           (hour d) (minute d) (second d) (microsecond d) None.

Definition is_leap (y : Z) : bool :=
  ((y mod 4 =? 0) && negb (y mod 100 =? 0)) || (y mod 400 =? 0).

Definition days_in_month (y m : Z) : Z :=
  if m =? 2 then (if is_leap y then 29 else 28)
  else if (m =? 4) || (m =? 6) || (m =? 9) || (m =? 11) then 30
  else 31.

(** The invariant of every [datetime] object (MINYEAR = 1, MAXYEAR = 9999). *)
Definition valid_date (y m d : Z) : bool :=
  (1 <=? y) && (y <=? 9999) && (1 <=? m) && (m <=? 12)
  && (1 <=? d) && (d <=? days_in_month y m).

Definition wf (d : datetime) : bool := valid_date (year d) (month d) (day d).

(** Comparison of naive datetimes: lexicographic on the fields. *)
Definition fields (d : datetime) : list Z :=
  [year d; month d; day d; hour d; minute d; second d; microsecond d].

Fixpoint lex_compare (a b : list Z) : comparison :=
  match a, b with
  | x :: a', y :: b' =>
      match x ?= y with
      | Eq => lex_compare a' b'
      | c => c
      end
  | [], [] => Eq
  | [], _ :: _ => Lt
  | _ :: _, [] => Gt
  end.

Definition dt_compare (a b : datetime) : comparison :=
  lex_compare (fields a) (fields b).

(** [a <= b] *)
Definition dt_le (a b : datetime) : bool :=
  match dt_compare a b with Gt => false | _ => true end.

(** [sorted(l)]: a stable sort (insertion after the equal elements). *)
Fixpoint insert_sorted (x : datetime) (l : list datetime) : list datetime :=
  match l with
  | [] => [x]
  | y :: l' => if dt_le y x then y :: insert_sorted x l' else x :: l
  end.

Definition sorted (l : list datetime) : list datetime :=
  fold_left (fun acc x => insert_sorted x acc) l [].

(** Decimal digits. *)
Definition digit (n : Z) : ascii := ascii_of_nat (48 + Z.to_nat (n mod 10)).

Definition pad2 (n : Z) : list ascii := [digit (n / 10); digit n].
Definition pad4 (n : Z) : list ascii :=
  [digit (n / 1000); digit (n / 100); digit (n / 10); digit n].

(** [int(s)] for a string of ASCII digits. *)
Definition int_of (s : string) : Z :=
  fold_left (fun acc c => acc * 10 + (code c - 48)) (chars s) 0.

Definition dash : list ascii := ["-"%char].

(** [d.strftime("%Y-%m-%d")]; the year is written with four digits
    (for years below 1000 the C library may drop the leading zeros). *)
Definition strftime_Ymd (d : datetime) : string :=
  str (pad4 (year d) ++ dash ++ pad2 (month d) ++ dash ++ pad2 (day d)).

(** [d.strftime("%Y-%m-01")] *)
Definition strftime_Ym01 (d : datetime) : string :=
  str (pad4 (year d) ++ dash ++ pad2 (month d) ++ dash ++ pad2 1).

Definition in_range (lo hi : Z) (c : ascii) : bool :=
  (lo <=? code c) && (code c <=? hi).

(** The regular expression [_strptime] builds for ["%Y-%m-%d"]:
    [(\d\d\d\d)-(1[0-2]|0[1-9]|[1-9])-(3[0-1]|[1-2]\d|0[1-9]|[1-9]| [1-9])] *)
Definition re_Y : regex :=
  Group (seqs [Cls is_digit; Cls is_digit; Cls is_digit; Cls is_digit]).
Definition re_m : regex :=
  Group (Alt (Seq (Lit "1") (Cls (in_range 48 50)))
        (Alt (Seq (Lit "0") (Cls (in_range 49 57)))
             (Cls (in_range 49 57)))).
Definition re_d : regex :=
  Group (Alt (Seq (Lit "3") (Cls (in_range 48 49)))
        (Alt (Seq (Cls (in_range 49 50)) (Cls is_digit))
        (Alt (Seq (Lit "0") (Cls (in_range 49 57)))
        (Alt (Cls (in_range 49 57))
             (Seq (Lit " ") (Cls (in_range 49 57))))))).
Definition re_Ymd : regex := seqs [re_Y; Lit "-"; re_m; Lit "-"; re_d].

(** [datetime.strptime(s, "%Y-%m-%d")]; [None] stands for [ValueError]
    (no match, unconverted data, or a day that does not exist). *)
Definition strptime_Ymd (s : string) : option datetime :=
  match match_start re_Ymd s with
  | Some (m, stop) =>
      if Nat.eqb stop (String.length s) then
        let y := int_of (group m 1) in
        let mo := int_of (group m 2) in
        let d := int_of (strip (group m 3)) in
        if valid_date y mo d then Some (date y mo d) else None
      else None
  | None => None
  end.

Definition month_names : list string :=
  ["january"; "february"; "march"; "april"; "may"; "june"; "july";
   "august"; "september"; "october"; "november"; "december"]%string.

Fixpoint index_of (s : string) (l : list string) (i : Z) : option Z :=
  match l with
  | [] => None
  | x :: l' => if String.eqb x s then Some i else index_of s l' (i + 1)
  end.

(** The nanosecond range of a pandas [Timestamp], for a value at
    midnight: 1677-09-22 .. 2262-04-11. *)
Definition timestamp_in_bounds (d : datetime) : bool :=
  match lex_compare [1677; 9; 22] [year d; month d; day d],
        lex_compare [year d; month d; day d] [2262; 4; 11] with
  | Gt, _ | _, Gt => false
  | _, _ => true
  end.

(** [pd.to_datetime(s, format="%B %Y", errors="coerce")], [None] for NaT:
    the format is compiled to [(month name)\s+(\d\d\d\d)], matched without
    regard to case against the whole string; the day defaults to 1; a
    value outside the [Timestamp] range is coerced to NaT. *)
Definition re_B_Y : regex :=
  seqs [Group (alts month_names); Plus is_space;
        Group (Exactly is_digit 4)].

Definition to_datetime_B_Y (s : string) : option datetime :=
  match match_start re_B_Y (lower s) with
  | Some (m, stop) =>
      if Nat.eqb stop (String.length s) then
        match index_of (group m 1) month_names 1 with
        | Some mo =>
            let d := date (int_of (group m 2)) mo 1 in
            if wf d && timestamp_in_bounds d then Some d else None
        | None => None
        end
      else None
  | None => None
  end.

End Dates.

(** ** Values shared by the two scripts *)

Module Common.

(** A cell of a DataFrame column of text: a [str], or NaN for a missing
    value. *)
Inductive cell : Type :=
| NaN
| Str (s : string).

#[global] Instance cell_eq_dec : EqDecision cell.
Proof. solve_decision. Defined.

(** [pd.isna(c)] *)
Definition isna (c : cell) : bool :=
  match c with NaN => true | Str _ => false end.

(** Outcome of a call that may raise an [Exception]. *)
Inductive result (A : Type) : Type :=
| Ok (a : A)
| Raise (msg : string).
Arguments Ok {A} a.
Arguments Raise {A} msg.

(** A Wikipedia page as the scripts read it (a failing fetch of the
    summary is a failing fetch of the page: both sit in the same [try]). *)
Record page : Type := Page { title : string; summary : string }.

(** [Series.dropna()] on a column of cells. *)
Fixpoint dropna (l : list cell) : list string :=
  match l with
  | [] => []
  | NaN :: l' => dropna l'
  | Str s :: l' => s :: dropna l'
  end.

(** [Series.unique()]: distinct values in order of first appearance. *)
Fixpoint unique (l : list string) : list string :=
  match l with
  | [] => []
  | x :: l' => x :: filter (fun y => y ≠ x) (unique l')
  end.

(** Which return statement of an extractor produced the date. *)
Inductive rule : Type :=
| OrdinalDate | MonthYear | ExplicitYear | BareYear | FreeText | Fallback.

End Common.

(** ** [src/Q4fgh.py], step 4c: regex cascade and sequential tiers *)

Module Q4fgh.
Import PyStr Re Dates Common.
Local Open Scope string_scope.

Definition DEFAULT_DATE : string := "2025-01-01".
Definition MIN_VALID_YEAR : Z := 1800.
Definition MAX_VALID_YEAR : Z := 2024.

Definition months : regex := alts month_names.

(** Pattern 1:
    [\b(?:january|...|december)\s+\d{1,2}(?:st|nd|rd|th)?,?\s+\d{4}\b] *)
Definition ordinal_re : regex :=
  seqs [WordB; months; Plus is_space; Rep is_digit 1 (Some 2%nat);
        Opt (alts ["st"; "nd"; "rd"; "th"]); Opt (Lit ",");
        Plus is_space; Exactly is_digit 4; WordB].

(** Pattern 2: [\b(?:january|...|december)\s+\d{4}\b] *)
Definition month_year_re : regex :=
  seqs [WordB; months; Plus is_space; Exactly is_digit 4; WordB].

(** Pattern 3: [\b(?:in|since|from)\s+(\d{4})\b] *)
Definition explicit_year_re : regex :=
  seqs [WordB; alts ["in"; "since"; "from"]; Plus is_space;
        Group (Exactly is_digit 4); WordB].

(** Pattern 4: [\b(1[8-9]\d{2}|20\d{2})\b] *)
Definition year_re : regex :=
  seqs [WordB;
        Group (Alt (seqs [Lit "1"; Cls (in_range 56 57); Exactly is_digit 2])
                   (seqs [Lit "20"; Exactly is_digit 2]));
        WordB].

Section Extractor.
(** [pd.to_datetime(s, errors="coerce")] without a format (dateutil's
    free-form parser); [None] is NaT or an exception, which the cascade
    treats alike. *)
Variable to_datetime : string -> option datetime.
(** [list(datefinder.find_dates(s))] *)
Variable find_dates : string -> list datetime.

(** The cascade of [extract_date_from_text] on a non-blank string that
    is already lower-cased, from pattern 2 on. *)
Definition cascade_from_month_year (text_lower : string)
  : option (rule * string) :=
  let after2 :=
    match search explicit_year_re text_lower with
    | Some m => Some (ExplicitYear, group m 1 +:+ "-01-01")
    | None =>
        match search year_re text_lower with
        | Some m => Some (BareYear, group m 1 +:+ "-01-01")
        | None =>
            match find_dates text_lower with
            | d :: _ => Some (FreeText, strftime_Ymd d)
            | [] => None
            end
        end
    end in
  match search month_year_re text_lower with
  | Some m =>
      match to_datetime_B_Y (group m 0) with
      | Some dt => Some (MonthYear, strftime_Ym01 dt)
      | None => after2
      end
  | None => after2
  end.

(** [extract_date_from_text] with the rule that fired; [None] when the
    function falls to its last line. *)
Definition extract_with_rule (text : cell) : option (rule * string) :=
  match text with
  | NaN => None
  | Str text =>
      if negb (truthy (strip text)) then None
      else
        let text_lower := lower text in
        match search ordinal_re text_lower with
        | Some m =>
            match to_datetime (group m 0) with
            | Some dt => Some (OrdinalDate, strftime_Ymd dt)
            | None => cascade_from_month_year text_lower
            end
        | None => cascade_from_month_year text_lower
        end
  end.

Definition extract_date_from_text (text : cell) : string :=
  match extract_with_rule text with
  | Some (_, d) => d
  | None => DEFAULT_DATE
  end.

End Extractor.

(** The year test of [validate_dates]:
    [MIN_VALID_YEAR <= datetime.strptime(d, "%Y-%m-%d").year <= MAX_VALID_YEAR]
    (written [false] where [strptime] would raise). *)
Definition year_valid (d : string) : bool :=
  match strptime_Ymd d with
  | Some dt => ((MIN_VALID_YEAR <=? year dt)
                && (year dt <=? MAX_VALID_YEAR))%Z
  | None => false
  end.

(** Rows of the DataFrame at the three stages of [main]. *)
Record row : Type := Row { description : cell; location : cell }.

Record dated_row : Type := DatedRow {
  d_row : row;
  Haunted_Places_Date : string
}.

Record wiki_row : Type := WikiRow {
  w_row : dated_row;
  w_wiki_date : cell;
  w_Final_Date : cell
}.

Record out_row : Type := OutRow {
  o_row : dated_row;
  wiki_date : cell;
  dbpedia_date : cell;
  Final_Date : cell
}.

(** [c == DEFAULT_DATE] for a cell (NaN equals nothing). *)
Definition is_default (c : cell) : bool :=
  match c with
  | Str s => String.eqb s DEFAULT_DATE
  | NaN => false
  end.

(** Column brought by [df.merge(table, on="location", how="left")] for a
    table with one row per distinct location: the row's value, NaN where
    the key has no partner. *)
Fixpoint assoc (k : string) (table : list (string * string)) : cell :=
  match table with
  | [] => NaN
  | (k', v) :: table' => if String.eqb k' k then Str v else assoc k table'
  end.

Definition merged_column (key : cell) (table : list (string * string))
  : cell :=
  match key with
  | Str k => assoc k table
  | NaN => NaN
  end.

Section Pipeline.
Variable to_datetime : string -> option datetime.
Variable find_dates : string -> list datetime.
(** The outside world the network calls act on. *)
Variable World : Type.
(** [wikipedia.search(q)], [wikipedia.page(t)] *)
Variable wikipedia_search : string -> World -> result (list string) * World.
Variable wikipedia_page : string -> World -> result page * World.
(** The date values of the bindings a DBpedia query for a label
    returns ([sparql.query().convert()]). *)
Variable sparql_query : string -> World -> result (list string) * World.

Let extract := extract_date_from_text to_datetime find_dates.

(** Body of the [for loc in missing_locations] loop of
    [run_wikipedia_approach]: the [wiki_date] recorded for [loc]. *)
Definition wikipedia_date (loc : string) (w : World) : string * World :=
  match wikipedia_search loc w with
  | (Ok [], w1) => (DEFAULT_DATE, w1)
  | (Ok (first :: _), w1) =>
      match wikipedia_page first w1 with
      | (Ok p, w2) => (extract (Str (summary p)), w2)
      | (Raise _, w2) => (DEFAULT_DATE, w2)
      end
  | (Raise _, w1) => (DEFAULT_DATE, w1)
  end.

Fixpoint lookup_all (f : string -> World -> string * World)
    (locs : list string) (w : World) : list (string * string) * World :=
  match locs with
  | [] => ([], w)
  | loc :: locs' =>
      let '(d, w1) := f loc w in
      let '(table, w2) := lookup_all f locs' w1 in
      ((loc, d) :: table, w2)
  end.

(** Locations of the rows whose date column holds the default. *)
Definition missing_locations {R} (date_of : R -> cell) (loc_of : R -> cell)
    (df : list R) : list string :=
  unique (dropna (map loc_of (filter (fun r => is_default (date_of r)) df))).

(** [run_wikipedia_approach]; an empty [wiki_rows] makes a DataFrame
    without a [location] column and the merge raises [KeyError]. *)
Definition run_wikipedia_approach (df : list dated_row) (w : World)
  : result (list wiki_row) * World :=
  let locs := missing_locations (fun r => Str (Haunted_Places_Date r))
                                (fun r => location (d_row r)) df in
  let '(wiki_rows, w1) := lookup_all wikipedia_date locs w in
  match wiki_rows with
  | [] => (Raise "KeyError: location", w1)
  | _ =>
      (Ok (map (fun r =>
             let wd := merged_column (location (d_row r)) wiki_rows in
             WikiRow r wd
               (if String.eqb (Haunted_Places_Date r) DEFAULT_DATE
                then wd else Str (Haunted_Places_Date r))) df), w1)
  end.

(** [query_dbpedia] *)
Definition query_dbpedia (place_name : string) (w : World)
  : string * World :=
  match sparql_query place_name w with
  | (Ok (value :: _), w1) => (extract (Str value), w1)
  | (Ok [], w1) => (DEFAULT_DATE, w1)
  | (Raise _, w1) => (DEFAULT_DATE, w1)
  end.

(** [run_dbpedia_approach] *)
Definition run_dbpedia_approach (df : list wiki_row) (w : World)
  : result (list out_row) * World :=
  let locs := missing_locations w_Final_Date
                                (fun r => location (d_row (w_row r))) df in
  let '(dbpedia_rows, w1) := lookup_all query_dbpedia locs w in
  match dbpedia_rows with
  | [] => (Raise "KeyError: location", w1)
  | _ =>
      (Ok (map (fun r =>
             let dd := merged_column (location (d_row (w_row r)))
                                     dbpedia_rows in
             OutRow (w_row r) (w_wiki_date r) dd
               (if is_default (w_Final_Date r)
                then dd else w_Final_Date r)) df), w1)
  end.

(** [main], from the loaded rows to the rows written to
    [haunted_places_final.tsv]. *)
Definition main (rows : list row) (w : World)
  : result (list out_row) * World :=
  let df := map (fun r => DatedRow r (extract (description r))) rows in
  match run_wikipedia_approach df w with
  | (Ok df1, w1) => run_dbpedia_approach df1 w1
  | (Raise e, w1) => (Raise e, w1)
  end.

End Pipeline.
Arguments wikipedia_date to_datetime find_dates {World}
  wikipedia_search wikipedia_page loc w.
Arguments lookup_all {World} f locs w.
Arguments run_wikipedia_approach to_datetime find_dates {World}
  wikipedia_search wikipedia_page df w.
Arguments query_dbpedia to_datetime find_dates {World} sparql_query
  place_name w.
Arguments run_dbpedia_approach to_datetime find_dates {World} sparql_query
  df w.
Arguments main to_datetime find_dates {World}
  wikipedia_search wikipedia_page sparql_query rows w.

End Q4fgh.

(** ** [src/verifyparallel.py]: cached tiers behind a thread pool *)

Module verifyparallel.
Import PyStr Re Dates Common.

Definition DEFAULT_DATE : string := "2025-01-01".
Definition MIN_VALID_YEAR : Z := 1800.
Definition MAX_VALID_YEAR : Z := 2024.

Definition USE_BROADER_APPROACH : bool := true.
Definition SAMPLE_MISSING_FRAC : QArith_base.Q := QArith_base.Qmake 1 2.
Definition MAX_WORKERS_NARROW : Z := 10.
Definition MAX_WORKERS_BROAD : Z := 8.
Definition SKIP_SHORT_LOCATIONS : bool := true.
Definition MIN_LOCATION_LENGTH : Z := 10.

(** [validate_year_in_range] *)
Definition validate_year_in_range (date_str : string) : bool :=
  match strptime_Ymd date_str with
  | Some dt => (MIN_VALID_YEAR <=? year dt) && (year dt <=? MAX_VALID_YEAR)
  | None => false
  end.

(** The [for d in df_dates_sorted] loop: the first date whose ISO form
    validates. *)
Fixpoint first_valid (l : list datetime) : option string :=
  match l with
  | [] => None
  | d :: l' =>
      let iso_str := strftime_Ymd d in
      if validate_year_in_range iso_str then Some iso_str
      else first_valid l'
  end.

Section Extractor.
(** [list(datefinder.find_dates(s))], [dateparser.parse(s)] *)
Variable find_dates : string -> list datetime.
Variable dateparser_parse : string -> option datetime.

Definition dateparser_pass (text : string) : option (rule * string) :=
  match dateparser_parse text with
  | Some parsed =>
      let iso_str := strftime_Ymd (replace_tzinfo_None parsed) in
      if validate_year_in_range iso_str then Some (Fallback, iso_str)
      else None
  | None => None
  end.

(** [extract_date_from_text] with the pass that produced the date. *)
Definition extract_with_rule (text : cell) : option (rule * string) :=
  match text with
  | NaN => None
  | Str text =>
      if negb (truthy (strip text)) then None
      else
        let df_dates := find_dates text in
        let df_dates_sorted := sorted (map replace_tzinfo_None df_dates) in
        match first_valid df_dates_sorted with
        | Some iso_str => Some (FreeText, iso_str)
        | None => dateparser_pass text
        end
  end.

Definition extract_date_from_text (text : cell) : string :=
  match extract_with_rule text with
  | Some (_, d) => d
  | None => DEFAULT_DATE
  end.
End Extractor.

(** [generate_narrow_search_terms] *)
Definition generate_narrow_search_terms (location : string) : list string :=
  [location +:+ " history";
   "history of " +:+ location;
   location +:+ " founding";
   location +:+ " historical";
   location +:+ " establishment"].

(** The test that skips disambiguation pages. *)
Definition is_disambiguation (p : page) : bool :=
  contains "may refer to:" (lower (summary p))
  || contains "disambiguation" (lower (title p)).

(** [should_skip_location] on a [str]. *)
Definition should_skip_location (loc : string) : bool :=
  if Z.of_nat (List.length (split (strip loc))) <? 2 then true
  else if len (strip loc) <? MIN_LOCATION_LENGTH then true
  else false.

(** A network call, as recorded in the call log of the state. *)
Inductive call : Type :=
| Search (query : string)
| Fetch (title : string).

(** The completed futures of one [parallel_lookup]: every key with the
    outcome of its [run_one]. *)
Definition collect (completed : list (string * result string))
  : gmap string string :=
  fold_left (fun results_map '(loc, r) =>
               match r with
               | Ok date_str => <[loc := date_str]> results_map
               | Raise _ => <[loc := DEFAULT_DATE]> results_map
               end) completed ∅.

Section Scheduler.
Variable S : Type.
Variable lookup_func : string -> S -> result string * S.

(** The workers: each submitted location is run once; the model runs
    them one after the other in the order of the list. *)
Fixpoint run_all (locations : list string) (st : S)
  : list (string * result string) * S :=
  match locations with
  | [] => ([], st)
  | loc :: locations' =>
      let '(r, st1) := lookup_func loc st in
      let '(futures, st2) := run_all locations' st1 in
      ((loc, r) :: futures, st2)
  end.

(** [parallel_lookup] *)
Definition parallel_lookup (locations : list string) (st : S)
  : gmap string string * S :=
  let '(futures, st1) := run_all locations st in
  (collect futures, st1).
End Scheduler.
Arguments run_all {S} lookup_func locations st.
Arguments parallel_lookup {S} lookup_func locations st.

Section Lookups.
Variable find_dates : string -> list datetime.
Variable dateparser_parse : string -> option datetime.
Variable World : Type.
Variable wikipedia_search : string -> World -> result (list string) * World.
Variable wikipedia_page : string -> World -> result page * World.

Let extract := extract_date_from_text find_dates dateparser_parse.

(** The module-level [wiki_cache], the outside world, and a log of
    the network calls made so far. *)
Record state : Type := State {
  wiki_cache : gmap string string;
  world : World;
  calls : list call
}.

Definition do_search (q : string) (st : state)
  : result (list string) * state :=
  let '(r, w) := wikipedia_search q (world st) in
  (r, State (wiki_cache st) w (calls st ++ [Search q])).

Definition do_page (t : string) (st : state) : result page * state :=
  let '(r, w) := wikipedia_page t (world st) in
  (r, State (wiki_cache st) w (calls st ++ [Fetch t])).

(** The [for title in results[:2]] loop, shared by both lookups. *)
Fixpoint scan_titles (titles : list string) (possible_dates : list string)
    (st : state) : list string * state :=
  match titles with
  | [] => (possible_dates, st)
  | t :: titles' =>
      match do_page t st with
      | (Ok p, st1) =>
          if is_disambiguation p then scan_titles titles' possible_dates st1
          else
            let found := extract (Str (summary p)) in
            if String.eqb found DEFAULT_DATE
            then scan_titles titles' possible_dates st1
            else scan_titles titles' (possible_dates ++ [found]) st1
      | (Raise _, st1) => scan_titles titles' possible_dates st1
      end
  end.

(** The [for query_str in ...] loop of the narrow lookup. *)
Fixpoint narrow_queries (queries : list string)
    (possible_dates : list string) (st : state) : list string * state :=
  match queries with
  | [] => (possible_dates, st)
  | query_str :: queries' =>
      match do_search query_str st with
      | (Ok [], st1) => narrow_queries queries' possible_dates st1
      | (Ok results, st1) =>
          let '(possible_dates1, st2) :=
            scan_titles (firstn 2 results) possible_dates st1 in
          match possible_dates1 with
          | [] => narrow_queries queries' possible_dates1 st2
          | _ => (possible_dates1, st2)
          end
      | (Raise _, st1) => narrow_queries queries' possible_dates st1
      end
  end.

(** The tail of both lookups: [min(possible_dates)] if there is a
    candidate, the default otherwise, stored in the cache and returned. *)
Definition store_best (location : string) (possible_dates : list string)
    (st : state) : string * state :=
  let best_date := min_list DEFAULT_DATE possible_dates in
  (best_date,
   State (<[location := best_date]> (wiki_cache st)) (world st) (calls st)).

(** [narrow_wikipedia_lookup_one] *)
Definition narrow_wikipedia_lookup_one (location : string) (st : state)
  : string * state :=
  match wiki_cache st !! location with
  | Some cached => (cached, st)
  | None =>
      let '(possible_dates, st1) :=
        narrow_queries (generate_narrow_search_terms location) [] st in
      store_best location possible_dates st1
  end.

(** [broad_wikipedia_lookup_one] *)
Definition broad_wikipedia_lookup_one (location : string) (st : state)
  : string * state :=
  match wiki_cache st !! location with
  | Some cached => (cached, st)
  | None =>
      let '(possible_dates, st1) :=
        match do_search location st with
        | (Ok results, st1) => scan_titles (firstn 2 results) [] st1
        | (Raise _, st1) => ([], st1)
        end in
      store_best location possible_dates st1
  end.

(** A lookup as the scheduler sees it: these two never raise. *)
Definition as_lookup (f : string -> state -> string * state)
  : string -> state -> result string * state :=
  fun loc st => let '(d, st1) := f loc st in (Ok d, st1).

End Lookups.
Arguments State {World} wiki_cache world calls.
Arguments wiki_cache {World} s.
Arguments world {World} s.
Arguments calls {World} s.
Arguments do_search {World} wikipedia_search q st.
Arguments do_page {World} wikipedia_page t st.
Arguments scan_titles find_dates dateparser_parse {World} wikipedia_page.
Arguments narrow_queries find_dates dateparser_parse {World}
  wikipedia_search wikipedia_page.
Arguments store_best {World} location possible_dates st.
Arguments narrow_wikipedia_lookup_one find_dates dateparser_parse {World}
  wikipedia_search wikipedia_page location st.
Arguments broad_wikipedia_lookup_one find_dates dateparser_parse {World}
  wikipedia_search wikipedia_page location st.
Arguments as_lookup {World} f.

(** Rows read from the input file and rows written to the output file. *)
Record row : Type := Row { description : cell; location : cell }.

Record out_row : Type := OutRow {
  o_row : row;
  LocalDate : string;
  NarrowWikiDate : string;
  BroadWikiDate : option string;   (* the column exists in the broad run *)
  FinalDate : string
}.

(** [results.get(row["location"], DEFAULT_DATE)] *)
Definition dict_get (results : gmap string string) (loc : cell) : string :=
  match loc with
  | Str l => default DEFAULT_DATE (results !! l)
  | NaN => DEFAULT_DATE
  end.

(** The lambda of both merges:
    [results.get(location, DEFAULT_DATE) if prior == DEFAULT_DATE else prior] *)
Definition merge_tier (results : gmap string string) (prior : string)
    (loc : cell) : string :=
  if String.eqb prior DEFAULT_DATE then dict_get results loc else prior.

(** The distinct locations of the rows whose date is still the default,
    without the short ones. *)
Definition select_locations (df : list (string * cell)) : list string :=
  let missing_locs :=
    unique (dropna (map snd
      (filter (fun r => String.eqb (fst r) DEFAULT_DATE) df))) in
  if SKIP_SHORT_LOCATIONS
  then filter (fun loc => negb (should_skip_location loc)) missing_locs
  else missing_locs.

(** [int(len(series) * SAMPLE_MISSING_FRAC)] *)
Definition sample_size (n : nat) : nat :=
  Z.to_nat (Qround.Qfloor
    (QArith_base.Qmult (QArith_base.inject_Z (Z.of_nat n))
                       SAMPLE_MISSING_FRAC)).

Section Main.
Variable find_dates : string -> list datetime.
Variable dateparser_parse : string -> option datetime.
Variable World : Type.
Variable wikipedia_search : string -> World -> result (list string) * World.
Variable wikipedia_page : string -> World -> result page * World.
(** [Series.sample(n, random_state=seed)] as a list of values. *)
Variable sample : list string -> nat -> Z -> list string.

Let extract := extract_date_from_text find_dates dateparser_parse.
Let narrow :=
  narrow_wikipedia_lookup_one find_dates dateparser_parse
                              wikipedia_search wikipedia_page.
Let broad :=
  broad_wikipedia_lookup_one find_dates dateparser_parse
                             wikipedia_search wikipedia_page.

Definition sample_locations (missing_locs : list string) (seed : Z)
  : list string :=
  if negb (QArith_base.Qle_bool (QArith_base.inject_Z 1) SAMPLE_MISSING_FRAC)
  then sample missing_locs (sample_size (List.length missing_locs)) seed
  else missing_locs.

(** The locations submitted to a tier, from the date column it fills. *)
Definition tier_keys (df : list (string * cell)) (seed : Z) : list string :=
  sample_locations (select_locations df) seed.

(** One tier: the parallel lookup, skipped when nothing was sampled. *)
Definition run_tier (f : string -> state World -> string * state World)
    (sampled : list string) (st : state World)
  : gmap string string * state World :=
  match sampled with
  | [] => (∅, st)
  | _ => parallel_lookup (as_lookup f) sampled st
  end.

(** [main], from the loaded rows to the rows written. *)
Definition main (rows : list row) (st : state World)
  : list out_row * state World :=
  let df := map (fun r => (r, extract (description r))) rows in
  let sampled := tier_keys (map (fun '(r, d) => (d, location r)) df) 42 in
  let '(narrow_results, st1) := run_tier narrow sampled st in
  let df1 := map (fun '(r, d) =>
                    (r, d, merge_tier narrow_results d (location r))) df in
  if USE_BROADER_APPROACH then
    let sampled2 :=
      tier_keys (map (fun '(r, _, n) => (n, location r)) df1) 999 in
    let '(broad_results, st2) := run_tier broad sampled2 st1 in
    (map (fun '(r, d, n) =>
            let b := merge_tier broad_results n (location r) in
            OutRow r d n (Some b) b) df1, st2)
  else
    (map (fun '(r, d, n) => OutRow r d n None n) df1, st1).

End Main.
Arguments run_tier {World} f sampled st.
Arguments main find_dates dateparser_parse {World}
  wikipedia_search wikipedia_page sample rows st.

End verifyparallel.

(** ** Test doubles: fixed behaviours of the outside libraries *)

Module Doubles.
Import PyStr Dates Common.

(** pandas parsing nothing, datefinder and dateparser finding nothing. *)
Definition to_datetime_none : string -> option datetime := fun _ => None.
Definition find_dates_none : string -> list datetime := fun _ => [].
Definition dateparser_none : string -> option datetime := fun _ => None.

(** pandas parsing the one ordinal date of the examples. *)
Definition to_datetime_oct : string -> option datetime :=
  fun s => if String.eqb s "october 3rd, 1995"
           then Some (date 1995 10 3) else None.

(** datefinder reporting two dates in the order they stand in the text,
    as for "seen 12/25/99, then again 01/02/85". *)
Definition find_dates_two : string -> list datetime :=
  fun _ => [date 1999 12 25; date 1985 1 2].

(** An unreachable network: every search comes back empty, every page
    fetch fails, DBpedia has no binding. *)
Definition search_empty : string -> unit -> result (list string) * unit :=
  fun _ w => (Ok [], w).
Definition page_error : string -> unit -> result page * unit :=
  fun _ w => (Raise "PageError", w).
Definition sparql_empty : string -> unit -> result (list string) * unit :=
  fun _ w => (Ok [], w).

(** A network whose answers are the opposite of [search_empty]: one page
    for every query, with a dated summary. *)
Definition search_one : string -> unit -> result (list string) * unit :=
  fun q w => (Ok [q], w).
Definition page_dated : string -> unit -> result page * unit :=
  fun t w => (Ok (Page t "Founded on 4 July 1901."), w).
Definition find_dates_1901 : string -> list datetime :=
  fun _ => [date 1901 7 4].

(** A network that knows a place only under its plain name: the
    templated queries of the narrow lookup come back empty. *)
Definition search_plain_only : string -> unit -> result (list string) * unit :=
  fun q w => if String.eqb q "Millbrook Township"
             then (Ok ["Millbrook Township"], w) else (Ok [], w).

(** A network that answers every query with one page named like the
    query, whose summary repeats the title; and a datefinder that reads a
    date off a keyword of the text: the templated "history" queries of
    the narrow lookup lead to 1887, a plain name with "Hill" to 1923. *)
Definition page_echo : string -> unit -> result page * unit :=
  fun t w => (Ok (Page t t), w).
Definition find_dates_keyword : string -> list datetime :=
  fun s => if contains "history" s then [date 1887 1 1]
           else if contains "Founded" s then [date 1901 7 4]
           else if contains "Hill" s then [date 1923 5 6]
           else [].

(** [Series.sample] replaced by taking the first [n] values. *)
Definition sample_first : list string -> nat -> Z -> list string :=
  fun l n _ => firstn n l.

(** A mocked adapter: wraps a lookup function and records the key of
    every invocation. *)
Definition counting {S} (f : string -> S -> result string * S)
  : string -> S * list string -> result string * (S * list string) :=
  fun key '(st, log) =>
    let '(r, st1) := f key st in (r, (st1, log ++ [key])).

(** A lookup that fails for one key and answers for the others. *)
Definition flaky : string -> unit -> result string * unit :=
  fun key w => if String.eqb key "Bad Creek Bridge"
               then (Raise "ConnectionError", w)
               else (Ok "1901-07-04", w).

End Doubles.

(** ** Vocabulary of the statements *)

Module Vocabulary.
Import PyStr Dates Common.

(** The non-strict lexicographic order behind [dt_le]. *)
Definition lex_le (a b : list Z) : Prop := lex_compare a b <> Gt.

(** A list in ascending order of [dt_le]. *)
Definition ordered (l : list datetime) : Prop :=
  StronglySorted (fun a b => dt_le a b = true) l.

(** The year of a candidate lies in [MIN_VALID_YEAR, MAX_VALID_YEAR]. *)
Definition year_in_range (d : datetime) : bool :=
  (verifyparallel.MIN_VALID_YEAR <=? year d)
  && (year d <=? verifyparallel.MAX_VALID_YEAR).

(** "The earliest candidate whose year lies in the valid range", in the
    words of the specification. *)
Definition spec_earliest_in_range (cands : list datetime) (e : datetime)
  : Prop :=
  In e cands /\ year_in_range e = true
  /\ forall c, In c cands -> year_in_range c = true -> dt_le e c = true.

(** The date a completed future contributes to the result map. *)
Definition absorbed (r : result string) : string :=
  match r with
  | Ok date_str => date_str
  | Raise _ => verifyparallel.DEFAULT_DATE
  end.

(** One step of [collect]. *)
Definition record_future (results_map : gmap string string)
    (f : string * result string) : gmap string string :=
  <[fst f := absorbed (snd f)]> results_map.

(** The state a lookup finds when the lookups of the keys submitted before
    it, [pre], have run; and the outcome of the lookup of [loc] on it: the
    key's own result. *)
Definition state_before {S : Type}
    (lookup_func : string -> S -> result string * S)
    (pre : list string) (st : S) : S :=
  fold_left (fun s loc => snd (lookup_func loc s)) pre st.

Definition own_result {S : Type}
    (lookup_func : string -> S -> result string * S)
    (pre : list string) (loc : string) (st : S) : result string :=
  fst (lookup_func loc (state_before lookup_func pre st)).

(** Case analysis on an integer known to lie in a small interval. *)
Ltac enum_Z m lo hi :=
  let b := eval compute in (Z.leb lo hi) in
  lazymatch b with
  | true =>
      destruct (Z.eq_dec m lo) as [-> | ?];
      [ | let lo' := eval compute in (lo + 1) in enum_Z m lo' hi ]
  | false => exfalso; lia
  end.

End Vocabulary.

(** ** [src/Q4fgh.py], "foura and b.py": evidence flags and their columns *)

Module Evidence.
Import PyStr Common.

Definition AUDIO_KEYWORDS : list string :=
  ["sobbing"; "weeping"; "humming"; "buzzing"; "thumping"; "tapping";
   "creaking"; "rustling"; "scratching"; "growling"; "hissing"; "roaring";
   "ringing"; "ticking";
   "unexplained noise"; "strange sound"; "eerie sound"; "faint noise";
   "disembodied voice"; "phantom sounds"; "EVP";
   "bells"; "piano"; "static"; "echoing"; "muffled"; "unnatural silence";
   "noises"; "sounds"; "voices"; "whispers"; "screams"; "cries"; "moans";
   "groans"; "laughter"; "giggling"; "footsteps"; "knocking"; "banging";
   "clanking"; "rattling"; "slamming"; "splashing"; "music"; "singing";
   "applause"; "gunshots";
   "chanting"; "yelling"; "shouting"].

Definition IMAGE_KEYWORDS : list string :=
  ["observed"; "glimpse"; "shape"; "form"; "outline"; "silhouette";
   "transparent figure"; "translucent figure";
   "dematerializing"; "disappearing"; "vanishing"; "floating figure";
   "hovering figure";
   "photograph"; "video"; "film"; "image"; "picture"; "apparition"; "figure";
   "shadowy figure"; "shadow"; "ghost"; "specter"; "spectre"; "phantom";
   "wraith"; "shade"; "spirit"; "entity"; "ectoplasm";
   "orb"; "mist"; "glowing"; "glowing eyes"; "red eyes"; "unexplained light";
   "strange light"; "flickering light"; "flashing light";
   "seen"; "sighting"; "witnessed"].

(** [any(kw in text_lower for kw in keywords)] *)
Definition any_keyword (keywords : list string) (text_lower : string) : bool :=
  existsb (fun kw => contains kw text_lower) keywords.

(** [has_audio_evidence], [has_image_evidence] *)
Definition has_audio_evidence (text : cell) : bool :=
  match text with
  | NaN => false
  | Str t => any_keyword AUDIO_KEYWORDS (lower t)
  end.

Definition has_image_evidence (text : cell) : bool :=
  match text with
  | NaN => false
  | Str t => any_keyword IMAGE_KEYWORDS (lower t)
  end.

(** The column index of a DataFrame with distinct column names, and the
    operations [add_evidence_columns] applies to it. *)
Definition columns : Type := list string.

(** [df[name] = ...]: a new column goes to the end, an existing one keeps
    its place. *)
Definition set_column (name : string) (cols : columns) : columns :=
  if existsb (String.eqb name) cols then cols else cols ++ [name].

Fixpoint index_from (name : string) (cols : columns) (i : nat) : option nat :=
  match cols with
  | [] => None
  | c :: cols' =>
      if String.eqb c name then Some i else index_from name cols' (S i)
  end.

(** [df.columns.get_loc(name)] *)
Definition get_loc (name : string) (cols : columns) : result nat :=
  match index_from name cols 0 with
  | Some i => Ok i
  | None => Raise "KeyError"
  end.

Fixpoint remove_column (name : string) (cols : columns) : columns :=
  match cols with
  | [] => []
  | c :: cols' =>
      if String.eqb c name then cols' else c :: remove_column name cols'
  end.

(** [df.pop(name)] *)
Definition pop (name : string) (cols : columns) : result columns :=
  if existsb (String.eqb name) cols then Ok (remove_column name cols)
  else Raise "KeyError".

(** [df.insert(loc, name, values)] *)
Definition insert (loc : nat) (name : string) (cols : columns)
  : result columns :=
  if existsb (String.eqb name) cols then Raise "ValueError"
  else if Nat.ltb (List.length cols) loc then Raise "IndexError"
  else Ok (firstn loc cols ++ name :: skipn loc cols).

Definition bind {A B} (r : result A) (k : A -> result B) : result B :=
  match r with
  | Ok a => k a
  | Raise e => Raise e
  end.

(** [df[name]], read: the column must exist. *)
Definition getitem (name : string) (cols : columns) : result unit :=
  if existsb (String.eqb name) cols then Ok tt
  else Raise ("KeyError: " +:+ name).

(** [add_evidence_columns], on the column index of a frame whose column
    names are distinct.  Both assignments read [df["description"]]
    first. *)
Definition add_evidence_columns (cols : columns) : result columns :=
  bind (getitem "description" cols) (fun _ =>
  let cols1 := set_column "Audio Evidence" cols in
  bind (getitem "description" cols1) (fun _ =>
  let cols2 := set_column "Image/Video/Visual Evidence" cols1 in
  bind (get_loc "Haunted Places Date" cols2) (fun date_col_index =>
  bind (pop "Audio Evidence" cols2) (fun cols3 =>
  bind (pop "Image/Video/Visual Evidence" cols3) (fun cols4 =>
  bind (insert date_col_index "Audio Evidence" cols4) (fun cols5 =>
  insert (date_col_index + 1) "Image/Video/Visual Evidence" cols5)))))).

End Evidence.

(** ** [src/unnamed/part_000]: time of day and witness counts *)

Module TimeOfDay.
Import PyStr Common.

Definition MORNING_SYNONYMS : list string :=
  ["morning"; "am"; "sunrise"; "dawn"; "early"; "daybreak"; "noon";
   "afternoon"].

Definition EVENING_SYNONYMS : list string :=
  ["evening"; "night"; "pm"; "nightfall"; "late"; "midnight"; "wee";
   "overnight"; "mid-night"].

Definition DUSK_SYNONYMS : list string := ["dusk"; "twilight"; "sunset"].

(** [word in tokens] *)
Definition mem (word : string) (tokens : list string) : bool :=
  existsb (String.eqb word) tokens.

(** [any(word in tokens for word in synonyms)] *)
Definition any_in (synonyms tokens : list string) : bool :=
  existsb (fun word => mem word tokens) synonyms.

(** [parse_time_of_day] on a [str]. *)
Definition parse_time_of_day (text : string) : string :=
  if negb (truthy text) || negb (truthy (strip text)) then "Unknown"
  else
    let text_lower := lower text in
    let tokens := split text_lower in
    if any_in MORNING_SYNONYMS tokens then "Morning"
    else if any_in DUSK_SYNONYMS tokens then "Dusk"
    else if any_in EVENING_SYNONYMS tokens then "Evening"
    else "Unknown".

End TimeOfDay.

Module Witness.
Import PyStr Common.

Definition FUZZY_NUMBERS : list (string * Z) :=
  [("some", 3); ("several", 4); ("few", 2); ("couple", 2); ("dozen", 12);
   ("handful", 5); ("many", 10); ("multiple", 4); ("numerous", 10)].

Definition WITNESS_KEYWORDS : list string :=
  ["people"; "witness"; "witnesses"; "persons"; "locals"; "onlookers";
   "visitors"; "guests"; "employees"; "kids"; "children"; "folks"; "crowd"].

Definition WITNESS_VERBS : list string :=
  ["see"; "saw"; "spotted"; "witnessed"; "reported"; "claimed";
   "encountered"; "viewed"; "observed"].

Definition IGNORE_CONTEXT : list string :=
  ["kill"; "killed"; "died"; "dying"; "dead"; "death"; "accident"; "burned"].

(** What the functions read of a spaCy document: the lemma of every
    token, and the entities with label, text and end offset (a token
    offset, so never negative). *)
Record token : Type := Token { lemma_ : string }.
Record span : Type := Span { label_ : string; text : string; end_ : Z }.
Record doc : Type := Doc { tokens : list token; ents : list span }.

(** [x in keywords] *)
Definition mem (x : string) (keywords : list string) : bool :=
  existsb (String.eqb x) keywords.

(** [FUZZY_NUMBERS[lemma]], [None] when the key is absent. *)
Fixpoint fuzzy_number (lemma : string) (table : list (string * Z))
  : option Z :=
  match table with
  | [] => None
  | (k, v) :: table' =>
      if String.eqb k lemma then Some v else fuzzy_number lemma table'
  end.

(** [len(doc)] *)
Definition doc_len (d : doc) : Z := Z.of_nat (List.length (tokens d)).

(** [doc[i].lemma_.lower()] for an index inside the document (every
    access of the source is guarded so). *)
Definition lemma_at (d : doc) (i : Z) : string :=
  if (0 <=? i) && (i <? doc_len d)
  then match nth_error (tokens d) (Z.to_nat i) with
       | Some t => lower (lemma_ t)
       | None => ""
       end
  else "".

(** [int(s)] for ASCII text: surrounding whitespace, an optional sign,
    digits, single underscores between digits; [None] is [ValueError]. *)
Fixpoint int_digits (acc : Z) (after_underscore : bool) (l : list ascii)
  : option Z :=
  match l with
  | [] => if after_underscore then None else Some acc
  | c :: l' =>
      if is_digit c then int_digits (acc * 10 + (code c - 48)) false l'
      else if Ascii.eqb c "_" && negb after_underscore
           then int_digits acc true l'
           else None
  end.

Definition int_unsigned (l : list ascii) : option Z :=
  match l with
  | c :: _ => if is_digit c then int_digits 0 false l else None
  | [] => None
  end.

Definition py_int (s : string) : option Z :=
  match chars (strip s) with
  | "+"%char :: l => int_unsigned l
  | "-"%char :: l => option_map Z.opp (int_unsigned l)
  | l => int_unsigned l
  end.

(** [death_context_nearby(doc, idx, window=5)]: the tokens
    [idx+1 .. min(len(doc), idx+window+1) - 1]. *)
Definition death_context_nearby (d : doc) (idx : Z) : bool :=
  let window := 5 in
  let end_idx := Z.min (doc_len d) (idx + window + 1) in
  existsb (fun k => let i := idx + 1 + Z.of_nat k in
                    (i <? end_idx) && mem (lemma_at d i) IGNORE_CONTEXT)
          (seq 0 5).

(** The two inner loops of [check_cardinals] for one entity. *)
Definition keyword_near (d : doc) (ent_i : Z) : bool :=
  existsb (fun forward_steps =>
             (ent_i + forward_steps <? doc_len d)
             && mem (lemma_at d (ent_i + forward_steps)) WITNESS_KEYWORDS)
          [1; 2]
  || existsb (fun backward_steps =>
                (0 <=? ent_i - backward_steps)
                && mem (lemma_at d (ent_i - backward_steps)) WITNESS_KEYWORDS)
             [1; 2].

(** [check_cardinals], as a loop over [doc.ents]. *)
Fixpoint check_entities (d : doc) (es : list span) : Z :=
  match es with
  | [] => 0
  | ent :: es' =>
      if String.eqb (label_ ent) "CARDINAL" then
        match py_int (text ent) with
        | None => check_entities d es'
        | Some val =>
            let ent_i := end_ ent - 1 in
            if death_context_nearby d ent_i then check_entities d es'
            else if keyword_near d ent_i then val
            else check_entities d es'
        end
      else check_entities d es'
  end.

Definition check_cardinals (d : doc) : Z := check_entities d (ents d).

(** [fuzzy_witness_synonyms], as a loop over the lemmas with the one
    before the cursor. *)
Fixpoint fuzzy_loop (before : option string) (lemmas : list string) : Z :=
  match lemmas with
  | [] => 0
  | lemma :: rest =>
      match fuzzy_number lemma FUZZY_NUMBERS with
      | Some n =>
          if match rest with
             | next :: _ => mem next WITNESS_KEYWORDS
             | [] => false
             end then n
          else if match before with
                  | Some p => mem p WITNESS_KEYWORDS
                  | None => false
                  end then n
          else fuzzy_loop (Some lemma) rest
      | None => fuzzy_loop (Some lemma) rest
      end
  end.

Definition fuzzy_witness_synonyms (d : doc) : Z :=
  fuzzy_loop None (map (fun t => lower (lemma_ t)) (tokens d)).

(** [has_witness_mention] *)
Definition has_witness_mention (d : doc) : bool :=
  existsb (fun t => mem (lower (lemma_ t)) WITNESS_KEYWORDS
                    || mem (lower (lemma_ t)) WITNESS_VERBS)
          (tokens d).

Section Count.
(** [nlp(text)], the spaCy pipeline. *)
Variable nlp : string -> doc.

(** [advanced_witness_count] on a [str]. *)
Definition advanced_witness_count (text : string) : Z :=
  if negb (truthy text) then 0
  else
    let d := nlp text in
    let numeric_val := check_cardinals d in
    if 0 <? numeric_val then numeric_val
    else
      let guess_val := fuzzy_witness_synonyms d in
      if 0 <? guess_val then guess_val
      else if has_witness_mention d then 1
      else 0.
End Count.

End Witness.

(** ** [src/Q4fgh.py], Q4(g): the event type *)

Module EventType.
Import PyStr Common.

(** [str(description)] of a cell. *)
Definition str_of_cell (c : cell) : string :=
  match c with
  | NaN => "nan"
  | Str s => s
  end.

Section Categorize.
(** [lemmatizer.lemmatize] and the keyword sets [get_synonyms] builds
    from WordNet. *)
Variable lemmatize : string -> string.
Variable murder_keywords death_keywords supernatural_keywords : list string.

(** [any(word in description_tokens for word in keywords)] *)
Definition any_token (keywords description_tokens : list string) : bool :=
  existsb (fun word => existsb (String.eqb word) description_tokens) keywords.

(** [categorize_event] *)
Definition categorize_event (description : cell) : string :=
  let description_lower := lower (str_of_cell description) in
  let description_tokens := map lemmatize (split description_lower) in
  let murder_match := any_token murder_keywords description_tokens in
  let death_match := any_token death_keywords description_tokens in
  let supernatural_match :=
    any_token supernatural_keywords description_tokens in
  if murder_match && death_match then "Murder, Death"
  else if murder_match && supernatural_match then "Murder, Supernatural"
  else if death_match && supernatural_match then "Death, Supernatural"
  else if murder_match then "Murder"
  else if death_match then "Death"
  else if supernatural_match then "Supernatural Phenomenon"
  else "Unknown".
End Categorize.

End EventType.

(** ** The reports of the date scripts *)

Module Reports.
Import PyStr Dates Common.

(** [verifyparallel.main], "Quick stats": total rows, rows whose
    [FinalDate] is not the default, and those of them that pass
    [validate_year_in_range]. *)
Definition summary_stats (final_dates : list string) : Z * Z * Z :=
  let total := Z.of_nat (List.length final_dates) in
  let recognized :=
    List.filter (fun d => negb (String.eqb d verifyparallel.DEFAULT_DATE))
                final_dates in
  let recognized_count := Z.of_nat (List.length recognized) in
  let valid_recognized :=
    List.filter verifyparallel.validate_year_in_range recognized in
  let valid_recognized_count := Z.of_nat (List.length valid_recognized) in
  (total, recognized_count, valid_recognized_count).

(** The lambda of [Q4fgh.validate_dates] on one cell of [Final Date]:
    [strptime] raises [TypeError] on NaN and [ValueError] on a string that
    is not a date. *)
Definition year_test (d : cell) : result bool :=
  match d with
  | NaN => Raise "TypeError"
  | Str s =>
      match strptime_Ymd s with
      | Some dt => Ok ((Q4fgh.MIN_VALID_YEAR <=? year dt)
                       && (year dt <=? Q4fgh.MAX_VALID_YEAR))
      | None => Raise "ValueError"
      end
  end.

(** [Series.apply(f)]: the first exception ends the whole call. *)
Fixpoint apply_test (f : cell -> result bool) (l : list cell)
  : result (list bool) :=
  match l with
  | [] => Ok []
  | c :: l' =>
      match f c with
      | Ok b =>
          match apply_test f l' with
          | Ok mask => Ok (b :: mask)
          | Raise e => Raise e
          end
      | Raise e => Raise e
      end
  end.

(** The counts of [Q4fgh.validate_dates]: total, recognized, valid
    recognized.  The [try] around the year test falls back to the
    recognized count; the percentages divide by [total]. *)
Definition validate_dates (final_dates : list cell) : result (Z * Z * Z) :=
  let total := Z.of_nat (List.length final_dates) in
  let recognized :=
    List.filter (fun c => negb (Q4fgh.is_default c)) final_dates in
  let recognized_count := Z.of_nat (List.length recognized) in
  let valid_recognized_count :=
    match apply_test year_test recognized with
    | Ok mask => Z.of_nat (List.length (List.filter (fun b => b) mask))
    | Raise _ => recognized_count
    end in
  if total =? 0 then Raise "ZeroDivisionError"
  else Ok (total, recognized_count, valid_recognized_count).

(** "verify attempts.py": [is_valid_in_range], [is_non_default] and the
    counts of its main block, which first fills NaN with the default. *)
Definition is_valid_in_range (date_val : cell) : bool :=
  match date_val with
  | NaN => false
  | Str s =>
      let date_str := strip s in
      if String.eqb date_str Q4fgh.DEFAULT_DATE then false
      else match strptime_Ymd date_str with
           | Some dt => (Q4fgh.MIN_VALID_YEAR <=? year dt)
                        && (year dt <=? Q4fgh.MAX_VALID_YEAR)
           | None => false
           end
  end.

Definition is_non_default (date_str : string) : bool :=
  negb (String.eqb (strip date_str) Q4fgh.DEFAULT_DATE).

(** [.fillna(DEFAULT_DATE).astype(str)] on one cell. *)
Definition fillna_default (c : cell) : string :=
  match c with
  | NaN => Q4fgh.DEFAULT_DATE
  | Str s => s
  end.

Definition verify_counts (final_dates : list cell) : Z * Z * Z :=
  let col := map fillna_default final_dates in
  let total_rows := Z.of_nat (List.length col) in
  let recognized_count :=
    Z.of_nat (List.length (List.filter is_non_default col)) in
  let valid_count :=
    Z.of_nat (List.length
      (List.filter (fun s => is_valid_in_range (Str s)) col)) in
  (total_rows, recognized_count, valid_count).

End Reports.

(** ** Invariants of the cached tiers *)

Module Invariants.
Import Common.
Import verifyparallel.

(** A date column value of [verifyparallel]: the sentinel, or a date that
    passes [validate_year_in_range]. *)
Definition date_ok (d : string) : Prop :=
  d = DEFAULT_DATE \/ validate_year_in_range d = true.

(** Every cached value is such a date. *)
Definition cache_ok (cache : gmap string string) : Prop :=
  forall k v, cache !! k = Some v -> date_ok v.

Definition is_search (c : call) : bool :=
  match c with Search _ => true | Fetch _ => false end.

(** What both lookups have in common: the outcome is written to the cache
    under the key, a hit leaves the state alone, and on a sound cache the
    outcome is a sound date. *)
Definition cached_lookup {World}
    (f : string -> state World -> string * state World) : Prop :=
  forall loc st,
    wiki_cache (snd (f loc st)) = <[loc := fst (f loc st)]> (wiki_cache st)
    /\ (is_Some (wiki_cache st !! loc) -> snd (f loc st) = st)
    /\ (cache_ok (wiki_cache st) -> date_ok (fst (f loc st))).

(** A lookup only appends to the call log, at most [searches] searches
    and [total] calls per invocation. *)
Definition call_bound {World}
    (f : string -> state World -> string * state World)
    (searches total : nat) : Prop :=
  forall loc st,
    exists new,
      calls (snd (f loc st)) = calls st ++ new
      /\ (List.length (List.filter is_search new) <= searches)%nat
      /\ (List.length new <= total)%nat.

End Invariants.

(** ** [src/Q4fgh.py], Q4(f): the apparition types *)

Module Apparition.
Import PyStr Re Common EventType.

(** [r'\b\w+\b'] *)
Definition word_pattern : regex := seqs [WordB; Plus is_word; WordB].

(** [re.findall(r, s)] for a pattern without groups: the scan restarts
    at the end of each match, one character further after an empty
    match; [skip] counts the characters of the last match still to be
    passed. *)
Fixpoint findall_from (r : regex) (pv : option ascii) (l : list ascii)
    (skip : nat) {struct l} : list string :=
  match skip with
  | S k =>
      match l with
      | [] => []
      | c :: l' => findall_from r (Some c) l' k
      end
  | O =>
      match match_here r pv l with
      | Some m =>
          group0 m ::
          match l with
          | [] => []
          | c :: l' =>
              findall_from r (Some c) l' (Nat.pred (String.length (group0 m)))
          end
      | None =>
          match l with
          | [] => []
          | c :: l' => findall_from r (Some c) l' O
          end
      end
  end.

Definition findall (r : regex) (s : string) : list string :=
  findall_from r None (chars s) O.

(** [sep.join(l)] *)
Fixpoint join (sep : string) (l : list string) : string :=
  match l with
  | [] => ""
  | [x] => x
  | x :: l' => x ++ sep ++ join sep l'
  end.

(** [[i for i, word in enumerate(words) if word in keywords]] *)
Fixpoint positions_from (i : Z) (keywords words : list string) : list Z :=
  match words with
  | [] => []
  | word :: words' =>
      if existsb (String.eqb word) keywords
      then i :: positions_from (i + 1) keywords words'
      else positions_from (i + 1) keywords words'
  end.

Definition positions (keywords words : list string) : list Z :=
  positions_from 0 keywords words.

(** [any(abs(m - g) <= 4 for g in ghost_positions for m in positions)] *)
Definition near (ghost_positions other_positions : list Z) : bool :=
  existsb (fun g => existsb (fun m => Z.abs (m - g) <=? 4) other_positions)
          ghost_positions.

Section Categorize.
(** [lemmatizer.lemmatize] and the keyword sets [get_synonyms] builds
    from WordNet. *)
Variable lemmatize : string -> string.
Variables ghost_keywords orb_keywords ufo_keywords uap_keywords
          male_keywords female_keywords child_keywords group_keywords
  : list string.

(** [any(word in keywords for word in words)] *)
Definition any_word (keywords words : list string) : bool :=
  existsb (fun word => existsb (String.eqb word) keywords) words.

(** The lemmatized words of a description. *)
Definition words_of (description : cell) : list string :=
  map lemmatize (findall word_pattern (lower (str_of_cell description))).

(** [categorize_apparition] *)
Definition categorize_apparition (description : cell)
  : string * string * string :=
  let words := words_of description in
  let type_I_matches :=
    (if any_word orb_keywords words then ["Orb"] else [])
    ++ (if any_word ufo_keywords words then ["UFO"] else [])
    ++ (if any_word uap_keywords words then ["UAP"] else [])
    ++ (if any_word ghost_keywords words then ["Ghost"] else []) in
  let type_I :=
    match type_I_matches with
    | [] => "Unknown"
    | _ => join ", " type_I_matches
    end in
  if existsb (String.eqb "Ghost") type_I_matches then
    let has_multiple := any_word group_keywords words in
    let type_II := if has_multiple then "Several Ghosts" else "Single Ghost" in
    let ghost_positions := positions ghost_keywords words in
    let male_positions := positions male_keywords words in
    let female_positions := positions female_keywords words in
    let child_positions := positions child_keywords words in
    let has_male := near ghost_positions male_positions in
    let has_female := near ghost_positions female_positions in
    let has_child := near ghost_positions child_positions in
    let type_III :=
      (if has_male then ["Male Ghost"] else [])
      ++ (if has_female then ["Female Ghost"] else [])
      ++ (if has_child then ["Child Ghost"] else []) in
    (type_I, type_II,
     match type_III with
     | [] => "Unknown"
     | _ => join ", " type_III
     end)
  else (type_I, "N/A", "N/A").
End Categorize.

(** A word of [keywords] within four positions of a word of
    [ghost_keywords], in a list of words. *)
Definition near_ghost (ghost_keywords keywords ws : list string) : Prop :=
  exists g m wg wm,
    nth_error ws g = Some wg /\ existsb (String.eqb wg) ghost_keywords = true
    /\ nth_error ws m = Some wm /\ existsb (String.eqb wm) keywords = true
    /\ Z.abs (Z.of_nat m - Z.of_nat g) <= 4.

(** The maximal runs of word characters of a text, left to right. *)
Fixpoint word_runs_aux (cur : list ascii) (l : list ascii) : list string :=
  match l with
  | [] => match cur with [] => [] | _ => [str (rev cur)] end
  | c :: l' =>
      if is_word c then word_runs_aux (c :: cur) l'
      else match cur with
           | [] => word_runs_aux [] l'
           | _ => str (rev cur) :: word_runs_aux [] l'
           end
  end.

(** The character before the cursor after reading [l]. *)
Fixpoint last_opt (pv : option ascii) (l : list ascii) : option ascii :=
  match l with
  | [] => pv
  | c :: l' => last_opt (Some c) l'
  end.

(** Only word characters in [w]. *)
Definition all_word (w : string) : bool := forallb is_word (chars w).

Definition word_runs (s : string) : list string :=
  word_runs_aux [] (chars s).

End Apparition.

(** ** Vocabulary of the event-type statements *)

Module EventVocabulary.
Import PyStr.

(** No whitespace character in [w]. *)
Definition no_space (w : string) : bool :=
  forallb (fun c => negb (is_space c)) (chars w).

End EventVocabulary.

(** ** Sample documents *)

Module Samples.
Import Witness.

(** "the 3 people leave", with the entity "3". *)
Definition doc_three_people : doc :=
  Doc [Token "the"; Token "3"; Token "people"; Token "leave"]
      [Span "CARDINAL" "3" 2].

(** "Several people leave", without entities. *)
Definition doc_several_people : doc :=
  Doc [Token "Several"; Token "people"; Token "leave"] [].

End Samples.

(** * Worked examples *)

Module DatesExamples.
Import PyStr Re Dates.
Local Open Scope string_scope.

Example strptime_ok : strptime_Ymd "2024-12-31" = Some (date 2024 12 31).
Proof. reflexivity. Qed.
Example strptime_short : strptime_Ymd "999-01-01" = None.
Proof. reflexivity. Qed.
Example strptime_feb30 : strptime_Ymd "2024-02-30" = None.
Proof. reflexivity. Qed.
Example strptime_trailing : strptime_Ymd "2024-01-311" = None.
Proof. reflexivity. Qed.
Example strftime_ex : strftime_Ymd (date 1923 1 1) = "1923-01-01".
Proof. reflexivity. Qed.
Example BY_ex : to_datetime_B_Y "march 2020" = Some (date 2020 3 1).
Proof. reflexivity. Qed.
Example BY_oob : to_datetime_B_Y "may 2262" = None.
Proof. reflexivity. Qed.
Example sorted_ex :
  sorted [date 1999 12 25; date 1985 1 2; date 2001 3 3]
  = [date 1985 1 2; date 1999 12 25; date 2001 3 3].
Proof. reflexivity. Qed.
End DatesExamples.

Module Q4fghExamples.
Import PyStr Re Dates Common Q4fgh.
Local Open Scope string_scope.

Section Ex.
Variable to_datetime : string -> option datetime.
Variable find_dates : string -> list datetime.
Let ex := extract_with_rule to_datetime find_dates.

Example ex_march : ex (Str "March 2020") = Some (MonthYear, "2020-03-01").
Proof. reflexivity. Qed.
Example ex_in : ex (Str "in 1995") = Some (ExplicitYear, "1995-01-01").
Proof. reflexivity. Qed.
Example ex_fire :
  ex (Str "The fire occurred in 1923 at the old mill")
  = Some (ExplicitYear, "1923-01-01").
Proof. reflexivity. Qed.
Example ex_bare : ex (Str "Built 1887.") = Some (BareYear, "1887-01-01").
Proof. reflexivity. Qed.
Example ex_blank : ex (Str "  ") = None.
Proof. reflexivity. Qed.
Example ex_ord :
  search ordinal_re "on october 3rd, 1995 and in 1850"
  = Some (MatchObj "october 3rd, 1995" []).
Proof. reflexivity. Qed.
Example ex_no_space_after_comma :
  search ordinal_re "december 25,1999" = None.
Proof. reflexivity. Qed.
Example ex_ord_plain :
  search ordinal_re "on may 5 2020." = Some (MatchObj "may 5 2020" []).
Proof. reflexivity. Qed.
Example ex_five_digits : search explicit_year_re "in 19955" = None.
Proof. reflexivity. Qed.
Example ex_two_spaces :
  search explicit_year_re "from  1923 on" = Some (MatchObj "from  1923" ["1923"]).
Proof. reflexivity. Qed.
Example ex_inside_word : search explicit_year_re "again 1923" = None.
Proof. reflexivity. Qed.
Example ex_year_glued : search year_re "x1999" = None.
Proof. reflexivity. Qed.
Example ex_year_2100 : search year_re "the year 2100" = None.
Proof. reflexivity. Qed.
Example ex_year_slash :
  search year_re "12/25/1999" = Some (MatchObj "1999" ["1999"]).
Proof. reflexivity. Qed.
End Ex.

(** When pandas gives NaT for the ordinal match, the cascade goes on. *)
Example ex_feb30 :
  extract_with_rule Doubles.to_datetime_oct Doubles.find_dates_none
    (Str "February 30th, 1999") = Some (BareYear, "1999-01-01").
Proof. reflexivity. Qed.
End Q4fghExamples.

Module VerifyExamples.
Import PyStr Dates Common Doubles verifyparallel.

Example skip_short : should_skip_location "X" = true.
Proof. reflexivity. Qed.
Example skip_one_word : should_skip_location "Millbrookshire" = true.
Proof. reflexivity. Qed.
Example keep_township : should_skip_location "Millbrook Township" = false.
Proof. reflexivity. Qed.
Example sample_sizes : map sample_size [0; 1; 2; 3; 7]%nat = [0; 0; 1; 1; 3]%nat.
Proof. reflexivity. Qed.
Example disambiguation_page :
  is_disambiguation (Page "Mill (disambiguation)" "Mill may refer to: ...")
  = true.
Proof. reflexivity. Qed.
Example min_dates :
  min_list DEFAULT_DATE ["1901-07-04"; "1887-01-01"; "1923-05-06"]
  = "1887-01-01".
Proof. reflexivity. Qed.

(** The second end-to-end scenario of the specification: no date in the
    description, a location too short to be looked up. *)
Example short_location_row :
  map FinalDate
      (fst (main find_dates_none dateparser_none search_one page_dated
                 sample_first
                 [Row (Str "People still talk about strange lights here")
                      (Str "X")]
                 (State ∅ tt [])))
  = [DEFAULT_DATE].
Proof. vm_compute. reflexivity. Qed.
End VerifyExamples.

(** * Facts about the text and calendar layer *)

Module DatesFacts.
Import PyStr Re Dates Vocabulary.

Lemma chars_str l : chars (str l) = l.
Proof. apply list_ascii_of_string_of_list_ascii. Qed.

Lemma str_chars s : str (chars s) = s.
Proof. apply string_of_list_ascii_of_string. Qed.

Lemma length_str l : String.length (str l) = List.length l.
Proof. induction l; simpl; congruence. Qed.

Lemma digit_cases n :
  In (digit n, n mod 10)
     [("0"%char, 0); ("1"%char, 1); ("2"%char, 2); ("3"%char, 3); ("4"%char, 4);
      ("5"%char, 5); ("6"%char, 6); ("7"%char, 7); ("8"%char, 8); ("9"%char, 9)].
Proof.
  unfold digit.
  assert (H : 0 <= n mod 10 < 10) by (apply Z.mod_pos_bound; lia).
  assert (C : n mod 10 = 0 \/ n mod 10 = 1 \/ n mod 10 = 2 \/ n mod 10 = 3
              \/ n mod 10 = 4 \/ n mod 10 = 5 \/ n mod 10 = 6 \/ n mod 10 = 7
              \/ n mod 10 = 8 \/ n mod 10 = 9) by lia.
  simpl.
  destruct C as [-> | [-> | [-> | [-> | [-> | [-> | [-> | [-> | [-> | ->]]]]]]]]];
    auto 11.
Qed.

Lemma is_digit_digit n : is_digit (digit n) = true.
Proof.
  pose proof (digit_cases n) as H. simpl in H.
  repeat (destruct H as [H | H]; [inversion H as [[E1 E2]]; reflexivity |]).
  destruct H.
Qed.

Lemma code_digit n : code (digit n) = 48 + n mod 10.
Proof.
  pose proof (digit_cases n) as H. simpl in H.
  repeat (destruct H as [H | H]; [inversion H as [[E1 E2]]; reflexivity |]).
  destruct H.
Qed.

Lemma int_of_pad4 y : 0 <= y <= 9999 -> int_of (str (pad4 y)) = y.
Proof.
  intros Hy. unfold int_of. rewrite chars_str. unfold pad4. simpl.
  rewrite !code_digit.
  Z.div_mod_to_equations. lia.
Qed.

Lemma consumed_app p l : consumed (p ++ l) l = p.
Proof.
  unfold consumed. rewrite List.length_app.
  replace (List.length p + List.length l - List.length l)%nat with (List.length p) by lia.
  rewrite firstn_app, firstn_all, Nat.sub_diag. simpl. apply app_nil_r.
Qed.

Lemma run_re_Y {A} c1 c2 c3 c4 pv l cs (k : mstate -> option A) :
  is_digit c1 = true -> is_digit c2 = true ->
  is_digit c3 = true -> is_digit c4 = true ->
  run re_Y (MState pv (c1 :: c2 :: c3 :: c4 :: l) cs) k
  = k (MState (Some c4) l (cs ++ [[c1; c2; c3; c4]])).
Proof.
  intros H1 H2 H3 H4. unfold re_Y. simpl. rewrite H1, H2, H3, H4.
  simpl. do 4 f_equal.
  apply (consumed_app [c1; c2; c3; c4] l).
Qed.

Lemma match_Ymd c1 c2 c3 c4 m d :
  is_digit c1 = true -> is_digit c2 = true ->
  is_digit c3 = true -> is_digit c4 = true ->
  1 <= m <= 12 -> 1 <= d <= 31 ->
  match_here re_Ymd None ([c1; c2; c3; c4] ++ dash ++ pad2 m ++ dash ++ pad2 d)
  = Some (MatchObj (str ([c1; c2; c3; c4] ++ dash ++ pad2 m ++ dash ++ pad2 d))
                   [str [c1; c2; c3; c4]; str (pad2 m); str (pad2 d)]).
Proof.
  intros H1 H2 H3 H4 Hm Hd.
  unfold match_here, re_Ymd.
  change (seqs [re_Y; Lit "-"; re_m; Lit "-"; re_d])
    with (Seq re_Y (seqs [Lit "-"; re_m; Lit "-"; re_d])).
  cbn [run]. cbn [app]. rewrite run_re_Y by assumption.
  enum_Z m 1 12; enum_Z d 1 31; vm_compute; reflexivity.
Qed.

Lemma not_space_digit n : is_space (digit n) = false.
Proof.
  pose proof (digit_cases n) as H. simpl in H.
  repeat (destruct H as [H | H]; [inversion H as [[E1 E2]]; reflexivity |]).
  destruct H.
Qed.

Lemma strip_pad2 d : strip (str (pad2 d)) = str (pad2 d).
Proof.
  unfold strip, pad2. rewrite chars_str.
  cbn [lstrip]. rewrite not_space_digit.
  cbn [rev app lstrip]. rewrite not_space_digit. reflexivity.
Qed.

Lemma int_of_pad2 n : 0 <= n <= 99 -> int_of (str (pad2 n)) = n.
Proof.
  intros Hn. unfold int_of. rewrite chars_str. unfold pad2. simpl.
  rewrite !code_digit. Z.div_mod_to_equations. lia.
Qed.

Lemma days_in_month_le y m : days_in_month y m <= 31.
Proof.
  unfold days_in_month.
  repeat match goal with |- context [if ?b then _ else _] => destruct b end; lia.
Qed.

Lemma valid_date_bounds y m d :
  valid_date y m d = true -> 1 <= y <= 9999 /\ 1 <= m <= 12 /\ 1 <= d <= 31.
Proof.
  unfold valid_date. rewrite !andb_true_iff, !Z.leb_le.
  pose proof (days_in_month_le y m). lia.
Qed.

Lemma strptime_strftime dt :
  wf dt = true ->
  strptime_Ymd (strftime_Ymd dt) = Some (date (year dt) (month dt) (day dt)).
Proof.
  intros Hwf. unfold wf in Hwf.
  destruct (valid_date_bounds _ _ _ Hwf) as (Hy & Hm & Hd).
  unfold strptime_Ymd, strftime_Ymd, match_start.
  rewrite chars_str. unfold pad4 at 1.
  rewrite match_Ymd by (auto using is_digit_digit).
  cbn [group0 groups group nth].
  rewrite !length_str.
  replace (List.length _) with 10%nat by reflexivity.
  cbn [Nat.eqb].
  rewrite strip_pad2.
  change (str [digit (year dt / 1000); digit (year dt / 100);
               digit (year dt / 10); digit (year dt)])
    with (str (pad4 (year dt))).
  rewrite int_of_pad4, !int_of_pad2 by lia.
  rewrite Hwf. reflexivity.
Qed.

(** The order on naive datetimes and [sorted]. *)
Lemma lex_compare_refl a : lex_compare a a = Eq.
Proof. induction a as [|x a IH]; simpl; [reflexivity|]. now rewrite Z.compare_refl. Qed.

Lemma lex_compare_antisym a b : lex_compare b a = CompOpp (lex_compare a b).
Proof.
  revert b. induction a as [|x a IH]; intros [|y b]; simpl; try reflexivity.
  rewrite (Z.compare_antisym x y).
  destruct (x ?= y); simpl; auto.
Qed.

Lemma lex_le_trans a b c : lex_le a b -> lex_le b c -> lex_le a c.
Proof.
  unfold lex_le. revert b c.
  induction a as [|x a IH]; intros [|y b] [|z c]; simpl; try congruence.
  destruct (Z.compare_spec x y), (Z.compare_spec y z), (Z.compare_spec x z);
    subst; try congruence; try lia; eauto.
Qed.

Lemma dt_le_refl a : dt_le a a = true.
Proof. unfold dt_le, dt_compare. now rewrite lex_compare_refl. Qed.

Lemma dt_le_total a b : dt_le a b = false -> dt_le b a = true.
Proof.
  unfold dt_le, dt_compare. rewrite (lex_compare_antisym (fields a) (fields b)).
  destruct (lex_compare (fields a) (fields b)); simpl; congruence.
Qed.

Lemma dt_le_trans a b c : dt_le a b = true -> dt_le b c = true -> dt_le a c = true.
Proof.
  unfold dt_le, dt_compare. intros H1 H2.
  assert (H : lex_le (fields a) (fields c)).
  { apply lex_le_trans with (fields b); unfold lex_le.
    - destruct (lex_compare (fields a) (fields b)); congruence.
    - destruct (lex_compare (fields b) (fields c)); congruence. }
  unfold lex_le in H. destruct (lex_compare (fields a) (fields c)); congruence.
Qed.

Lemma insert_sorted_perm x l : Permutation (insert_sorted x l) (x :: l).
Proof.
  induction l as [|y l IH]; simpl; [reflexivity|].
  destruct (dt_le y x); [|reflexivity].
  rewrite IH. apply perm_swap.
Qed.

Lemma insert_sorted_ordered x l : ordered l -> ordered (insert_sorted x l).
Proof.
  unfold ordered. induction l as [|y l IH]; intros Hs; simpl.
  - repeat constructor.
  - inversion Hs as [|? ? Hl Hy]; subst.
    destruct (dt_le y x) eqn:E.
    + constructor; [auto|].
      rewrite List.Forall_forall. intros z Hz.
      apply (Permutation_in _ (insert_sorted_perm x l)) in Hz.
      destruct Hz as [<- | Hz]; [assumption|].
      rewrite List.Forall_forall in Hy. now apply Hy.
    + constructor; [assumption|].
      apply dt_le_total in E.
      constructor; [assumption|].
      rewrite List.Forall_forall in Hy |- *. intros z Hz.
      apply dt_le_trans with y; auto.
Qed.

Lemma sorted_spec l : Permutation (sorted l) l /\ ordered (sorted l).
Proof.
  unfold sorted.
  assert (G : forall acc, ordered acc ->
            Permutation (fold_left (fun acc x => insert_sorted x acc) l acc) (l ++ acc)
            /\ ordered (fold_left (fun acc x => insert_sorted x acc) l acc)).
  { induction l as [|x l IH]; intros acc Hacc; simpl.
    - split; [reflexivity | assumption].
    - destruct (IH (insert_sorted x acc) (insert_sorted_ordered x acc Hacc)) as [P O].
      split; [|assumption].
      rewrite P, insert_sorted_perm. now rewrite Permutation_middle. }
  destruct (G [] (SSorted_nil _)) as [P O].
  rewrite app_nil_r in P. auto.
Qed.

End DatesFacts.

(** * Facts about the two local extractors *)

Module ExtractorFacts.
Import PyStr Re Dates Common DatesFacts Vocabulary.

Lemma validate_strftime d :
  wf d = true ->
  verifyparallel.validate_year_in_range (strftime_Ymd d) = year_in_range d.
Proof.
  intros Hwf. unfold verifyparallel.validate_year_in_range.
  rewrite strptime_strftime by assumption. reflexivity.
Qed.

Lemma validate_inv s :
  verifyparallel.validate_year_in_range s = true ->
  exists dt, strptime_Ymd s = Some dt /\ 1800 <= year dt <= 2024.
Proof.
  unfold verifyparallel.validate_year_in_range.
  destruct (strptime_Ymd s) as [dt|]; [|discriminate].
  rewrite andb_true_iff, !Z.leb_le.
  unfold verifyparallel.MIN_VALID_YEAR, verifyparallel.MAX_VALID_YEAR.
  intros H. exists dt. auto.
Qed.

Lemma first_valid_Some l iso :
  verifyparallel.first_valid l = Some iso ->
  exists pre e post,
    l = pre ++ e :: post /\ iso = strftime_Ymd e
    /\ verifyparallel.validate_year_in_range iso = true
    /\ List.Forall (fun c => verifyparallel.validate_year_in_range
                               (strftime_Ymd c) = false) pre.
Proof.
  induction l as [|c l IH]; cbn [verifyparallel.first_valid];
    [discriminate|].
  destruct (verifyparallel.validate_year_in_range (strftime_Ymd c)) eqn:E.
  - intros [= <-]. exists [], c, l.
    split; [reflexivity|]. split; [reflexivity|]. split; [exact E|].
    constructor.
  - intros H. destruct (IH H) as (pre & e & post & -> & -> & Hv & Hpre).
    exists (c :: pre), e, post.
    split; [reflexivity|]. split; [reflexivity|]. split; [exact Hv|].
    constructor; assumption.
Qed.

Lemma first_valid_None l :
  verifyparallel.first_valid l = None ->
  List.Forall (fun c => verifyparallel.validate_year_in_range
                          (strftime_Ymd c) = false) l.
Proof.
  induction l as [|c l IH]; cbn [verifyparallel.first_valid];
    [constructor|].
  destruct (verifyparallel.validate_year_in_range (strftime_Ymd c)) eqn:E;
    [discriminate|].
  intros H. constructor; [exact E | exact (IH H)].
Qed.

Lemma first_valid_reject l :
  List.Forall (fun c => verifyparallel.validate_year_in_range
                          (strftime_Ymd c) = false) l ->
  verifyparallel.first_valid l = None.
Proof.
  induction 1 as [|c l Hc _ IH]; cbn [verifyparallel.first_valid];
    [reflexivity|].
  rewrite Hc. exact IH.
Qed.

Lemma wf_replace d : wf (replace_tzinfo_None d) = wf d.
Proof. reflexivity. Qed.

Lemma year_replace d : year (replace_tzinfo_None d) = year d.
Proof. reflexivity. Qed.

Lemma strftime_replace d :
  strftime_Ymd (replace_tzinfo_None d) = strftime_Ymd d.
Proof. reflexivity. Qed.

(** Every date a pass of the [verifyparallel] extractor produces has
    passed [validate_year_in_range]. *)
Lemma vp_rule_validates find_dates dateparser_parse text r d :
  verifyparallel.extract_with_rule find_dates dateparser_parse text
  = Some (r, d) ->
  verifyparallel.validate_year_in_range d = true.
Proof.
  unfold verifyparallel.extract_with_rule, verifyparallel.dateparser_pass.
  destruct text as [|text]; [discriminate|].
  destruct (negb (truthy (strip text))); [discriminate|].
  destruct (verifyparallel.first_valid _) as [iso|] eqn:E.
  - intros [= <- <-].
    destruct (first_valid_Some _ _ E) as (_ & _ & _ & _ & _ & Hv & _).
    exact Hv.
  - destruct (dateparser_parse text) as [p|]; [|discriminate].
    destruct (verifyparallel.validate_year_in_range _) eqn:Ev; [|discriminate].
    intros [= <- <-]. exact Ev.
Qed.

Lemma vp_extract_of_rule find_dates dateparser_parse text r d :
  verifyparallel.extract_with_rule find_dates dateparser_parse text
  = Some (r, d) ->
  verifyparallel.extract_date_from_text find_dates dateparser_parse text = d.
Proof.
  unfold verifyparallel.extract_date_from_text. now intros ->.
Qed.

(** The [verifyparallel] extractor returns the default or a validated date. *)
Lemma vp_extract_cases find_dates dateparser_parse text :
  let d := verifyparallel.extract_date_from_text
             find_dates dateparser_parse text in
  d = verifyparallel.DEFAULT_DATE
  \/ verifyparallel.validate_year_in_range d = true.
Proof.
  cbv zeta. unfold verifyparallel.extract_date_from_text.
  destruct (verifyparallel.extract_with_rule _ _ text) as [[r d]|] eqn:E.
  - right. eapply vp_rule_validates; eauto.
  - now left.
Qed.

Lemma q4_extract_of_rule to_datetime find_dates text r d :
  Q4fgh.extract_with_rule to_datetime find_dates text = Some (r, d) ->
  Q4fgh.extract_date_from_text to_datetime find_dates text = d.
Proof.
  unfold Q4fgh.extract_date_from_text. now intros ->.
Qed.




End ExtractorFacts.

(** * The claims about the local extractors *)

Module LocalExtractorClaims.
Import PyStr Re Dates Common DatesFacts ExtractorFacts Doubles Vocabulary.




(** C2, as stated, fails on the regex cascade of [Q4fgh]: "in 1799" is
    parsed to the year 1799, outside the range, and the date is returned. *)
Lemma C2_out_of_range_returned :
  ~ (forall to_datetime find_dates text r d,
       Q4fgh.extract_with_rule to_datetime find_dates text = Some (r, d) ->
       Q4fgh.year_valid d = false ->
       Q4fgh.extract_date_from_text to_datetime find_dates text
       = Q4fgh.DEFAULT_DATE).
Proof.
  intros H.
  specialize (H to_datetime_none find_dates_none (Str "in 1799")
                ExplicitYear "1799-01-01" eq_refl eq_refl).
  discriminate H.
Qed.

(** C2, amended: the range is enforced by the extractor of
    [verifyparallel]: it returns the default or a date whose year lies in
    [1800, 2024]; when every candidate of datefinder and dateparser has a
    year outside the range the result is the default; a well-formed date
    validates exactly when its year is in the range, so 1799 and 2025 are
    rejected and 1800 and 2024 accepted.  The cascade of [Q4fgh] returns
    the date of the rule that fired whatever its year. *)
Theorem C2_range_enforcement :
  (forall find_dates dateparser_parse text,
     let d := verifyparallel.extract_date_from_text
                find_dates dateparser_parse text in
     d = verifyparallel.DEFAULT_DATE
     \/ exists dt, strptime_Ymd d = Some dt /\ 1800 <= year dt <= 2024)
  /\ (forall find_dates dateparser_parse text,
        List.Forall (fun c => wf c = true /\ year_in_range c = false)
                    (find_dates text) ->
        (forall p, dateparser_parse text = Some p ->
                   wf p = true /\ year_in_range p = false) ->
        verifyparallel.extract_date_from_text
          find_dates dateparser_parse (Str text)
        = verifyparallel.DEFAULT_DATE)
  /\ (forall dt, wf dt = true ->
        verifyparallel.validate_year_in_range (strftime_Ymd dt)
        = (1800 <=? year dt) && (year dt <=? 2024))
  /\ (verifyparallel.validate_year_in_range "1799-12-31" = false
      /\ verifyparallel.validate_year_in_range "2025-01-01" = false
      /\ verifyparallel.validate_year_in_range "1800-01-01" = true
      /\ verifyparallel.validate_year_in_range "2024-12-31" = true)
  /\ (forall to_datetime find_dates text r d,
        Q4fgh.extract_with_rule to_datetime find_dates text = Some (r, d) ->
        Q4fgh.extract_date_from_text to_datetime find_dates text = d).
Proof.
  split; [|split; [|split; [|split]]].
  - intros fd dp text. cbv zeta.
    destruct (vp_extract_cases fd dp text) as [H|H]; [now left|].
    right. now apply validate_inv.
  - intros fd dp text Hc Hp.
    unfold verifyparallel.extract_date_from_text,
      verifyparallel.extract_with_rule, verifyparallel.dateparser_pass.
    destruct (negb (truthy (strip text))); [reflexivity|].
    rewrite first_valid_reject.
    + destruct (dp text) as [p|] eqn:Ep; [|reflexivity].
      destruct (Hp p eq_refl) as [Hw Hy].
      rewrite strftime_replace, validate_strftime, Hy by assumption.
      reflexivity.
    + destruct (sorted_spec (map replace_tzinfo_None (fd text))) as [P _].
      rewrite List.Forall_forall in Hc |- *. intros c Hin.
      apply (Permutation_in _ P) in Hin.
      apply List.in_map_iff in Hin. destruct Hin as (c0 & <- & Hin0).
      destruct (Hc c0 Hin0) as [Hw Hy].
      rewrite strftime_replace, validate_strftime by assumption. exact Hy.
  - intros dt Hwf. now rewrite validate_strftime.
  - repeat split; reflexivity.
  - intros td fd text r d H. eapply q4_extract_of_rule; eauto.
Qed.

Lemma C2_range_enforcement_witness :
  verifyparallel.extract_date_from_text
    (fun _ => [date 1799 6 15; date 2025 3 1]) (fun _ => Some (date 2025 1 1))
    (Str "15 June 1799, revised 1 March 2025")
  = verifyparallel.DEFAULT_DATE
  /\ verifyparallel.validate_year_in_range (strftime_Ymd (date 2024 2 29))
     = (1800 <=? 2024) && (2024 <=? 2024)
  /\ Q4fgh.extract_date_from_text to_datetime_none find_dates_none
       (Str "in 1799") = "1799-01-01".
Proof.
  split; [|split].
  - apply (proj1 (proj2 C2_range_enforcement)
             (fun _ => [date 1799 6 15; date 2025 3 1])
             (fun _ => Some (date 2025 1 1))).
    + repeat constructor.
    + intros p [= <-]. split; reflexivity.
  - apply (proj1 (proj2 (proj2 C2_range_enforcement)) (date 2024 2 29)).
    reflexivity.
  - apply (proj2 (proj2 (proj2 (proj2 C2_range_enforcement)))
             to_datetime_none find_dates_none (Str "in 1799") ExplicitYear).
    reflexivity.
Defined.

Lemma ordered_app_inv pre e post :
  ordered (pre ++ e :: post) ->
  List.Forall (fun c => dt_le e c = true) post.
Proof.
  unfold ordered. induction pre as [|x pre IH]; simpl; intros H.
  - now inversion H.
  - inversion H; subst. auto.
Qed.

Lemma vp_earliest find_dates dateparser_parse text :
  truthy (strip text) = true ->
  List.Forall (fun c => wf c = true) (find_dates text) ->
  (exists c, In c (find_dates text) /\ year_in_range c = true) ->
  exists e,
    spec_earliest_in_range (map replace_tzinfo_None (find_dates text)) e
    /\ verifyparallel.extract_with_rule find_dates dateparser_parse (Str text)
       = Some (FreeText, strftime_Ymd e).
Proof.
  intros Hnb Hwf (c0 & Hc0 & Hy0).
  unfold verifyparallel.extract_with_rule. rewrite Hnb. cbn [negb].
  set (cands := map replace_tzinfo_None (find_dates text)).
  destruct (sorted_spec cands) as [P O].
  assert (Wf : forall c, In c cands -> wf c = true).
  { intros c Hc. apply List.in_map_iff in Hc. destruct Hc as (c1 & <- & Hc1).
    rewrite List.Forall_forall in Hwf. rewrite wf_replace. now apply Hwf. }
  destruct (verifyparallel.first_valid (sorted cands)) as [iso|] eqn:E.
  - destruct (first_valid_Some _ _ E) as (pre & e & post & Hs & -> & Hv & Hpre).
    assert (He : In e cands).
    { apply (Permutation_in _ P). rewrite Hs. apply List.in_elt. }
    exists e. split; [|reflexivity].
    split; [exact He|]. split.
    + rewrite <- validate_strftime by auto. exact Hv.
    + intros c Hc Hy. apply (Permutation_in _ (Permutation_sym P)) in Hc.
      rewrite Hs in Hc. apply List.in_app_or in Hc.
      destruct Hc as [Hc | [<- | Hc]].
      * rewrite List.Forall_forall in Hpre. specialize (Hpre c Hc).
        rewrite validate_strftime in Hpre.
        -- congruence.
        -- apply Wf. apply (Permutation_in _ P). rewrite Hs.
           apply List.in_or_app. now left.
      * apply dt_le_refl.
      * rewrite Hs in O. apply ordered_app_inv in O.
        rewrite List.Forall_forall in O. now apply O.
  - exfalso. apply first_valid_None in E.
    rewrite List.Forall_forall in E.
    assert (Hin : In (replace_tzinfo_None c0) (sorted cands)).
    { apply (Permutation_in _ (Permutation_sym P)). now apply List.in_map. }
    specialize (E _ Hin).
    rewrite strftime_replace, validate_strftime in E.
    + congruence.
    + rewrite List.Forall_forall in Hwf. now apply Hwf.
Qed.

Lemma q4_free_text to_datetime find_dates text d :
  Q4fgh.extract_with_rule to_datetime find_dates (Str text)
  = Some (FreeText, d) ->
  exists c rest, find_dates (lower text) = c :: rest /\ d = strftime_Ymd c.
Proof.
  unfold Q4fgh.extract_with_rule, Q4fgh.cascade_from_month_year.
  intros H.
  destruct (negb (truthy (strip text))); [discriminate|].
  repeat match type of H with
         | match ?x with _ => _ end = _ =>
             let E := fresh "E" in destruct x eqn:E; try discriminate
         end;
    injection H as <-; eauto.
Qed.



(** C8, as stated, fails on the datefinder fallback of [Q4fgh], the last
    rule of its cascade: of the candidates 1999-12-25 and 1985-01-02,
    found in this order, it returns the first, not the earliest. *)
Lemma C8_first_not_earliest :
  ~ (forall to_datetime find_dates text d,
       Q4fgh.extract_with_rule to_datetime find_dates (Str text)
       = Some (FreeText, d) ->
       exists e, spec_earliest_in_range (find_dates (lower text)) e
                 /\ d = strftime_Ymd e).
Proof.
  intros H.
  destruct (H to_datetime_none find_dates_two
              "seen 12/25/99, then again 01/02/85" "1999-12-25" eq_refl)
    as (e & (Hin & _ & Hmin) & Hd).
  destruct Hin as [<- | [<- | []]].
  - specialize (Hmin (date 1985 1 2) (or_intror (or_introl eq_refl)) eq_refl).
    discriminate Hmin.
  - discriminate Hd.
Qed.

(** C8, amended: in [verifyparallel], when datefinder finds candidates of
    which at least one has its year in [1800, 2024], the extractor returns
    the earliest such candidate; in [Q4fgh] the datefinder fallback returns
    the first candidate found, without ordering or range check. *)
Theorem C8_earliest_candidate :
  (forall find_dates dateparser_parse text,
     truthy (strip text) = true ->
     List.Forall (fun c => wf c = true) (find_dates text) ->
     (exists c, In c (find_dates text) /\ year_in_range c = true) ->
     exists e,
       spec_earliest_in_range (map replace_tzinfo_None (find_dates text)) e
       /\ verifyparallel.extract_date_from_text
            find_dates dateparser_parse (Str text) = strftime_Ymd e)
  /\ (forall to_datetime find_dates text d,
        Q4fgh.extract_with_rule to_datetime find_dates (Str text)
        = Some (FreeText, d) ->
        exists c rest,
          find_dates (lower text) = c :: rest
          /\ Q4fgh.extract_date_from_text to_datetime find_dates (Str text)
             = strftime_Ymd c).
Proof.
  split.
  - intros fd dp text Hnb Hwf Hex.
    destruct (vp_earliest fd dp text Hnb Hwf Hex) as (e & He & Hr).
    exists e. split; [exact He|].
    eapply vp_extract_of_rule; eauto.
  - intros td fd text d H.
    destruct (q4_free_text _ _ _ _ H) as (c & rest & Hc & ->).
    exists c, rest. split; [exact Hc|].
    eapply q4_extract_of_rule; eauto.
Qed.

Lemma C8_earliest_candidate_witness :
  (exists e,
     spec_earliest_in_range
       (map replace_tzinfo_None
            (find_dates_two "seen 12/25/99, then again 01/02/85")) e
     /\ verifyparallel.extract_date_from_text find_dates_two dateparser_none
          (Str "seen 12/25/99, then again 01/02/85") = strftime_Ymd e)
  /\ exists c rest,
       find_dates_two (lower "seen 12/25/99, then again 01/02/85")
       = c :: rest
       /\ Q4fgh.extract_date_from_text to_datetime_none find_dates_two
            (Str "seen 12/25/99, then again 01/02/85") = strftime_Ymd c.
Proof.
  split.
  - apply (proj1 C8_earliest_candidate find_dates_two dateparser_none
             "seen 12/25/99, then again 01/02/85").
    + reflexivity.
    + repeat constructor.
    + exists (date 1985 1 2). split; [right; left; reflexivity | reflexivity].
  - apply (proj2 C8_earliest_candidate to_datetime_none find_dates_two
             "seen 12/25/99, then again 01/02/85" "1999-12-25").
    reflexivity.
Defined.

End LocalExtractorClaims.

(** * The sequential pipeline of [Q4fgh] *)

Module Q4fghPipelineClaims.
Import PyStr Dates Common Doubles.
Import Q4fgh.

(** In every run of [Q4fgh.main] that writes its output, a row without a
    location whose description gave no date is written with NaN as its
    final date: its key is dropped by [dropna] before the Wikipedia tier,
    the left merge leaves its [wiki_date] empty, and the DBpedia tier no
    longer sees it as missing. *)
Lemma nan_location_final_date
    to_datetime find_dates World wikipedia_search wikipedia_page sparql_query
    rows (w w' : World) out :
  main to_datetime find_dates wikipedia_search wikipedia_page
       sparql_query rows w = (Ok out, w') ->
  forall o, In o out ->
    location (d_row (o_row o)) = NaN ->
    Haunted_Places_Date (o_row o) = DEFAULT_DATE ->
    wiki_date o = NaN /\ Final_Date o = NaN.
Proof.
  unfold main, run_wikipedia_approach, run_dbpedia_approach.
  destruct (lookup_all _ _ w) as [wiki_rows w1].
  destruct wiki_rows as [|wr wiki_rows]; [discriminate|].
  destruct (lookup_all _ _ w1) as [dbpedia_rows w2].
  destruct dbpedia_rows as [|dr dbpedia_rows]; [discriminate|].
  intros [= <- <-] o Ho Hloc Hdate.
  apply List.in_map_iff in Ho. destruct Ho as (r1 & <- & Hr1).
  apply List.in_map_iff in Hr1. destruct Hr1 as (r0 & <- & Hr0).
  cbn [o_row wiki_date Final_Date w_row w_wiki_date w_Final_Date] in *.
  rewrite Hloc, Hdate. cbn. auto.
Qed.

(** C3 breaks in [Q4fgh.main]: of two rows without a date in their
    description, the one without a location is written with NaN in
    [Final Date] (and in [wiki_date] and [dbpedia_date]); the one with a
    location keeps the sentinel. *)
Theorem C3_final_date_nan :
  let rows :=
    [Row (Str "People still talk about strange lights here") NaN;
     Row (Str "People still talk about strange lights here")
         (Str "Millbrook Township")] in
  exists out,
    fst (main to_datetime_none find_dates_none
              search_empty page_error sparql_empty rows tt) = Ok out
    /\ map Final_Date out = [NaN; Str DEFAULT_DATE]
    /\ map wiki_date out = [NaN; Str DEFAULT_DATE]
    /\ map dbpedia_date out = [NaN; Str DEFAULT_DATE].
Proof.
  cbv zeta. eexists. split; [vm_compute; reflexivity|].
  repeat split; reflexivity.
Qed.

End Q4fghPipelineClaims.

(** * The cached tiers and the scheduler of [verifyparallel] *)

Module SchedulerFacts.
Import PyStr Dates Common Doubles Vocabulary.
Import verifyparallel.

Lemma collect_fold completed :
  collect completed = fold_left record_future completed ∅.
Proof.
  unfold collect. generalize (∅ : gmap string string).
  induction completed as [|[loc [d|e]] l IH]; intros m; simpl;
    [reflexivity | apply IH | apply IH].
Qed.

Lemma fold_record_notin l (m : gmap string string) k :
  ~ In k (map fst l) -> fold_left record_future l m !! k = m !! k.
Proof.
  revert m. induction l as [|[k' r'] l IH]; intros m Hk; simpl.
  - reflexivity.
  - simpl in Hk. rewrite IH by tauto.
    unfold record_future. simpl. apply lookup_insert_ne. tauto.
Qed.

Lemma fold_record_in l (m : gmap string string) k r :
  NoDup (map fst l) -> In (k, r) l ->
  fold_left record_future l m !! k = Some (absorbed r).
Proof.
  revert m. induction l as [|[k' r'] l IH]; intros m Hnd Hin; simpl.
  - destruct Hin.
  - simpl in Hnd. apply NoDup_cons in Hnd. destruct Hnd as [Hk' Hnd'].
    rewrite list_elem_of_In in Hk'.
    destruct Hin as [[= -> ->] | Hin].
    + rewrite fold_record_notin by assumption.
      unfold record_future. simpl. apply lookup_insert_eq.
    + now apply IH.
Qed.

Lemma fold_record_dom l (m : gmap string string) k :
  is_Some (fold_left record_future l m !! k)
  <-> In k (map fst l) \/ is_Some (m !! k).
Proof.
  revert m. induction l as [|[k' r'] l IH]; intros m; simpl.
  - tauto.
  - rewrite IH. unfold record_future. simpl.
    destruct (decide (k' = k)) as [->|Hne].
    + rewrite lookup_insert_eq. split; [auto|]. intros _. right. eauto.
    + rewrite lookup_insert_ne by assumption. tauto.
Qed.

Lemma run_all_keys {S} (f : string -> S -> result string * S) locations st :
  map fst (fst (run_all f locations st)) = locations.
Proof.
  revert st. induction locations as [|loc l IH]; intros st; simpl.
  - reflexivity.
  - destruct (f loc st) as [r st1]. specialize (IH st1).
    destruct (run_all f l st1) as [futures st2]. simpl in *. now rewrite IH.
Qed.

Lemma parallel_lookup_collect {S} (f : string -> S -> result string * S)
    locations st :
  fst (parallel_lookup f locations st)
  = collect (fst (run_all f locations st)).
Proof.
  unfold parallel_lookup. now destruct (run_all f locations st).
Qed.

(** The mock of [Doubles.counting] records exactly the submitted keys. *)
Lemma counting_log {S} (f : string -> S -> result string * S)
    locations st log :
  snd (snd (run_all (counting f) locations (st, log))) = log ++ locations.
Proof.
  revert st log. induction locations as [|loc l IH]; intros st log; simpl.
  - now rewrite app_nil_r.
  - destruct (f loc st) as [r st1]. specialize (IH st1 (log ++ [loc])).
    destruct (run_all (counting f) l (st1, log ++ [loc])) as [futures st2].
    simpl in *. rewrite IH, <- app_assoc. reflexivity.
Qed.

Lemma NoDup_unique l : NoDup (unique l).
Proof.
  induction l as [|x l IH]; simpl; constructor.
  - rewrite list_elem_of_filter. tauto.
  - now apply NoDup_filter.
Qed.

Lemma NoDup_select_locations df : NoDup (select_locations df).
Proof.
  unfold select_locations. cbn [SKIP_SHORT_LOCATIONS].
  apply NoDup_filter, NoDup_unique.
Qed.

Lemma NoDup_tier_keys sample df seed :
  (forall l n sd, NoDup l -> NoDup (sample l n sd)) ->
  NoDup (tier_keys sample df seed).
Proof.
  intros Hs. unfold tier_keys, sample_locations.
  destruct (negb _); [apply Hs|]; apply NoDup_select_locations.
Qed.

Lemma state_before_app {S} (f : string -> S -> result string * S) pre post st :
  state_before f (pre ++ post) st = state_before f post (state_before f pre st).
Proof. unfold state_before. apply List.fold_left_app. Qed.

Lemma run_all_state {S} (f : string -> S -> result string * S) locations st :
  snd (run_all f locations st) = state_before f locations st.
Proof.
  revert st. induction locations as [|loc l IH]; intros st; [reflexivity|].
  cbn [run_all]. destruct (f loc st) as [r st1] eqn:E. specialize (IH st1).
  destruct (run_all f l st1) as [futures st2]. cbn [snd] in *.
  rewrite IH. unfold state_before. cbn [fold_left]. now rewrite E.
Qed.

Lemma run_all_app {S} (f : string -> S -> result string * S) pre post st :
  fst (run_all f (pre ++ post) st)
  = fst (run_all f pre st) ++ fst (run_all f post (state_before f pre st)).
Proof.
  revert st. induction pre as [|loc pre IH]; intros st; [reflexivity|].
  cbn [app run_all]. destruct (f loc st) as [r st1] eqn:E.
  specialize (IH st1).
  destruct (run_all f (pre ++ post) st1) as [futures st2].
  destruct (run_all f pre st1) as [futures1 st3].
  cbn [fst] in *. rewrite IH. unfold state_before. cbn [fold_left].
  now rewrite E.
Qed.

(** The future of every submitted key holds the outcome of that key's own
    lookup. *)
Lemma run_all_own {S} (f : string -> S -> result string * S) pre loc post st :
  nth_error (fst (run_all f (pre ++ loc :: post) st)) (List.length pre)
  = Some (loc, own_result f pre loc st).
Proof.
  rewrite run_all_app.
  rewrite List.nth_error_app2
    by (rewrite <- (List.length_map fst), run_all_keys; lia).
  rewrite <- (List.length_map fst (fst (run_all f pre st))), run_all_keys.
  rewrite Nat.sub_diag. cbn [run_all]. unfold own_result.
  destruct (f loc (state_before f pre st)) as [r st1].
  destruct (run_all f post st1) as [futures st2]. reflexivity.
Qed.

End SchedulerFacts.

Module LookupFacts.
Import PyStr Dates Common Doubles SchedulerFacts Vocabulary.
Import verifyparallel.

Section Cache.
Variable find_dates : string -> list datetime.
Variable dateparser_parse : string -> option datetime.
Variable World : Type.
Variable wikipedia_search : string -> World -> result (list string) * World.
Variable wikipedia_page : string -> World -> result page * World.

Let narrow :=
  narrow_wikipedia_lookup_one find_dates dateparser_parse
                              wikipedia_search wikipedia_page.
Let broad :=
  broad_wikipedia_lookup_one find_dates dateparser_parse
                             wikipedia_search wikipedia_page.

(** A cache hit answers from the cache and touches nothing: neither the
    cache, nor the world, nor the call log. *)
Lemma narrow_hit location (st : state World) cached :
  wiki_cache st !! location = Some cached ->
  narrow location st = (cached, st).
Proof.
  intros H. unfold narrow, narrow_wikipedia_lookup_one. now rewrite H.
Qed.

Lemma broad_hit location (st : state World) cached :
  wiki_cache st !! location = Some cached ->
  broad location st = (cached, st).
Proof.
  intros H. unfold broad, broad_wikipedia_lookup_one. now rewrite H.
Qed.

Lemma store_best_stored location possible_dates (st : state World) :
  wiki_cache (snd (store_best location possible_dates st)) !! location
  = Some (fst (store_best location possible_dates st)).
Proof. unfold store_best. simpl. apply lookup_insert_eq. Qed.

(** Every lookup leaves its outcome in the cache under its key. *)
Lemma narrow_stored location (st : state World) :
  wiki_cache (snd (narrow location st)) !! location
  = Some (fst (narrow location st)).
Proof.
  unfold narrow, narrow_wikipedia_lookup_one.
  destruct (wiki_cache st !! location) as [cached|] eqn:E; [exact E|].
  destruct (narrow_queries _ _ _ _ _ _ st) as [pd st1].
  apply store_best_stored.
Qed.

Lemma broad_stored location (st : state World) :
  wiki_cache (snd (broad location st)) !! location
  = Some (fst (broad location st)).
Proof.
  unfold broad, broad_wikipedia_lookup_one.
  destruct (wiki_cache st !! location) as [cached|] eqn:E; [exact E|].
  match goal with
  | |- context [let '(_, _) := ?x in _] => destruct x as [pd st1]
  end.
  apply store_best_stored.
Qed.

(** A network that fails on every search is absorbed: the lookup of a
    key that is not cached makes its queries and returns the default. *)
Lemma narrow_queries_all_raise queries possible_dates (st : state World) :
  (forall q w, exists e w', wikipedia_search q w = (Raise e, w')) ->
  fst (narrow_queries find_dates dateparser_parse wikipedia_search
         wikipedia_page queries possible_dates st) = possible_dates.
Proof.
  intros Hfail. revert st.
  induction queries as [|q queries IH]; intros st; [reflexivity|].
  cbn [narrow_queries]. unfold do_search.
  destruct (Hfail q (world st)) as (e & w' & ->). apply IH.
Qed.

Lemma lookups_absorb_network_failure location (st : state World) :
  (forall q w, exists e w', wikipedia_search q w = (Raise e, w')) ->
  wiki_cache st !! location = None ->
  fst (narrow location st) = DEFAULT_DATE
  /\ fst (broad location st) = DEFAULT_DATE.
Proof.
  intros Hfail Hmiss. split.
  - unfold narrow, narrow_wikipedia_lookup_one. rewrite Hmiss.
    pose proof (narrow_queries_all_raise
                  (generate_narrow_search_terms location) [] st Hfail) as H.
    destruct (narrow_queries _ _ _ _ _ _ st) as [pd st1].
    cbn [fst] in H. subst pd. reflexivity.
  - unfold broad, broad_wikipedia_lookup_one. rewrite Hmiss.
    unfold do_search.
    destruct (Hfail location (world st)) as (e & w' & ->). reflexivity.
Qed.

(** After a narrow lookup of a key, resolved or not, the broad lookup of
    the same key is a cache hit: it returns the narrow outcome and makes
    no call. *)
Lemma broad_after_narrow location (st : state World) :
  broad location (snd (narrow location st))
  = (fst (narrow location st), snd (narrow location st)).
Proof. apply broad_hit, narrow_stored. Qed.

End Cache.

End LookupFacts.

Module TierClaims.
Import PyStr Dates Common Doubles SchedulerFacts LookupFacts Vocabulary.
Import verifyparallel.

(** The merge rule of one tier. *)
Lemma merge_tier_rule results prior loc :
  (prior <> DEFAULT_DATE -> merge_tier results prior loc = prior)
  /\ (prior = DEFAULT_DATE ->
      merge_tier results prior loc = dict_get results loc).
Proof.
  unfold merge_tier. split; intros H.
  - apply String.eqb_neq in H. now rewrite H.
  - subst. now rewrite String.eqb_refl.
Qed.

(** A row no tier touched (no local date, location in neither result map)
    is written with the sentinel in every date column. *)
Lemma untouched_row_keeps_sentinel narrow_results broad_results loc :
  dict_get narrow_results loc = DEFAULT_DATE ->
  dict_get broad_results loc = DEFAULT_DATE ->
  merge_tier broad_results
    (merge_tier narrow_results DEFAULT_DATE loc) loc = DEFAULT_DATE.
Proof.
  intros Hn Hb. unfold merge_tier.
  rewrite String.eqb_refl, Hn, String.eqb_refl. exact Hb.
Qed.

(** C4: within one tier run the locations handed to the thread pool are
    distinct however many rows share them, so a mocked adapter is invoked
    at most once per key (given that [Series.sample] draws without
    replacement); and a lookup of a key present in the cache returns the
    cached value without any call to the outside: cache, world and call
    log are unchanged. *)
Theorem C4_single_invocation :
  forall sample : list string -> nat -> Z -> list string,
    (forall l n seed, NoDup l -> NoDup (sample l n seed)) ->
    (forall S (adapter : string -> S -> result string * S) df seed st key,
       (count_occ string_dec
          (snd (snd (parallel_lookup (counting adapter)
                       (tier_keys sample df seed) (st, []))))
          key <= 1)%nat)
    /\ (forall find_dates dateparser_parse World wikipedia_search
               wikipedia_page location (st : state World) cached,
          wiki_cache st !! location = Some cached ->
          narrow_wikipedia_lookup_one find_dates dateparser_parse
            wikipedia_search wikipedia_page location st = (cached, st)
          /\ broad_wikipedia_lookup_one find_dates dateparser_parse
               wikipedia_search wikipedia_page location st = (cached, st)).
Proof.
  intros sample Hsample. split.
  - intros S adapter df seed st key.
    unfold parallel_lookup.
    pose proof (counting_log adapter (tier_keys sample df seed) st []) as L.
    destruct (run_all _ _ _) as [futures st1]. cbn [snd] in *.
    rewrite L. cbn [app].
    apply NoDup_count_occ. apply NoDup_ListNoDup.
    now apply NoDup_tier_keys.
  - intros fd dp World ws wp location st cached H. split.
    + now apply narrow_hit.
    + now apply broad_hit.
Qed.

Lemma sample_first_NoDup (l : list string) n (seed : Z) :
  NoDup l -> NoDup (sample_first l n seed).
Proof.
  unfold sample_first. intros H.
  rewrite <- (firstn_skipn n l) in H. now apply NoDup_app in H.
Qed.

Lemma C4_single_invocation_witness :
  (count_occ string_dec
     (snd (snd (parallel_lookup (counting flaky)
                  (tier_keys sample_first
                     [("2025-01-01", Str "Millbrook Township");
                      ("2025-01-01", Str "Bad Creek Bridge");
                      ("2025-01-01", Str "Millbrook Township");
                      ("1901-07-04", Str "Old Mill Road East");
                      ("2025-01-01", Str "Millbrook Township")] 42)
                  (tt, []))))
     "Millbrook Township" <= 1)%nat
  /\ narrow_wikipedia_lookup_one find_dates_1901 dateparser_none
       search_one page_dated "Millbrook Township"
       (State {["Millbrook Township" := "1887-01-01"]} tt [])
     = ("1887-01-01",
        State {["Millbrook Township" := "1887-01-01"]} tt []).
Proof.
  destruct (C4_single_invocation sample_first sample_first_NoDup) as [H1 H2].
  split.
  - apply H1.
  - apply (H2 find_dates_1901 dateparser_none unit search_one page_dated
              "Millbrook Township"
              (State {["Millbrook Township" := "1887-01-01"]} tt [])
              "1887-01-01").
    reflexivity.
Defined.

(** C5 breaks on the shared cache: whatever the narrow lookup of a key
    returned, the broad lookup of that key afterwards is answered from
    [wiki_cache] and issues no query.  For "Millbrook Township", which the
    network knows under its plain name only, the narrow lookup stores the
    sentinel, the broad lookup then returns the sentinel without searching
    (the call log holds the five narrow queries and nothing else), although
    the same broad lookup on a fresh cache finds 1901-07-04. *)
Theorem C5_broad_after_narrow_is_cached :
  (forall find_dates dateparser_parse World wikipedia_search wikipedia_page
          location (st : state World),
     let narrow := narrow_wikipedia_lookup_one find_dates dateparser_parse
                     wikipedia_search wikipedia_page in
     let broad := broad_wikipedia_lookup_one find_dates dateparser_parse
                    wikipedia_search wikipedia_page in
     broad location (snd (narrow location st))
     = (fst (narrow location st), snd (narrow location st)))
  /\ (let narrow := narrow_wikipedia_lookup_one find_dates_1901
                      dateparser_none search_plain_only page_dated in
      let broad := broad_wikipedia_lookup_one find_dates_1901
                     dateparser_none search_plain_only page_dated in
      let st0 := State ∅ tt [] in
      let st1 := snd (narrow "Millbrook Township" st0) in
      fst (narrow "Millbrook Township" st0) = DEFAULT_DATE
      /\ broad "Millbrook Township" st1 = (DEFAULT_DATE, st1)
      /\ calls st1 = map Search
                       (generate_narrow_search_terms "Millbrook Township")
      /\ fst (broad "Millbrook Township" st0) = "1901-07-04"
      /\ calls (snd (broad "Millbrook Township" st0))
         = [Search "Millbrook Township"; Fetch "Millbrook Township"]).
Proof.
  split.
  - intros fd dp World ws wp location st. cbv zeta.
    apply broad_after_narrow.
  - cbv zeta. repeat split; vm_compute; reflexivity.
Qed.

(** C9: [parallel_lookup] runs the lookup of every submitted key, whatever
    the other lookups did: the future of a key holds the outcome of that
    key's own lookup (run on the state the lookups before it left), a
    mocked adapter is invoked for every key of the list, and the state at
    the end is the one all the lookups leave.  The result map has an entry
    exactly for the submitted keys; for distinct keys, each key is mapped
    to the date its own lookup returned, or to [DEFAULT_DATE] if that
    lookup raised, so a failing key changes no other key's entry; and the
    map does not depend on the order in which the futures complete. *)
Theorem C9_failure_isolation :
  forall S (lookup_func : string -> S -> result string * S) locations st,
    let futures := fst (run_all lookup_func locations st) in
    let results_map := fst (parallel_lookup lookup_func locations st) in
    map fst futures = locations
    /\ (forall pre loc post,
          locations = pre ++ loc :: post ->
          nth_error futures (List.length pre)
          = Some (loc, own_result lookup_func pre loc st))
    /\ snd (parallel_lookup lookup_func locations st)
       = state_before lookup_func locations st
    /\ (forall log,
          snd (snd (parallel_lookup (counting lookup_func) locations
                      (st, log)))
          = log ++ locations)
    /\ (forall loc, In loc locations <-> is_Some (results_map !! loc))
    /\ (NoDup locations ->
        forall pre loc post,
          locations = pre ++ loc :: post ->
          results_map !! loc
          = Some (match own_result lookup_func pre loc st with
                  | Ok date_str => date_str
                  | Raise _ => DEFAULT_DATE
                  end))
    /\ (forall adapter : string -> result string,
          (forall loc s, fst (lookup_func loc s) = adapter loc) ->
          NoDup locations ->
          forall loc, In loc locations ->
            results_map !! loc
            = Some (match adapter loc with
                    | Ok date_str => date_str
                    | Raise _ => DEFAULT_DATE
                    end))
    /\ (NoDup locations ->
        forall loc r, In (loc, r) futures ->
          results_map !! loc
          = Some (match r with
                  | Ok date_str => date_str
                  | Raise _ => DEFAULT_DATE
                  end))
    /\ (NoDup locations ->
        forall completed, Permutation completed futures ->
          collect completed = results_map).
Proof.
  intros S f locations st. cbv zeta.
  rewrite parallel_lookup_collect.
  pose proof (run_all_keys f locations st) as K.
  assert (Own : forall pre loc post,
            locations = pre ++ loc :: post ->
            nth_error (fst (run_all f locations st)) (List.length pre)
            = Some (loc, own_result f pre loc st)).
  { intros pre loc post ->. apply run_all_own. }
  assert (In_map : NoDup locations ->
            forall loc r, In (loc, r) (fst (run_all f locations st)) ->
              collect (fst (run_all f locations st)) !! loc
              = Some (absorbed r)).
  { intros Hnd loc r Hin. rewrite collect_fold.
    rewrite <- K in Hnd. now rewrite (fold_record_in _ _ _ _ Hnd Hin). }
  assert (Own_map : NoDup locations ->
            forall pre loc post,
              locations = pre ++ loc :: post ->
              collect (fst (run_all f locations st)) !! loc
              = Some (absorbed (own_result f pre loc st))).
  { intros Hnd pre loc post E. apply (In_map Hnd).
    eapply List.nth_error_In, Own, E. }
  set (futures := fst (run_all f locations st)) in *.
  split; [exact K|]. split; [exact Own|].
  split.
  { unfold parallel_lookup.
    pose proof (run_all_state f locations st) as R.
    destruct (run_all f locations st) as [fs st1]. exact R. }
  split.
  { intros log. unfold parallel_lookup.
    pose proof (counting_log f locations st log) as L.
    destruct (run_all (counting f) locations (st, log)) as [fs st1].
    exact L. }
  split; [|split; [|split; [|split]]].
  - intros loc. rewrite collect_fold, fold_record_dom, K.
    rewrite lookup_empty. split; [auto|].
    intros [H|H]; [exact H|]. now destruct H.
  - exact Own_map.
  - intros adapter Ha Hnd loc Hin.
    apply List.in_split in Hin. destruct Hin as (pre & post & E).
    rewrite (Own_map Hnd pre loc post E). unfold own_result.
    now rewrite Ha.
  - exact In_map.
  - intros Hnd completed P. rewrite <- K in Hnd.
    assert (Hnd' : NoDup (map fst completed)).
    { assert (Pm : Permutation (map fst completed) (map fst futures))
        by apply Permutation_map, P.
      rewrite Pm. exact Hnd. }
    rewrite !collect_fold. apply map_eq. intros k.
    destruct (in_dec string_dec k (map fst futures)) as [Hk|Hk].
    + apply List.in_map_iff in Hk. destruct Hk as ([k' r] & Hkk & Hin).
      simpl in Hkk. subst k'.
      rewrite (fold_record_in _ _ _ _ Hnd Hin).
      apply fold_record_in; [exact Hnd'|].
      apply (Permutation_in _ (Permutation_sym P)), Hin.
    + rewrite !fold_record_notin; [reflexivity | exact Hk |].
      intros Hk'. apply Hk.
      apply (Permutation_in _ (Permutation_map fst P)), Hk'.
Qed.

Lemma C9_failure_isolation_witness :
  let locations :=
    ["Millbrook Township"; "Bad Creek Bridge"; "Old Mill Road East"] in
  let results_map := fst (parallel_lookup flaky locations tt) in
  results_map !! "Millbrook Township" = Some "1901-07-04"
  /\ results_map !! "Bad Creek Bridge" = Some DEFAULT_DATE
  /\ results_map !! "Old Mill Road East" = Some "1901-07-04"
  /\ snd (snd (parallel_lookup (counting flaky) locations (tt, [])))
     = locations
  /\ collect [("Old Mill Road East", Ok "1901-07-04");
              ("Millbrook Township", Ok "1901-07-04");
              ("Bad Creek Bridge", Raise "ConnectionError")]
     = results_map.
Proof.
  cbv zeta.
  destruct (C9_failure_isolation unit flaky
              ["Millbrook Township"; "Bad Creek Bridge"; "Old Mill Road East"]
              tt) as (_ & _ & _ & Hlog & _ & _ & Hown & _ & Hperm).
  assert (Hnd : NoDup ["Millbrook Township"; "Bad Creek Bridge";
                       "Old Mill Road East"]).
  { apply NoDup_ListNoDup.
    repeat (constructor; [simpl; intuition discriminate|]). constructor. }
  assert (Hpure : forall loc s,
             fst (flaky loc s)
             = (if String.eqb loc "Bad Creek Bridge"
                then Raise "ConnectionError" else Ok "1901-07-04")).
  { intros loc s. unfold flaky. now destruct (String.eqb loc _). }
  split; [|split; [|split; [|split]]].
  - apply (Hown _ Hpure Hnd "Millbrook Township"). simpl. auto.
  - apply (Hown _ Hpure Hnd "Bad Creek Bridge"). simpl. auto.
  - apply (Hown _ Hpure Hnd "Old Mill Road East"). simpl. auto.
  - apply (Hlog []).
  - apply (Hperm Hnd).
    simpl. rewrite perm_swap. apply perm_skip. apply perm_swap.
Defined.

(** C10: every lookup, narrow or broad, leaves the value it returns in the
    cache under its key; a second call of the same lookup on the resulting
    cache returns that value and changes nothing, whatever the network, the
    date libraries, the world and the call log are at the second call. *)
Theorem C10_lookup_idempotent :
  forall find_dates dateparser_parse World wikipedia_search wikipedia_page
         find_dates' dateparser_parse' wikipedia_search' wikipedia_page'
         location (st : state World),
    let narrow1 := narrow_wikipedia_lookup_one find_dates dateparser_parse
                     wikipedia_search wikipedia_page location st in
    let broad1 := broad_wikipedia_lookup_one find_dates dateparser_parse
                    wikipedia_search wikipedia_page location st in
    wiki_cache (snd narrow1) !! location = Some (fst narrow1)
    /\ wiki_cache (snd broad1) !! location = Some (fst broad1)
    /\ forall (world' : World) calls',
         let st_n := State (wiki_cache (snd narrow1)) world' calls' in
         let st_b := State (wiki_cache (snd broad1)) world' calls' in
         narrow_wikipedia_lookup_one find_dates' dateparser_parse'
           wikipedia_search' wikipedia_page' location st_n
         = (fst narrow1, st_n)
         /\ broad_wikipedia_lookup_one find_dates' dateparser_parse'
              wikipedia_search' wikipedia_page' location st_b
            = (fst broad1, st_b).
Proof.
  intros fd dp World ws wp fd' dp' ws' wp' location st. cbv zeta.
  pose proof (narrow_stored fd dp World ws wp location st) as Hn.
  pose proof (broad_stored fd dp World ws wp location st) as Hb.
  cbv zeta in Hn, Hb.
  split; [exact Hn|]. split; [exact Hb|].
  intros world' calls'. split.
  - now apply narrow_hit.
  - now apply broad_hit.
Qed.

End TierClaims.

(** * Facts about the column helpers *)

Module ListFacts.
Import Common.

Lemma elem_of_unique k l : k ∈ unique l <-> k ∈ l.
Proof.
  induction l as [|x l IH]; simpl; [reflexivity|].
  rewrite !elem_of_cons, list_elem_of_filter, IH.
  destruct (decide (k = x)); tauto.
Qed.

Lemma elem_of_dropna k l : k ∈ dropna l <-> Str k ∈ l.
Proof.
  induction l as [|[|s] l IH]; simpl.
  - rewrite !elem_of_nil. tauto.
  - rewrite elem_of_cons, IH. split; [auto|]. intros [H|H]; [discriminate|auto].
  - rewrite !elem_of_cons, IH. split; intros [H|H]; auto; [left; congruence|].
    injection H as ->. now left.
Qed.

End ListFacts.

(** * Further facts about the cached tiers of [verifyparallel] *)

Module TierExtras.
Import PyStr Dates Common Doubles Vocabulary Invariants.
Import ExtractorFacts SchedulerFacts LookupFacts ListFacts.
Import verifyparallel.

Lemma min_list_in d l : l <> [] -> In (min_list d l) l.
Proof.
  destruct l as [|x l]; [congruence|]. intros _. simpl.
  revert x. induction l as [|y l IH]; intros x; simpl; [auto|].
  destruct (IH (str_min x y)) as [H|H]; [|auto].
  rewrite <- H. unfold str_min. destruct (String.ltb y x); auto.
Qed.

Lemma date_ok_default : date_ok DEFAULT_DATE.
Proof. now left. Qed.

Lemma date_ok_min_list l :
  List.Forall date_ok l -> date_ok (min_list DEFAULT_DATE l).
Proof.
  intros H. destruct l as [|x l]; [apply date_ok_default|].
  rewrite List.Forall_forall in H. apply H. now apply min_list_in.
Qed.

Lemma cache_ok_insert cache k v :
  cache_ok cache -> date_ok v -> cache_ok (<[k := v]> cache).
Proof.
  intros Hc Hv k' v'. destruct (decide (k = k')) as [->|Hne].
  - rewrite lookup_insert_eq. now intros [= <-].
  - rewrite lookup_insert_ne by assumption. apply Hc.
Qed.

Lemma cache_ok_empty : cache_ok ∅.
Proof. intros k v. now rewrite lookup_empty. Qed.

Lemma filter_search_fetch titles :
  List.filter is_search (map Fetch titles) = [].
Proof. induction titles as [|t titles IH]; [reflexivity | exact IH]. Qed.

Lemma filter_search_cons q l :
  List.filter is_search (Search q :: l) = Search q :: List.filter is_search l.
Proof. reflexivity. Qed.

Section Lookups.
Variable find_dates : string -> list datetime.
Variable dateparser_parse : string -> option datetime.
Variable World : Type.
Variable wikipedia_search : string -> World -> result (list string) * World.
Variable wikipedia_page : string -> World -> result page * World.

Let extract := extract_date_from_text find_dates dateparser_parse.
Let scan := scan_titles find_dates dateparser_parse wikipedia_page.
Let queries_loop :=
  narrow_queries find_dates dateparser_parse wikipedia_search wikipedia_page.
Let narrow :=
  narrow_wikipedia_lookup_one find_dates dateparser_parse
                              wikipedia_search wikipedia_page.
Let broad :=
  broad_wikipedia_lookup_one find_dates dateparser_parse
                             wikipedia_search wikipedia_page.

Lemma extract_ok text : date_ok (extract text).
Proof. apply vp_extract_cases. Qed.

Lemma do_search_frame q (st : state World) :
  wiki_cache (snd (do_search wikipedia_search q st)) = wiki_cache st
  /\ calls (snd (do_search wikipedia_search q st)) = calls st ++ [Search q].
Proof.
  unfold do_search. destruct (wikipedia_search q (world st)). now split.
Qed.

Lemma do_page_frame t (st : state World) :
  wiki_cache (snd (do_page wikipedia_page t st)) = wiki_cache st
  /\ calls (snd (do_page wikipedia_page t st)) = calls st ++ [Fetch t].
Proof.
  unfold do_page. destruct (wikipedia_page t (world st)). now split.
Qed.

(** The title loop fetches every title it is given, keeps the cache, and
    only adds dates that came out of the extractor. *)
Lemma scan_titles_frame titles possible_dates (st : state World) :
  wiki_cache (snd (scan titles possible_dates st)) = wiki_cache st
  /\ calls (snd (scan titles possible_dates st))
     = calls st ++ map Fetch titles
  /\ (List.Forall date_ok possible_dates ->
      List.Forall date_ok (fst (scan titles possible_dates st))).
Proof.
  unfold scan. revert possible_dates st.
  induction titles as [|t titles IH]; intros pd st; cbn [scan_titles].
  - rewrite app_nil_r. auto.
  - destruct (do_page_frame t st) as [Hc Hl].
    destruct (do_page wikipedia_page t st) as [[p|e] st1]; cbn [snd] in Hc, Hl.
    + assert (G : forall pd',
                (List.Forall date_ok pd -> List.Forall date_ok pd') ->
                wiki_cache (snd (scan_titles find_dates dateparser_parse
                                   wikipedia_page titles pd' st1))
                = wiki_cache st
                /\ calls (snd (scan_titles find_dates dateparser_parse
                                 wikipedia_page titles pd' st1))
                   = calls st ++ map Fetch (t :: titles)
                /\ (List.Forall date_ok pd ->
                    List.Forall date_ok
                      (fst (scan_titles find_dates dateparser_parse
                              wikipedia_page titles pd' st1)))).
      { intros pd' Hpd'. destruct (IH pd' st1) as (I1 & I2 & I3).
        rewrite I1, I2, Hc, Hl, <- app_assoc. auto. }
      destruct (is_disambiguation p); [apply G; auto|].
      destruct (String.eqb _ DEFAULT_DATE); [apply G; auto|].
      apply G. intros H. apply List.Forall_app. split; [assumption|].
      constructor; [apply extract_ok | constructor].
    + destruct (IH pd st1) as (I1 & I2 & I3).
      rewrite I1, I2, Hc, Hl, <- app_assoc. auto.
Qed.

(** The query loop keeps the cache, makes at most one search and two page
    fetches per query, and only collects extracted dates. *)
Lemma narrow_queries_frame queries possible_dates (st : state World) :
  wiki_cache (snd (queries_loop queries possible_dates st)) = wiki_cache st
  /\ (exists new,
        calls (snd (queries_loop queries possible_dates st))
        = calls st ++ new
        /\ (List.length (List.filter is_search new)
            <= List.length queries)%nat
        /\ (List.length new <= 3 * List.length queries)%nat)
  /\ (List.Forall date_ok possible_dates ->
      List.Forall date_ok (fst (queries_loop queries possible_dates st))).
Proof.
  unfold queries_loop. revert possible_dates st.
  induction queries as [|q queries IH]; intros pd st; cbn [narrow_queries].
  - split; [reflexivity|]. split; [|auto].
    exists []. rewrite app_nil_r. simpl. auto.
  - destruct (do_search_frame q st) as [Hc Hl].
    destruct (do_search wikipedia_search q st) as [[results|e] st1];
      cbn [snd] in Hc, Hl.
    + destruct results as [|r0 results].
      * destruct (IH pd st1) as (I1 & (new & I2 & I3 & I4) & I5).
        split; [now rewrite I1|]. split; [|exact I5].
        exists (Search q :: new). rewrite I2, Hl, <- app_assoc.
        split; [reflexivity|]. simpl. split; lia.
      * destruct (scan_titles_frame (firstn 2 (r0 :: results)) pd st1)
          as (S1 & S2 & S3).
        unfold scan in S1, S2, S3.
        destruct (scan_titles _ _ _ (firstn 2 (r0 :: results)) pd st1)
          as [pd1 st2]. cbn [fst snd] in S1, S2, S3.
        assert (Lf : (List.length (map Fetch (firstn 2 (r0 :: results)))
                      <= 2)%nat).
        { rewrite List.length_map. apply firstn_le_length. }
        assert (Ff : List.filter is_search
                       (map Fetch (firstn 2 (r0 :: results))) = []).
        { apply filter_search_fetch. }
        destruct pd1 as [|d pd1].
        -- destruct (IH [] st2) as (I1 & (new & I2 & I3 & I4) & I5).
           split; [now rewrite I1, S1|]. split; [|intros _; apply I5; constructor].
           exists (Search q :: map Fetch (firstn 2 (r0 :: results)) ++ new).
           rewrite I2, S2, Hl, <- !app_assoc. split; [reflexivity|].
           rewrite filter_search_cons, List.filter_app, Ff.
           cbn [app List.length]. rewrite List.length_app. split; lia.
        -- cbn [fst snd]. split; [now rewrite S1|]. split; [|exact S3].
           exists (Search q :: map Fetch (firstn 2 (r0 :: results))).
           rewrite S2, Hl, <- app_assoc. split; [reflexivity|].
           rewrite filter_search_cons, Ff.
           cbn [List.length]. split; lia.
    + destruct (IH pd st1) as (I1 & (new & I2 & I3 & I4) & I5).
      split; [now rewrite I1|]. split; [|exact I5].
      exists (Search q :: new). rewrite I2, Hl, <- app_assoc.
      split; [reflexivity|]. simpl. split; lia.
Qed.

Lemma store_best_effect location possible_dates (st : state World) :
  wiki_cache (snd (store_best location possible_dates st))
  = <[location := fst (store_best location possible_dates st)]> (wiki_cache st)
  /\ calls (snd (store_best location possible_dates st)) = calls st
  /\ (List.Forall date_ok possible_dates ->
      date_ok (fst (store_best location possible_dates st))).
Proof.
  unfold store_best. cbn [fst snd wiki_cache calls].
  split; [reflexivity|]. split; [reflexivity|]. apply date_ok_min_list.
Qed.

Lemma narrow_effect location (st : state World) :
  wiki_cache (snd (narrow location st))
  = <[location := fst (narrow location st)]> (wiki_cache st)
  /\ (exists new,
        calls (snd (narrow location st)) = calls st ++ new
        /\ (List.length (List.filter is_search new) <= 5)%nat
        /\ (List.length new <= 15)%nat)
  /\ (cache_ok (wiki_cache st) -> date_ok (fst (narrow location st))).
Proof.
  unfold narrow, narrow_wikipedia_lookup_one.
  destruct (wiki_cache st !! location) as [cached|] eqn:E.
  - cbn [fst snd]. split; [now rewrite insert_id|].
    split; [|intros Hc; eapply Hc; eauto].
    exists []. rewrite app_nil_r. simpl. split; [reflexivity|]. lia.
  - destruct (narrow_queries_frame
                (generate_narrow_search_terms location) [] st)
      as (Q1 & (new & Q2 & Q3 & Q4) & Q5).
    unfold queries_loop in Q1, Q2, Q5.
    destruct (narrow_queries _ _ _ _ _ [] st) as [pd st1].
    cbn [fst snd] in Q1, Q2, Q5.
    destruct (store_best_effect location pd st1) as (B1 & B2 & B3).
    split; [now rewrite B1, Q1|].
    split; [|intros _; apply B3, Q5; constructor].
    exists new. rewrite B2, Q2. split; [reflexivity|].
    cbn [generate_narrow_search_terms List.length] in Q3, Q4. lia.
Qed.

Lemma broad_effect location (st : state World) :
  wiki_cache (snd (broad location st))
  = <[location := fst (broad location st)]> (wiki_cache st)
  /\ (exists new,
        calls (snd (broad location st)) = calls st ++ new
        /\ (List.length (List.filter is_search new) <= 1)%nat
        /\ (List.length new <= 3)%nat)
  /\ (cache_ok (wiki_cache st) -> date_ok (fst (broad location st))).
Proof.
  unfold broad, broad_wikipedia_lookup_one.
  destruct (wiki_cache st !! location) as [cached|] eqn:E.
  - cbn [fst snd]. split; [now rewrite insert_id|].
    split; [|intros Hc; eapply Hc; eauto].
    exists []. rewrite app_nil_r. simpl. split; [reflexivity|]. lia.
  - destruct (do_search_frame location st) as [Hc Hl].
    destruct (do_search wikipedia_search location st) as [[results|e] st1];
      cbn [snd] in Hc, Hl.
    + destruct (scan_titles_frame (firstn 2 results) [] st1) as (S1 & S2 & S3).
      unfold scan in S1, S2, S3.
      destruct (scan_titles _ _ _ (firstn 2 results) [] st1) as [pd st2].
      cbn [fst snd] in S1, S2, S3.
      destruct (store_best_effect location pd st2) as (B1 & B2 & B3).
      split; [now rewrite B1, S1, Hc|].
      split; [|intros _; apply B3, S3; constructor].
      exists (Search location :: map Fetch (firstn 2 results)).
      rewrite B2, S2, Hl, <- app_assoc. split; [reflexivity|].
      rewrite filter_search_cons, filter_search_fetch.
      cbn [List.length]. rewrite List.length_map.
      pose proof (firstn_le_length 2 results). lia.
    + destruct (store_best_effect location [] st1) as (B1 & B2 & B3).
      split; [now rewrite B1, Hc|].
      split; [|intros _; apply B3; constructor].
      exists [Search location]. rewrite B2, Hl. split; [reflexivity|].
      simpl. lia.
Qed.

Lemma narrow_cached_lookup : cached_lookup narrow.
Proof.
  intros loc st. destruct (narrow_effect loc st) as (H1 & _ & H3).
  split; [exact H1|]. split; [|exact H3].
  intros [v Hv]. unfold narrow. now rewrite (narrow_hit _ _ _ _ _ _ _ _ Hv).
Qed.

Lemma broad_cached_lookup : cached_lookup broad.
Proof.
  intros loc st. destruct (broad_effect loc st) as (H1 & _ & H3).
  split; [exact H1|]. split; [|exact H3].
  intros [v Hv]. unfold broad. now rewrite (broad_hit _ _ _ _ _ _ _ _ Hv).
Qed.

Lemma narrow_call_bound : call_bound narrow 5 15.
Proof. intros loc st. now destruct (narrow_effect loc st) as (_ & H & _). Qed.

Lemma broad_call_bound : call_bound broad 1 3.
Proof. intros loc st. now destruct (broad_effect loc st) as (_ & H & _). Qed.

End Lookups.

Section Tier.
Variable World : Type.
Variable f : string -> state World -> string * state World.

Lemma as_lookup_eq loc (st : state World) :
  as_lookup f loc st = (Ok (fst (f loc st)), snd (f loc st)).
Proof. unfold as_lookup. now destruct (f loc st). Qed.

(** The futures of a tier over a caching lookup: all succeeded, each with
    the value the final cache holds for its key; the cache only grows, by
    the submitted keys. *)
Lemma run_all_cached locations (st : state World) :
  cached_lookup f ->
  let futures := fst (run_all (as_lookup f) locations st) in
  let st' := snd (run_all (as_lookup f) locations st) in
  List.Forall (fun kr => exists d, snd kr = Ok d
                                   /\ wiki_cache st' !! fst kr = Some d)
              futures
  /\ (forall k v, wiki_cache st !! k = Some v -> wiki_cache st' !! k = Some v)
  /\ (forall k, is_Some (wiki_cache st' !! k)
                <-> is_Some (wiki_cache st !! k) \/ In k locations)
  /\ (cache_ok (wiki_cache st) -> cache_ok (wiki_cache st'))
  /\ ((forall k, In k locations -> is_Some (wiki_cache st !! k)) -> st' = st).
Proof.
  intros Hf. cbv zeta. revert st.
  induction locations as [|loc l IH]; intros st; cbn [run_all].
  - cbn [fst snd]. split; [constructor|]. split; [auto|].
    split; [simpl; tauto|]. auto.
  - destruct (Hf loc st) as (F1 & F2 & F3).
    rewrite (as_lookup_eq loc st).
    destruct (f loc st) as [d st1]. cbn [fst snd] in F1, F2, F3 |- *.
    specialize (IH st1). destruct (run_all (as_lookup f) l st1) as [futures st2].
    cbn [fst snd] in IH |- *.
    destruct IH as (I1 & I2 & I3 & I4 & I5).
    assert (M : forall k v, wiki_cache st !! k = Some v ->
                            wiki_cache st1 !! k = Some v).
    { intros k v Hk. rewrite F1. destruct (decide (loc = k)) as [->|Hne].
      - assert (E : st1 = st) by (apply F2; eauto). subst st1.
        rewrite lookup_insert_eq. rewrite F1 in Hk.
        now rewrite lookup_insert_eq in Hk.
      - now rewrite lookup_insert_ne. }
    split; [|split; [|split; [|split]]].
    + constructor; [|exact I1]. exists d. split; [reflexivity|].
      apply I2. rewrite F1. apply lookup_insert_eq.
    + intros k v Hk. apply I2, M, Hk.
    + intros k. rewrite I3, F1. simpl.
      destruct (decide (loc = k)) as [->|Hne].
      * rewrite lookup_insert_eq. split; [auto|]. intros _. left. eauto.
      * rewrite lookup_insert_ne by assumption. tauto.
    + intros Hc. apply I4. rewrite F1. apply cache_ok_insert; auto.
    + intros Hall.
      assert (E : st1 = st) by (apply F2, Hall; now left). subst st1.
      apply I5. intros k Hk. apply Hall. now right.
Qed.

Lemma collect_lookup_inv completed k v :
  collect completed !! k = Some v ->
  exists r, In (k, r) completed /\ v = absorbed r.
Proof.
  rewrite collect_fold.
  assert (G : forall m, fold_left record_future completed m !! k = Some v ->
            (exists r, In (k, r) completed /\ v = absorbed r)
            \/ m !! k = Some v).
  { induction completed as [|[k' r'] l IH]; intros m; simpl; [auto|].
    intros H. destruct (IH _ H) as [(r & Hin & ->)|Hm]; [left; eauto|].
    unfold record_future in Hm. simpl in Hm.
    destruct (decide (k' = k)) as [->|Hne].
    - rewrite lookup_insert_eq in Hm. injection Hm as <-. left. eauto.
    - rewrite lookup_insert_ne in Hm by assumption. auto. }
  intros H. destruct (G ∅ H) as [?|Hm]; [assumption|].
  now rewrite lookup_empty in Hm.
Qed.

(** The result map of a tier is the final cache restricted to the
    submitted keys. *)
Lemma tier_results_cached locations (st : state World) :
  cached_lookup f ->
  let results := fst (parallel_lookup (as_lookup f) locations st) in
  let st' := snd (parallel_lookup (as_lookup f) locations st) in
  (forall k, In k locations ->
     is_Some (results !! k) /\ results !! k = wiki_cache st' !! k)
  /\ (forall k, ~ In k locations -> results !! k = None).
Proof.
  intros Hf. cbv zeta.
  pose proof (run_all_cached locations st Hf) as R. cbv zeta in R.
  pose proof (run_all_keys (as_lookup f) locations st) as K.
  unfold parallel_lookup.
  destruct (run_all (as_lookup f) locations st) as [futures st'].
  cbn [fst snd] in *. destruct R as (R1 & _).
  assert (D : forall k, is_Some (collect futures !! k) <-> In k locations).
  { intros k. rewrite collect_fold, fold_record_dom, K, lookup_empty.
    split; [|auto]. intros [H|H]; [exact H|]. now destruct H. }
  split.
  - intros k Hk. split; [now apply D|].
    destruct (proj2 (D k) Hk) as [v Hv]. rewrite Hv.
    destruct (collect_lookup_inv _ _ _ Hv) as (r & Hin & ->).
    rewrite List.Forall_forall in R1.
    destruct (R1 _ Hin) as (d & Hr & Hd). cbn [fst snd] in Hr, Hd.
    subst r. simpl. now rewrite Hd.
  - intros k Hk. destruct (collect futures !! k) eqn:E; [|reflexivity].
    exfalso. apply Hk, D. eauto.
Qed.

Lemma run_all_calls locations (st : state World) searches total :
  call_bound f searches total ->
  exists new,
    calls (snd (run_all (as_lookup f) locations st)) = calls st ++ new
    /\ (List.length (List.filter is_search new)
        <= searches * List.length locations)%nat
    /\ (List.length new <= total * List.length locations)%nat.
Proof.
  intros Hb. revert st.
  induction locations as [|loc l IH]; intros st; cbn [run_all].
  - exists []. rewrite app_nil_r. cbn. split; [reflexivity|]. lia.
  - rewrite (as_lookup_eq loc st).
    destruct (Hb loc st) as (new1 & B1 & B2 & B3).
    destruct (f loc st) as [d st1]. cbn [fst snd] in B1 |- *.
    destruct (IH st1) as (new2 & I1 & I2 & I3).
    destruct (run_all (as_lookup f) l st1) as [futures st2].
    cbn [fst snd] in I1 |- *.
    exists (new1 ++ new2). rewrite I1, B1, <- app_assoc.
    split; [reflexivity|].
    rewrite List.filter_app, !List.length_app. cbn [List.length]. lia.
Qed.

Lemma run_tier_sound sampled (st : state World) :
  cached_lookup f -> cache_ok (wiki_cache st) ->
  cache_ok (wiki_cache (snd (run_tier f sampled st)))
  /\ (forall k v, fst (run_tier f sampled st) !! k = Some v -> date_ok v).
Proof.
  intros Hf Hc.
  assert (E : run_tier f sampled st = parallel_lookup (as_lookup f) sampled st).
  { destruct sampled; reflexivity. }
  rewrite E.
  destruct (tier_results_cached sampled st Hf) as [T1 T2]. cbv zeta in T1, T2.
  pose proof (run_all_cached sampled st Hf) as R. cbv zeta in R.
  destruct R as (_ & _ & _ & R4 & _).
  assert (S : snd (parallel_lookup (as_lookup f) sampled st)
              = snd (run_all (as_lookup f) sampled st)).
  { unfold parallel_lookup. now destruct (run_all _ _ _). }
  rewrite S in *. split; [auto|].
  intros k v Hk.
  destruct (in_dec string_dec k sampled) as [Hin|Hin].
  - destruct (T1 k Hin) as [_ Heq]. rewrite Heq in Hk. eapply R4; eauto.
  - rewrite (T2 k Hin) in Hk. discriminate.
Qed.

End Tier.

Lemma dict_get_ok results loc :
  (forall k v, results !! k = Some v -> date_ok v) ->
  date_ok (dict_get results loc).
Proof.
  intros H. destruct loc as [|l]; [apply date_ok_default|].
  simpl. destruct (results !! l) eqn:E; [eapply H; eauto | apply date_ok_default].
Qed.

Lemma merge_tier_ok results prior loc :
  (forall k v, results !! k = Some v -> date_ok v) ->
  date_ok prior -> date_ok (merge_tier results prior loc).
Proof.
  intros H Hp. unfold merge_tier.
  destruct (String.eqb prior DEFAULT_DATE); [now apply dict_get_ok | exact Hp].
Qed.

(** [main] unfolded: the two tiers with their keys and states, and the
    rows written. *)
Lemma main_unfold find_dates dateparser_parse World
    wikipedia_search wikipedia_page sample rows (st : state World) :
  let extract := extract_date_from_text find_dates dateparser_parse in
  let narrow := narrow_wikipedia_lookup_one find_dates dateparser_parse
                  wikipedia_search wikipedia_page in
  let broad := broad_wikipedia_lookup_one find_dates dateparser_parse
                 wikipedia_search wikipedia_page in
  let sampled :=
    tier_keys sample
      (map (fun r => (extract (description r), location r)) rows) 42 in
  let tier1 := run_tier narrow sampled st in
  let sampled2 :=
    tier_keys sample
      (map (fun r => (merge_tier (fst tier1) (extract (description r))
                                 (location r), location r)) rows) 999 in
  let tier2 := run_tier broad sampled2 (snd tier1) in
  main find_dates dateparser_parse wikipedia_search wikipedia_page
       sample rows st
  = (map (fun r =>
            let d := extract (description r) in
            let n := merge_tier (fst tier1) d (location r) in
            let b := merge_tier (fst tier2) n (location r) in
            OutRow r d n (Some b) b) rows,
     snd tier2).
Proof.
  cbv zeta. unfold main. cbn [USE_BROADER_APPROACH].
  rewrite !List.map_map. cbv beta iota zeta.
  destruct (run_tier _ _ st) as [narrow_results st1]. cbn [fst snd].
  rewrite !List.map_map. cbv beta iota zeta.
  destruct (run_tier _ _ st1) as [broad_results st2]. cbn [fst snd].
  rewrite !List.map_map. reflexivity.
Qed.

Lemma elem_of_select_locations k df :
  k ∈ select_locations df
  <-> (DEFAULT_DATE, Str k) ∈ df /\ should_skip_location k = false.
Proof.
  unfold select_locations. cbn [SKIP_SHORT_LOCATIONS].
  rewrite list_elem_of_filter, elem_of_unique, elem_of_dropna.
  rewrite list_elem_of_fmap.
  split.
  - intros (Hs & [d c] & Hc & Hin). simpl in Hc. subst c.
    apply list_elem_of_filter in Hin. destruct Hin as [Hd Hin].
    simpl in Hd. apply Is_true_true, String.eqb_eq in Hd. subst d.
    split; [exact Hin|]. apply Is_true_true in Hs.
    now apply negb_true_iff in Hs.
  - intros [Hin Hs]. split.
    + apply Is_true_true, negb_true_iff, Hs.
    + exists (DEFAULT_DATE, Str k). split; [reflexivity|].
      apply list_elem_of_filter. split; [|exact Hin].
      exact I.
Qed.

Lemma sample_size_half n : sample_size n = Nat.div n 2.
Proof.
  unfold sample_size, SAMPLE_MISSING_FRAC.
  unfold Qround.Qfloor, QArith_base.Qmult, QArith_base.inject_Z.
  cbn [QArith_base.Qnum QArith_base.Qden].
  rewrite Z.mul_1_r. change (Z.pos (1 * 2)) with 2.
  rewrite <- (Nat2Z.id (n / 2)). f_equal.
  rewrite Nat2Z.inj_div. reflexivity.
Qed.

(** X1: the network cost of the lookups.  A narrow lookup appends at most
    5 searches and 15 calls to the call log, a broad lookup at most 1
    search and 3 calls; a tier over [n] keys at most [n] times as many. *)
Theorem lookup_call_budget :
  forall find_dates dateparser_parse World wikipedia_search wikipedia_page
         (st : state World),
    let narrow := narrow_wikipedia_lookup_one find_dates dateparser_parse
                    wikipedia_search wikipedia_page in
    let broad := broad_wikipedia_lookup_one find_dates dateparser_parse
                   wikipedia_search wikipedia_page in
    (forall location, exists new,
        calls (snd (narrow location st)) = calls st ++ new
        /\ (List.length (List.filter is_search new) <= 5)%nat
        /\ (List.length new <= 15)%nat)
    /\ (forall location, exists new,
          calls (snd (broad location st)) = calls st ++ new
          /\ (List.length (List.filter is_search new) <= 1)%nat
          /\ (List.length new <= 3)%nat)
    /\ (forall sampled, exists new,
          calls (snd (run_tier narrow sampled st)) = calls st ++ new
          /\ (List.length (List.filter is_search new)
              <= 5 * List.length sampled)%nat
          /\ (List.length new <= 15 * List.length sampled)%nat)
    /\ (forall sampled, exists new,
          calls (snd (run_tier broad sampled st)) = calls st ++ new
          /\ (List.length (List.filter is_search new)
              <= 1 * List.length sampled)%nat
          /\ (List.length new <= 3 * List.length sampled)%nat).
Proof.
  intros fd dp World ws wp st. cbv zeta.
  assert (T : forall f sampled,
            run_tier f sampled st
            = parallel_lookup (as_lookup f) sampled st).
  { intros f [|k l]; reflexivity. }
  assert (P : forall f sampled,
            snd (parallel_lookup (as_lookup f) sampled st)
            = snd (run_all (as_lookup f) sampled st)).
  { intros f sampled. unfold parallel_lookup. now destruct (run_all _ _ _). }
  split; [|split; [|split]].
  - intros location. apply (narrow_call_bound fd dp World ws wp).
  - intros location. apply (broad_call_bound fd dp World ws wp).
  - intros sampled. rewrite T, P.
    apply run_all_calls, (narrow_call_bound fd dp World ws wp).
  - intros sampled. rewrite T, P.
    apply run_all_calls, (broad_call_bound fd dp World ws wp).
Qed.

(** X2: a lookup writes the value it returns under its key and changes
    nothing else in the cache; an entry that exists is never replaced. *)
Theorem lookup_cache_update :
  forall find_dates dateparser_parse World wikipedia_search wikipedia_page
         location (st : state World),
    let n := narrow_wikipedia_lookup_one find_dates dateparser_parse
               wikipedia_search wikipedia_page location st in
    let b := broad_wikipedia_lookup_one find_dates dateparser_parse
               wikipedia_search wikipedia_page location st in
    wiki_cache (snd n) = <[location := fst n]> (wiki_cache st)
    /\ wiki_cache (snd b) = <[location := fst b]> (wiki_cache st)
    /\ (forall k v, wiki_cache st !! k = Some v ->
          wiki_cache (snd n) !! k = Some v
          /\ wiki_cache (snd b) !! k = Some v).
Proof.
  intros fd dp World ws wp location st. cbv zeta.
  destruct (narrow_cached_lookup fd dp World ws wp location st)
    as (N1 & N2 & _).
  destruct (broad_cached_lookup fd dp World ws wp location st)
    as (B1 & B2 & _).
  split; [exact N1|]. split; [exact B1|].
  intros k v Hk. destruct (decide (location = k)) as [->|Hne].
  - rewrite N2, B2 by eauto. auto.
  - rewrite N1, B1, !lookup_insert_ne by assumption. auto.
Qed.

Lemma lookup_cache_update_witness :
  let st := State {["Old Mill Road East" := "1887-01-01"]} tt [] in
  wiki_cache (snd (narrow_wikipedia_lookup_one find_dates_1901 dateparser_none
                     search_one page_dated "Millbrook Township" st))
    !! "Old Mill Road East" = Some "1887-01-01"
  /\ wiki_cache (snd (broad_wikipedia_lookup_one find_dates_1901
                        dateparser_none search_one page_dated
                        "Millbrook Township" st))
       !! "Old Mill Road East" = Some "1887-01-01".
Proof.
  cbv zeta.
  apply (proj2 (proj2 (lookup_cache_update find_dates_1901 dateparser_none
                         unit search_one page_dated "Millbrook Township"
                         (State {["Old Mill Road East" := "1887-01-01"]}
                                tt [])))
               "Old Mill Road East" "1887-01-01").
  reflexivity.
Defined.

(** X3: the result map of a tier is the cache after the tier, restricted
    to the submitted keys; the cache keeps its entries and gains exactly
    the submitted keys. *)
Theorem tier_result_is_cache :
  forall find_dates dateparser_parse World wikipedia_search wikipedia_page
         sampled (st : state World),
    let narrow := narrow_wikipedia_lookup_one find_dates dateparser_parse
                    wikipedia_search wikipedia_page in
    let broad := broad_wikipedia_lookup_one find_dates dateparser_parse
                   wikipedia_search wikipedia_page in
    let spec f :=
      let results := fst (run_tier f sampled st) in
      let st' := snd (run_tier f sampled st) in
      (forall k, In k sampled ->
         is_Some (results !! k) /\ results !! k = wiki_cache st' !! k)
      /\ (forall k, ~ In k sampled -> results !! k = None)
      /\ (forall k v, wiki_cache st !! k = Some v ->
                      wiki_cache st' !! k = Some v)
      /\ (forall k, is_Some (wiki_cache st' !! k)
                    <-> is_Some (wiki_cache st !! k) \/ In k sampled) in
    spec narrow /\ spec broad.
Proof.
  intros fd dp World ws wp sampled st. cbv zeta.
  assert (G : forall f, cached_lookup f ->
    (forall k, In k sampled ->
       is_Some (fst (run_tier f sampled st) !! k)
       /\ fst (run_tier f sampled st) !! k
          = wiki_cache (snd (run_tier f sampled st)) !! k)
    /\ (forall k, ~ In k sampled -> fst (run_tier f sampled st) !! k = None)
    /\ (forall k v, wiki_cache st !! k = Some v ->
                    wiki_cache (snd (run_tier f sampled st)) !! k = Some v)
    /\ (forall k, is_Some (wiki_cache (snd (run_tier f sampled st)) !! k)
                  <-> is_Some (wiki_cache st !! k) \/ In k sampled)).
  { intros f Hf.
    assert (E : run_tier f sampled st
                = parallel_lookup (as_lookup f) sampled st).
    { destruct sampled; reflexivity. }
    rewrite E.
    destruct (tier_results_cached World f sampled st Hf) as [T1 T2].
    cbv zeta in T1, T2.
    pose proof (run_all_cached World f sampled st Hf) as R. cbv zeta in R.
    destruct R as (_ & R2 & R3 & _).
    assert (S : snd (parallel_lookup (as_lookup f) sampled st)
                = snd (run_all (as_lookup f) sampled st)).
    { unfold parallel_lookup. now destruct (run_all _ _ _). }
    rewrite S in *. auto. }
  split; apply G.
  - apply narrow_cached_lookup.
  - apply broad_cached_lookup.
Qed.

Lemma tier_result_is_cache_witness :
  let st := State {["Old Mill Road East" := "1887-01-01"]} tt [] in
  let tier := run_tier (narrow_wikipedia_lookup_one find_dates_1901
                          dateparser_none search_one page_dated)
                       ["Millbrook Township"; "Old Mill Road East"] st in
  fst tier !! "Old Mill Road East" = wiki_cache (snd tier) !! "Old Mill Road East"
  /\ fst tier !! "Bad Creek Bridge" = None
  /\ wiki_cache (snd tier) !! "Old Mill Road East" = Some "1887-01-01".
Proof.
  cbv zeta.
  destruct (tier_result_is_cache find_dates_1901 dateparser_none unit
              search_one page_dated
              ["Millbrook Township"; "Old Mill Road East"]
              (State {["Old Mill Road East" := "1887-01-01"]} tt []))
    as [(H1 & H2 & H3 & _) _].
  split; [|split].
  - apply H1. simpl. auto.
  - apply H2. simpl. intuition discriminate.
  - apply H3. reflexivity.
Defined.

(** X4: a tier all of whose keys are cached makes no call and changes
    nothing: it returns the cached values and the state it was given. *)
Theorem cached_tier_is_silent :
  forall find_dates dateparser_parse World wikipedia_search wikipedia_page
         sampled (st : state World),
    (forall k, In k sampled -> is_Some (wiki_cache st !! k)) ->
    let narrow := narrow_wikipedia_lookup_one find_dates dateparser_parse
                    wikipedia_search wikipedia_page in
    let broad := broad_wikipedia_lookup_one find_dates dateparser_parse
                   wikipedia_search wikipedia_page in
    snd (run_tier narrow sampled st) = st
    /\ snd (run_tier broad sampled st) = st
    /\ (forall k, In k sampled ->
          fst (run_tier narrow sampled st) !! k = wiki_cache st !! k
          /\ fst (run_tier broad sampled st) !! k = wiki_cache st !! k).
Proof.
  intros fd dp World ws wp sampled st Hall. cbv zeta.
  assert (G : forall f, cached_lookup f ->
            snd (run_tier f sampled st) = st
            /\ forall k, In k sampled ->
                 fst (run_tier f sampled st) !! k = wiki_cache st !! k).
  { intros f Hf.
    assert (E : run_tier f sampled st
                = parallel_lookup (as_lookup f) sampled st).
    { destruct sampled; reflexivity. }
    rewrite E.
    destruct (tier_results_cached World f sampled st Hf) as [T1 _].
    cbv zeta in T1.
    pose proof (run_all_cached World f sampled st Hf) as R. cbv zeta in R.
    destruct R as (_ & _ & _ & _ & R5).
    assert (S : snd (parallel_lookup (as_lookup f) sampled st)
                = snd (run_all (as_lookup f) sampled st)).
    { unfold parallel_lookup. now destruct (run_all _ _ _). }
    rewrite S in *. rewrite (R5 Hall) in *. split; [reflexivity|].
    intros k Hk. now apply T1. }
  destruct (G _ (narrow_cached_lookup fd dp World ws wp)) as [N1 N2].
  destruct (G _ (broad_cached_lookup fd dp World ws wp)) as [B1 B2].
  split; [exact N1|]. split; [exact B1|]. intros k Hk. split; auto.
Qed.

Lemma cached_tier_is_silent_witness :
  let st := State {["Old Mill Road East" := "2025-01-01"]} tt
                  [Search "Old Mill Road East history"] in
  snd (run_tier (broad_wikipedia_lookup_one find_dates_1901 dateparser_none
                   search_one page_dated) ["Old Mill Road East"] st) = st.
Proof.
  cbv zeta.
  apply (cached_tier_is_silent find_dates_1901 dateparser_none unit
           search_one page_dated ["Old Mill Road East"]
           (State {["Old Mill Road East" := "2025-01-01"]} tt
                  [Search "Old Mill Road East history"])).
  intros k [<-|[]]. exists "2025-01-01". reflexivity.
Defined.

Lemma filter_all_true {A} (p : A -> bool) l :
  List.Forall (fun x => p x = true) l -> List.filter p l = l.
Proof.
  induction 1 as [|x l Hx _ IH]; simpl; [reflexivity|]. now rewrite Hx, IH.
Qed.

(** X5: started on a cache that holds only sentinel-or-validated dates (the
    empty cache of a fresh run), [main] writes only such dates in every
    date column and leaves such a cache; so in its statistics every
    recognized row is a valid one. *)
Theorem main_dates_sound :
  forall find_dates dateparser_parse World wikipedia_search wikipedia_page
         sample rows (st : state World),
    cache_ok (wiki_cache st) ->
    let run := main find_dates dateparser_parse wikipedia_search
                    wikipedia_page sample rows st in
    List.Forall (fun o => date_ok (LocalDate o)
                          /\ date_ok (NarrowWikiDate o)
                          /\ date_ok (FinalDate o)) (fst run)
    /\ cache_ok (wiki_cache (snd run))
    /\ (let '(total, recognized_count, valid_recognized_count) :=
          Reports.summary_stats (map FinalDate (fst run)) in
        valid_recognized_count = recognized_count
        /\ recognized_count <= total).
Proof.
  intros fd dp World ws wp sample rows st Hc. cbv zeta.
  rewrite main_unfold. cbv zeta. cbn [fst snd].
  set (narrow := narrow_wikipedia_lookup_one fd dp ws wp).
  set (broad := broad_wikipedia_lookup_one fd dp ws wp).
  set (tier1 := run_tier narrow _ st).
  destruct (run_tier_sound World narrow
              (tier_keys sample
                 (map (fun r => (extract_date_from_text fd dp (description r),
                                 location r)) rows) 42)
              st (narrow_cached_lookup fd dp World ws wp) Hc) as [C1 V1].
  fold tier1 in C1, V1.
  set (tier2 := run_tier broad _ (snd tier1)).
  destruct (run_tier_sound World broad
              (tier_keys sample
                 (map (fun r => (merge_tier (fst tier1)
                                   (extract_date_from_text fd dp (description r))
                                   (location r), location r)) rows) 999)
              (snd tier1) (broad_cached_lookup fd dp World ws wp) C1)
    as [C2 V2].
  fold tier2 in C2, V2.
  assert (F : List.Forall
                (fun o => date_ok (LocalDate o) /\ date_ok (NarrowWikiDate o)
                          /\ date_ok (FinalDate o))
                (map (fun r =>
                   OutRow r (extract_date_from_text fd dp (description r))
                     (merge_tier (fst tier1)
                        (extract_date_from_text fd dp (description r))
                        (location r))
                     (Some (merge_tier (fst tier2)
                        (merge_tier (fst tier1)
                           (extract_date_from_text fd dp (description r))
                           (location r)) (location r)))
                     (merge_tier (fst tier2)
                        (merge_tier (fst tier1)
                           (extract_date_from_text fd dp (description r))
                           (location r)) (location r))) rows)).
  { rewrite List.Forall_forall. intros o Ho.
    apply List.in_map_iff in Ho. destruct Ho as (r & <- & _).
    cbn [LocalDate NarrowWikiDate FinalDate].
    pose proof (extract_ok fd dp (description r)) as E.
    split; [exact E|]. split.
    - now apply merge_tier_ok.
    - apply merge_tier_ok; [exact V2|]. now apply merge_tier_ok. }
  split; [exact F|]. split; [exact C2|].
  unfold Reports.summary_stats.
  set (finals := map FinalDate _).
  assert (Ff : List.Forall date_ok finals).
  { unfold finals. rewrite List.Forall_forall in F |- *. intros d Hd.
    apply List.in_map_iff in Hd. destruct Hd as (o & <- & Ho).
    now apply F. }
  split.
  - f_equal. f_equal. apply filter_all_true.
    rewrite List.Forall_forall in Ff |- *. intros d Hd.
    apply List.filter_In in Hd. destruct Hd as [Hd Hne].
    destruct (Ff d Hd) as [->|Hv]; [|exact Hv].
    unfold DEFAULT_DATE in Hne. rewrite String.eqb_refl in Hne. discriminate.
  - apply inj_le, List.filter_length_le.
Qed.

Lemma main_dates_sound_witness :
  let run := main find_dates_1901 dateparser_none search_plain_only page_dated
                  sample_first
                  [Row (Str "Founded on 4 July 1901.") (Str "Millbrook Township");
                   Row (Str "  ") (Str "Old Mill Road East")]
                  (State ∅ tt []) in
  List.Forall (fun o => date_ok (LocalDate o)
                        /\ date_ok (NarrowWikiDate o)
                        /\ date_ok (FinalDate o)) (fst run)
  /\ cache_ok (wiki_cache (snd run))
  /\ (let '(total, recognized_count, valid_recognized_count) :=
        Reports.summary_stats (map FinalDate (fst run)) in
      valid_recognized_count = recognized_count
      /\ recognized_count <= total).
Proof.
  apply (main_dates_sound find_dates_1901 dateparser_none unit
           search_plain_only page_dated sample_first).
  apply cache_ok_empty.
Defined.

(** X6: every key a tier submits is the location of a row whose date is
    still the default, has at least two words and at least
    [MIN_LOCATION_LENGTH] characters once stripped (for a [Series.sample]
    that returns values of the series). *)
Theorem tier_keys_are_missing_locations :
  forall sample : list string -> nat -> Z -> list string,
    (forall l n seed x, In x (sample l n seed) -> In x l) ->
    forall df seed k,
      In k (tier_keys sample df seed) ->
      In (DEFAULT_DATE, Str k) df
      /\ should_skip_location k = false
      /\ (2 <= List.length (split (strip k)))%nat
      /\ MIN_LOCATION_LENGTH <= len (strip k).
Proof.
  intros sample Hs df seed k Hk.
  assert (Hsel : In k (select_locations df)).
  { unfold tier_keys, sample_locations in Hk.
    destruct (negb _); [eapply Hs; eauto | exact Hk]. }
  apply list_elem_of_In, elem_of_select_locations in Hsel.
  destruct Hsel as [Hin Hskip].
  split; [now apply list_elem_of_In|]. split; [exact Hskip|].
  unfold should_skip_location in Hskip.
  destruct (Z.ltb_spec (Z.of_nat (List.length (split (strip k)))) 2);
    [discriminate|].
  destruct (Z.ltb_spec (len (strip k)) MIN_LOCATION_LENGTH); [discriminate|].
  split; lia.
Qed.

Lemma sample_first_sub (l : list string) n (seed : Z) x :
  In x (sample_first l n seed) -> In x l.
Proof.
  unfold sample_first. intros H.
  rewrite <- (firstn_skipn n l). apply List.in_or_app. now left.
Qed.

Lemma tier_keys_are_missing_locations_witness :
  In ("2025-01-01", Str "Millbrook Township")
     [("2025-01-01", Str "Millbrook Township"); ("2025-01-01", Str "X");
      ("1901-07-04", Str "Old Mill Road East");
      ("2025-01-01", Str "Bad Creek Bridge")]
  /\ should_skip_location "Millbrook Township" = false
  /\ (2 <= List.length (split (strip "Millbrook Township")))%nat
  /\ MIN_LOCATION_LENGTH <= len (strip "Millbrook Township").
Proof.
  apply (tier_keys_are_missing_locations sample_first sample_first_sub
           [("2025-01-01", Str "Millbrook Township"); ("2025-01-01", Str "X");
            ("1901-07-04", Str "Old Mill Road East");
            ("2025-01-01", Str "Bad Creek Bridge")] 42).
  vm_compute. auto.
Defined.

(** X7: with [SAMPLE_MISSING_FRAC = 0.5] a tier submits half of the
    eligible locations, rounded down (for a [Series.sample] that returns
    as many values as it is asked for). *)
Theorem tier_submits_half :
  forall sample : list string -> nat -> Z -> list string,
    (forall l n seed, (n <= List.length l)%nat ->
                      List.length (sample l n seed) = n) ->
    forall df seed,
      List.length (tier_keys sample df seed)
      = Nat.div (List.length (select_locations df)) 2.
Proof.
  intros sample Hs df seed. unfold tier_keys, sample_locations.
  change (negb (QArith_base.Qle_bool (QArith_base.inject_Z 1)
                  SAMPLE_MISSING_FRAC)) with true. cbv iota.
  rewrite Hs; rewrite sample_size_half; [reflexivity|].
  apply Nat.Div0.div_le_upper_bound. lia.
Qed.

Lemma tier_submits_half_witness :
  List.length
    (tier_keys sample_first
       [("2025-01-01", Str "Millbrook Township");
        ("2025-01-01", Str "Old Mill Road East");
        ("2025-01-01", Str "Bad Creek Bridge")] 42)
  = Nat.div
      (List.length
         (select_locations
            [("2025-01-01", Str "Millbrook Township");
             ("2025-01-01", Str "Old Mill Road East");
             ("2025-01-01", Str "Bad Creek Bridge")])) 2.
Proof.
  apply (tier_submits_half sample_first).
  intros l n seed Hn. unfold sample_first.
  rewrite List.length_firstn. lia.
Defined.

End TierExtras.

(** * The merge of the tiers *)

Module MergeClaims.
Import PyStr Dates Common Doubles Vocabulary Invariants.
Import SchedulerFacts LookupFacts TierExtras.
Import verifyparallel.

Section Tier.
Variable World : Type.
Variable f : string -> state World -> string * state World.
Hypothesis Hf : cached_lookup f.

Lemma state_before_cache_kept locations (st : state World) k v :
  wiki_cache st !! k = Some v ->
  wiki_cache (state_before (as_lookup f) locations st) !! k = Some v.
Proof.
  rewrite <- run_all_state.
  destruct (run_all_cached World f locations st Hf) as (_ & H & _).
  apply H.
Qed.

(** A tier maps every key it was given to the date the key's own lookup
    returned, and knows no other key. *)
Lemma run_tier_own pre l post (st : state World) :
  fst (run_tier f (pre ++ l :: post) st) !! l
  = Some (fst (f l (state_before (as_lookup f) pre st))).
Proof.
  assert (E : run_tier f (pre ++ l :: post) st
              = parallel_lookup (as_lookup f) (pre ++ l :: post) st)
    by (unfold run_tier; now destruct pre).
  rewrite E.
  destruct (tier_results_cached World f (pre ++ l :: post) st Hf) as [H _].
  cbv zeta in H.
  destruct (H l) as [_ ->]; [apply List.in_or_app; right; now left|].
  unfold parallel_lookup.
  pose proof (run_all_state (as_lookup f) (pre ++ l :: post) st) as R.
  destruct (run_all (as_lookup f) (pre ++ l :: post) st) as [fs st'].
  cbn [snd] in *. subst st'.
  rewrite state_before_app.
  change (state_before (as_lookup f) (l :: post) ?s)
    with (state_before (as_lookup f) post (snd (as_lookup f l s))).
  apply state_before_cache_kept.
  rewrite as_lookup_eq. cbn [snd].
  destruct (Hf l (state_before (as_lookup f) pre st)) as (-> & _).
  apply lookup_insert_eq.
Qed.

Lemma run_tier_other sampled l (st : state World) :
  ~ In l sampled -> fst (run_tier f sampled st) !! l = None.
Proof.
  intros H. unfold run_tier. destruct sampled as [|k sampled].
  - apply lookup_empty.
  - destruct (tier_results_cached World f (k :: sampled) st Hf) as [_ H'].
    now apply H'.
Qed.

End Tier.

Lemma merge_shape (d l1 l2 : string) :
  let n := if String.eqb d DEFAULT_DATE then l1 else d in
  let b := if String.eqb n DEFAULT_DATE then l2 else n in
  d = d
  /\ (d <> DEFAULT_DATE -> n = d)
  /\ (d = DEFAULT_DATE -> n = l1)
  /\ (n <> DEFAULT_DATE -> Some b = Some n)
  /\ (n = DEFAULT_DATE -> Some b = Some l2)
  /\ Some b = Some b
  /\ (n <> DEFAULT_DATE -> b = n)
  /\ (d <> DEFAULT_DATE -> b = d).
Proof.
  cbv zeta.
  destruct (String.eqb_spec d DEFAULT_DATE) as [Ed|Ed].
  - destruct (String.eqb_spec l1 DEFAULT_DATE) as [El|El];
      repeat split; intros; congruence.
  - destruct (String.eqb_spec d DEFAULT_DATE) as [Ed'|_]; [contradiction|].
    repeat split; intros; congruence.
Qed.

(** C6: in the rows [main] writes, each tier's column is the prior column
    where that is resolved and the tier's lookup result for the row's
    location otherwise; [FinalDate] is the broad column; hence a row whose
    narrow date is resolved has that date as its final date, and a row
    whose local date is resolved keeps it through both tiers.  The lookup
    result of a tier is read off its result map, with the default for a
    missing location or key; the narrow tier runs on the sampled missing
    locations of the local column, the broad tier after it on those of the
    narrow column; and the result map of either tier holds, for every key
    submitted to it, the date that key's own lookup returned, and nothing
    for any other key. *)
Theorem C6_merge_monotonicity :
  forall find_dates dateparser_parse World wikipedia_search wikipedia_page
         sample rows (st : state World),
    let extract := extract_date_from_text find_dates dateparser_parse in
    let narrow := narrow_wikipedia_lookup_one find_dates dateparser_parse
                    wikipedia_search wikipedia_page in
    let broad := broad_wikipedia_lookup_one find_dates dateparser_parse
                   wikipedia_search wikipedia_page in
    let run := main find_dates dateparser_parse wikipedia_search
                    wikipedia_page sample rows st in
    let out := fst run in
    let looked_up (results : gmap string string) (loc : cell) :=
      match loc with
      | Str l => match results !! l with
                 | Some date_str => date_str
                 | None => DEFAULT_DATE
                 end
      | NaN => DEFAULT_DATE
      end in
    let sampled :=
      tier_keys sample
        (map (fun r => (extract (description r), location r)) rows) 42 in
    let tier1 := run_tier narrow sampled st in
    let sampled2 :=
      tier_keys sample
        (map (fun o => (NarrowWikiDate o, location (o_row o))) out) 999 in
    let tier2 := run_tier broad sampled2 (snd tier1) in
    map o_row out = rows
    /\ snd run = snd tier2
    /\ List.Forall (fun o =>
         LocalDate o = extract (description (o_row o))
         /\ (LocalDate o <> DEFAULT_DATE -> NarrowWikiDate o = LocalDate o)
         /\ (LocalDate o = DEFAULT_DATE ->
             NarrowWikiDate o = looked_up (fst tier1) (location (o_row o)))
         /\ (NarrowWikiDate o <> DEFAULT_DATE ->
             BroadWikiDate o = Some (NarrowWikiDate o))
         /\ (NarrowWikiDate o = DEFAULT_DATE ->
             BroadWikiDate o
             = Some (looked_up (fst tier2) (location (o_row o))))
         /\ BroadWikiDate o = Some (FinalDate o)
         /\ (NarrowWikiDate o <> DEFAULT_DATE ->
             FinalDate o = NarrowWikiDate o)
         /\ (LocalDate o <> DEFAULT_DATE -> FinalDate o = LocalDate o)) out
    /\ (forall pre l post,
          sampled = pre ++ l :: post ->
          fst tier1 !! l
          = Some (fst (narrow l (state_before (as_lookup narrow) pre st))))
    /\ (forall l, ~ In l sampled -> fst tier1 !! l = None)
    /\ (forall pre l post,
          sampled2 = pre ++ l :: post ->
          fst tier2 !! l
          = Some (fst (broad l (state_before (as_lookup broad) pre
                                             (snd tier1)))))
    /\ (forall l, ~ In l sampled2 -> fst tier2 !! l = None).
Proof.
  intros fd dp World ws wp sample rows st. cbv zeta.
  pose proof (main_unfold fd dp World ws wp sample rows st) as M.
  cbv zeta in M. rewrite M. cbn [fst snd].
  rewrite !List.map_map. cbn [o_row NarrowWikiDate].
  assert (L : forall results prior loc,
             merge_tier results prior loc
             = if String.eqb prior DEFAULT_DATE
               then match loc with
                    | Str l => match results !! l with
                               | Some date_str => date_str
                               | None => DEFAULT_DATE
                               end
                    | NaN => DEFAULT_DATE
                    end
               else prior).
  { intros results prior loc. unfold merge_tier, dict_get.
    destruct (String.eqb prior DEFAULT_DATE); [|reflexivity].
    destruct loc as [|l]; [reflexivity|].
    now destruct (results !! l). }
  split; [apply List.map_id|]. split; [reflexivity|].
  split; [|split; [|split; [|split]]].
  - rewrite List.Forall_forall. intros o Ho.
    apply List.in_map_iff in Ho. destruct Ho as (r & <- & _).
    cbn [o_row LocalDate NarrowWikiDate BroadWikiDate FinalDate].
    rewrite !L. apply merge_shape.
  - intros pre l post E. rewrite E.
    apply run_tier_own, narrow_cached_lookup.
  - intros l H. apply run_tier_other; [apply narrow_cached_lookup | exact H].
  - intros pre l post E. rewrite E.
    apply run_tier_own, broad_cached_lookup.
  - intros l H. apply run_tier_other; [apply broad_cached_lookup | exact H].
Qed.

Lemma C6_merge_monotonicity_witness :
  let rows :=
    [Row (Str "Founded on 4 July 1901.") (Str "Millbrook Township");
     Row (Str "  ") (Str "Old Mill Road East");
     Row (Str "  ") (Str "Bad Creek Bridge");
     Row (Str "  ") (Str "Stone Chapel Hill");
     Row (Str "  ") (Str "Iron Gate Cemetery");
     Row (Str "  ") NaN] in
  let run := main find_dates_keyword dateparser_none search_one page_echo
                  sample_first rows (State ∅ tt []) in
  map LocalDate (fst run)
  = ["1901-07-04"; "2025-01-01"; "2025-01-01"; "2025-01-01"; "2025-01-01";
     "2025-01-01"]
  /\ map NarrowWikiDate (fst run)
     = ["1901-07-04"; "1887-01-01"; "1887-01-01"; "2025-01-01";
        "2025-01-01"; "2025-01-01"]
  /\ map FinalDate (fst run)
     = ["1901-07-04"; "1887-01-01"; "1887-01-01"; "1923-05-06";
        "2025-01-01"; "2025-01-01"]
  /\ calls (snd run)
     = [Search "Old Mill Road East history";
        Fetch "Old Mill Road East history";
        Search "Bad Creek Bridge history";
        Fetch "Bad Creek Bridge history";
        Search "Stone Chapel Hill"; Fetch "Stone Chapel Hill"]
  /\ List.Forall (fun o => NarrowWikiDate o <> DEFAULT_DATE ->
                           FinalDate o = NarrowWikiDate o) (fst run).
Proof.
  cbv zeta.
  destruct (C6_merge_monotonicity find_dates_keyword dateparser_none unit
              search_one page_echo sample_first
              [Row (Str "Founded on 4 July 1901.") (Str "Millbrook Township");
               Row (Str "  ") (Str "Old Mill Road East");
               Row (Str "  ") (Str "Bad Creek Bridge");
               Row (Str "  ") (Str "Stone Chapel Hill");
               Row (Str "  ") (Str "Iron Gate Cemetery");
               Row (Str "  ") NaN]
              (State ∅ tt [])) as (_ & _ & H & _).
  split; [vm_compute; reflexivity|].
  split; [vm_compute; reflexivity|].
  split; [vm_compute; reflexivity|].
  split; [vm_compute; reflexivity|].
  revert H. apply List.Forall_impl.
  intros o (_ & _ & _ & _ & _ & _ & Hfinal & _). exact Hfinal.
Defined.

End MergeClaims.

(** * Further facts about the sequential pipeline of [Q4fgh] *)

Module Q4fghExtras.
Import PyStr Dates Common Doubles ListFacts.
Import Q4fgh.

Lemma lookup_all_keys {World} (f : string -> World -> string * World)
    locs (w : World) :
  map fst (fst (lookup_all f locs w)) = locs.
Proof.
  revert w. induction locs as [|loc l IH]; intros w; simpl; [reflexivity|].
  destruct (f loc w) as [d w1]. specialize (IH w1).
  destruct (lookup_all f l w1) as [table w2]. simpl in *. now rewrite IH.
Qed.

Lemma assoc_in k table :
  In k (map fst table) -> exists v, assoc k table = Str v.
Proof.
  induction table as [|[k' v'] table IH]; simpl; [tauto|].
  intros H. destruct (String.eqb_spec k' k) as [->|Hne]; [eauto|].
  destruct H as [H|H]; [congruence | auto].
Qed.

Lemma in_missing_locations {R} (date_of loc_of : R -> cell) df k :
  In k (missing_locations date_of loc_of df)
  <-> exists r, In r df /\ is_default (date_of r) = true
                /\ loc_of r = Str k.
Proof.
  unfold missing_locations.
  rewrite <- list_elem_of_In, elem_of_unique, elem_of_dropna.
  rewrite list_elem_of_In, List.in_map_iff.
  split.
  - intros (r & Hl & Hr). apply list_elem_of_In, list_elem_of_filter in Hr.
    destruct Hr as [Hd Hr]. exists r.
    split; [now apply list_elem_of_In|]. split; [|exact Hl].
    now apply Is_true_true.
  - intros (r & Hr & Hd & Hl). exists r. split; [exact Hl|].
    apply list_elem_of_In, list_elem_of_filter. split.
    + now apply Is_true_true.
    + now apply list_elem_of_In.
Qed.

Lemma missing_locations_nil {R} (date_of loc_of : R -> cell) df :
  missing_locations date_of loc_of df = [] <->
  forall r, In r df -> is_default (date_of r) = false \/ loc_of r = NaN.
Proof.
  split.
  - intros E r Hr. destruct (is_default (date_of r)) eqn:Hd; [|now left].
    destruct (loc_of r) as [|k] eqn:Hl; [now right|]. exfalso.
    assert (H : In k (missing_locations date_of loc_of df)).
    { apply in_missing_locations. eauto. }
    rewrite E in H. destruct H.
  - intros H. destruct (missing_locations date_of loc_of df) as [|k l] eqn:E;
      [reflexivity|]. exfalso.
    assert (Hk : In k (missing_locations date_of loc_of df))
      by (rewrite E; now left).
    apply in_missing_locations in Hk. destruct Hk as (r & Hr & Hd & Hl).
    destruct (H r Hr); congruence.
Qed.

Section Pipeline.
Variable to_datetime : string -> option datetime.
Variable find_dates : string -> list datetime.
Variable World : Type.
Variable wikipedia_search : string -> World -> result (list string) * World.
Variable wikipedia_page : string -> World -> result page * World.
Variable sparql_query : string -> World -> result (list string) * World.

Let extract := extract_date_from_text to_datetime find_dates.
Let run := main to_datetime find_dates wikipedia_search wikipedia_page
                sparql_query.

(** The rows [main] writes, with the two lookup tables. *)
Lemma main_written rows (w w' : World) out :
  run rows w = (Ok out, w') ->
  exists wiki_rows dbpedia_rows,
    let df := map (fun r => DatedRow r (extract (description r))) rows in
    let wiki_of r := merged_column (location (d_row r)) wiki_rows in
    let final1 r :=
      if String.eqb (Haunted_Places_Date r) DEFAULT_DATE
      then wiki_of r else Str (Haunted_Places_Date r) in
    let dbp_of r := merged_column (location (d_row r)) dbpedia_rows in
    map fst wiki_rows
    = missing_locations (fun r => Str (Haunted_Places_Date r))
                        (fun r => location (d_row r)) df
    /\ map fst dbpedia_rows
       = missing_locations w_Final_Date
           (fun r => location (d_row (w_row r)))
           (map (fun r => WikiRow r (wiki_of r) (final1 r)) df)
    /\ wiki_rows <> [] /\ dbpedia_rows <> []
    /\ out = map (fun r =>
                    OutRow r (wiki_of r) (dbp_of r)
                      (if is_default (final1 r) then dbp_of r else final1 r))
                 df.
Proof.
  unfold run, main, run_wikipedia_approach, run_dbpedia_approach.
  pose proof (lookup_all_keys
                (wikipedia_date to_datetime find_dates
                                wikipedia_search wikipedia_page)
                (missing_locations (fun r => Str (Haunted_Places_Date r))
                   (fun r => location (d_row r))
                   (map (fun r => DatedRow r
                           (extract_date_from_text to_datetime find_dates
                              (description r))) rows)) w) as K1.
  destruct (lookup_all _ _ w) as [wiki_rows w1]. cbn [fst] in K1.
  destruct wiki_rows as [|wr wiki_rows]; [discriminate|].
  match goal with
  | |- context [lookup_all ?f ?l w1] =>
      pose proof (lookup_all_keys f l w1) as K2;
      destruct (lookup_all f l w1) as [dbpedia_rows w2]
  end.
  cbn [fst] in K2.
  destruct dbpedia_rows as [|dr dbpedia_rows]; [discriminate|].
  intros [= <- <-].
  exists (wr :: wiki_rows), (dr :: dbpedia_rows). cbv zeta.
  split; [exact K1|]. split; [exact K2|].
  split; [discriminate|]. split; [discriminate|].
  rewrite List.map_map. reflexivity.
Qed.

(** X8: when [main] writes, it writes one row per input row, in the
    input order, each with the date extracted from its description. *)
Theorem q4_rows_preserved :
  forall rows (w w' : World) out,
    run rows w = (Ok out, w') ->
    map o_row out
    = map (fun r => DatedRow r (extract (description r))) rows.
Proof.
  intros rows w w' out H.
  destruct (main_written rows w w' out H)
    as (wiki_rows & dbpedia_rows & _ & _ & _ & _ & ->).
  rewrite !List.map_map. reflexivity.
Qed.

(** X9: the final date of a written row.  A date found in the description
    stands; otherwise, for a row with a location, the Wikipedia date
    stands unless it is the default, in which case the DBpedia date is
    taken; the final date is NaN exactly for the rows without a date in
    the description and without a location. *)
Theorem q4_final_date_cascade :
  forall rows (w w' : World) out,
    run rows w = (Ok out, w') ->
    List.Forall (fun o =>
      let local := Haunted_Places_Date (o_row o) in
      (local <> DEFAULT_DATE -> Final_Date o = Str local)
      /\ (Final_Date o = NaN
          <-> local = DEFAULT_DATE /\ location (d_row (o_row o)) = NaN)
      /\ (forall l, local = DEFAULT_DATE ->
            location (d_row (o_row o)) = Str l ->
            exists wd, wiki_date o = Str wd
              /\ (wd <> DEFAULT_DATE -> Final_Date o = Str wd)
              /\ (wd = DEFAULT_DATE ->
                  exists dd, dbpedia_date o = Str dd
                             /\ Final_Date o = Str dd))) out.
Proof.
  intros rows w w' out H.
  destruct (main_written rows w w' out H)
    as (wiki_rows & dbpedia_rows & K1 & K2 & _ & _ & ->).
  cbv zeta in K1, K2.
  set (df := map (fun r => DatedRow r (extract (description r))) rows) in *.
  rewrite List.Forall_forall. intros o Ho.
  apply List.in_map_iff in Ho. destruct Ho as (r & <- & Hr).
  cbn [o_row wiki_date dbpedia_date Final_Date]. cbv zeta.
  destruct (String.eqb_spec (Haunted_Places_Date r) DEFAULT_DATE)
    as [Hd|Hd].
  - (* no date in the description *)
    split; [congruence|].
    destruct (location (d_row r)) as [|l] eqn:Hl.
    + cbn [merged_column is_default]. split; [tauto|]. intros l _ [=].
    + assert (Hw : In l (map fst wiki_rows)).
      { rewrite K1. apply in_missing_locations. exists r.
        split; [exact Hr|]. split; [|exact Hl].
        cbn [is_default]. rewrite Hd. apply String.eqb_refl. }
      cbn [merged_column].
      destruct (assoc_in _ _ Hw) as [wd Hwd]. rewrite Hwd.
      cbn [is_default].
      destruct (String.eqb_spec wd DEFAULT_DATE) as [Hwd'|Hwd'].
      * assert (Hb : In l (map fst dbpedia_rows)).
        { rewrite K2. apply in_missing_locations.
          exists (WikiRow r (merged_column (location (d_row r)) wiki_rows)
                    (if String.eqb (Haunted_Places_Date r) DEFAULT_DATE
                     then merged_column (location (d_row r)) wiki_rows
                     else Str (Haunted_Places_Date r))).
          split; [|split].
          - apply List.in_map_iff. exists r. split; [reflexivity | exact Hr].
          - cbn [w_Final_Date]. rewrite Hd, String.eqb_refl, Hl.
            cbn [merged_column]. rewrite Hwd. cbn [is_default].
            subst wd. apply String.eqb_refl.
          - cbn [w_row]. exact Hl. }
        destruct (assoc_in _ _ Hb) as [dd Hdd]. rewrite Hdd.
        split; [split; [discriminate | intros [_ [=]]]|].
        intros l' _ [= <-]. exists wd. split; [reflexivity|].
        split; [congruence|]. intros _. exists dd. auto.
      * split; [split; [discriminate | intros [_ [=]]]|].
        intros l' _ [= <-]. exists wd. split; [reflexivity|].
        split; [auto | congruence].
  - (* the description gave a date *)
    cbn [is_default].
    destruct (String.eqb_spec (Haunted_Places_Date r) DEFAULT_DATE)
      as [?|_]; [contradiction|].
    split; [reflexivity|].
    split; [split; [discriminate | intros [? _]; contradiction]|].
    intros l ?. contradiction.
Qed.

(** X10: the tiers need something to look up.  If no row is without a
    date and with a location, [main] raises the [KeyError] of the empty
    merge before any network call and writes nothing; and whenever [main]
    writes, some written row has the default as its Wikipedia date. *)
Theorem q4_main_needs_lookups :
  (forall rows (w : World),
     (forall r, In r rows ->
        extract (description r) <> DEFAULT_DATE \/ location r = NaN) ->
     run rows w = (Raise "KeyError: location", w))
  /\ (forall rows (w w' : World) out,
        run rows w = (Ok out, w') ->
        exists o, In o out
                  /\ Haunted_Places_Date (o_row o) = DEFAULT_DATE
                  /\ wiki_date o = Str DEFAULT_DATE).
Proof.
  split.
  - intros rows w Hall.
    unfold run, main, run_wikipedia_approach.
    assert (E : missing_locations (fun r => Str (Haunted_Places_Date r))
                  (fun r => location (d_row r))
                  (map (fun r => DatedRow r
                          (extract_date_from_text to_datetime find_dates
                             (description r))) rows) = []).
    { apply missing_locations_nil. intros r Hr.
      apply List.in_map_iff in Hr. destruct Hr as (r0 & <- & Hr0).
      cbn [Haunted_Places_Date d_row is_default].
      destruct (Hall r0 Hr0) as [Hd|Hl]; [left|now right].
      now apply String.eqb_neq. }
    rewrite E. reflexivity.
  - intros rows w w' out H.
    destruct (main_written rows w w' out H)
      as (wiki_rows & dbpedia_rows & K1 & K2 & _ & Hne & ->).
    cbv zeta in K1, K2.
    destruct dbpedia_rows as [|[k v] dbpedia_rows]; [congruence|].
    assert (Hk : In k (map fst ((k, v) :: dbpedia_rows))) by now left.
    rewrite K2 in Hk. apply in_missing_locations in Hk.
    destruct Hk as (r1 & Hr1 & Hd1 & Hl1).
    apply List.in_map_iff in Hr1. destruct Hr1 as (r & <- & Hr).
    cbn [w_Final_Date w_row] in Hd1, Hl1.
    eexists. split.
    + apply List.in_map_iff. exists r. split; [reflexivity | exact Hr].
    + cbn [o_row wiki_date].
      destruct (String.eqb_spec (Haunted_Places_Date r) DEFAULT_DATE)
        as [Hd|Hd].
      * split; [exact Hd|].
        destruct (merged_column _ wiki_rows) as [|wd]; [discriminate|].
        cbn [is_default] in Hd1. apply String.eqb_eq in Hd1. now subst.
      * cbn [is_default] in Hd1. apply String.eqb_eq in Hd1. contradiction.
Qed.

End Pipeline.

Lemma q4_rows_preserved_witness :
  exists out,
    fst (main to_datetime_none find_dates_none search_empty page_error
              sparql_empty
              [Row (Str "People still talk about strange lights here") NaN;
               Row (Str "Burned down in 1923") (Str "Old Mill Road East");
               Row (Str "People still talk about strange lights here")
                   (Str "Millbrook Township")] tt) = Ok out
    /\ map o_row out
       = map (fun r => DatedRow r (extract_date_from_text to_datetime_none
                                     find_dates_none (description r)))
             [Row (Str "People still talk about strange lights here") NaN;
              Row (Str "Burned down in 1923") (Str "Old Mill Road East");
              Row (Str "People still talk about strange lights here")
                  (Str "Millbrook Township")].
Proof.
  eexists. split; [vm_compute; reflexivity|].
  apply (q4_rows_preserved to_datetime_none find_dates_none unit
           search_empty page_error sparql_empty
           [Row (Str "People still talk about strange lights here") NaN;
            Row (Str "Burned down in 1923") (Str "Old Mill Road East");
            Row (Str "People still talk about strange lights here")
                (Str "Millbrook Township")] tt tt).
  vm_compute. reflexivity.
Defined.

Lemma q4_final_date_cascade_witness :
  exists out,
    fst (main to_datetime_none find_dates_none search_empty page_error
              sparql_empty
              [Row (Str "Burned down in 1923") (Str "Old Mill Road East");
               Row (Str "People still talk about strange lights here")
                   (Str "Millbrook Township")] tt) = Ok out
    /\ List.Forall (fun o =>
         Haunted_Places_Date (o_row o) <> DEFAULT_DATE ->
         Final_Date o = Str (Haunted_Places_Date (o_row o))) out.
Proof.
  eexists. split; [vm_compute; reflexivity|].
  eapply List.Forall_impl;
    [|apply (q4_final_date_cascade to_datetime_none find_dates_none unit
               search_empty page_error sparql_empty
               [Row (Str "Burned down in 1923") (Str "Old Mill Road East");
                Row (Str "People still talk about strange lights here")
                    (Str "Millbrook Township")] tt tt);
      vm_compute; reflexivity].
  intros o H. apply H.
Defined.

Lemma q4_main_needs_lookups_witness :
  main to_datetime_none find_dates_none search_empty page_error sparql_empty
       [Row (Str "Burned down in 1923") (Str "Old Mill Road East");
        Row (Str "People still talk about strange lights here") NaN] tt
  = (Raise "KeyError: location", tt).
Proof.
  apply (proj1 (q4_main_needs_lookups to_datetime_none find_dates_none unit
                  search_empty page_error sparql_empty)).
  intros r [<-|[<-|[]]].
  - left. vm_compute. discriminate.
  - right. reflexivity.
Defined.

End Q4fghExtras.

(** * Facts about the reports *)

Module ReportExtras.
Import PyStr Dates Common.
Import Reports.

Lemma apply_test_raises f l c :
  In c l -> (exists e, f c = Raise e) -> exists e, apply_test f l = Raise e.
Proof.
  induction l as [|x l IH]; intros Hin Hc; [destruct Hin|].
  cbn [apply_test]. destruct Hin as [->|Hin].
  - destruct Hc as [e ->]. eauto.
  - destruct (f x) as [b|e]; [|eauto].
    destruct (IH Hin Hc) as [e ->]. eauto.
Qed.

Lemma apply_test_length f l mask :
  apply_test f l = Ok mask -> List.length mask = List.length l.
Proof.
  revert mask. induction l as [|x l IH]; intros mask; cbn [apply_test].
  - now intros [= <-].
  - destruct (f x) as [b|e]; [|discriminate].
    destruct (apply_test f l) as [m|e]; [|discriminate].
    intros [= <-]. simpl. now rewrite (IH m).
Qed.

(** X11: the counts of [Q4fgh.validate_dates].  On an empty frame the
    percentages divide by zero.  Otherwise valid <= recognized <= total;
    a NaN final date counts as recognized, and as soon as one recognized
    final date is NaN or not a date, the valid count is the recognized
    count. *)
Theorem validate_dates_counts :
  validate_dates [] = Raise "ZeroDivisionError"
  /\ forall final_dates total recognized_count valid_recognized_count,
       validate_dates final_dates
       = Ok (total, recognized_count, valid_recognized_count) ->
       0 <= valid_recognized_count <= recognized_count
       /\ recognized_count <= total
       /\ total = Z.of_nat (List.length final_dates)
       /\ (forall c, In c final_dates ->
             c = NaN \/ (exists s, c = Str s /\ s <> Q4fgh.DEFAULT_DATE
                                   /\ strptime_Ymd s = None) ->
             valid_recognized_count = recognized_count
             /\ 1 <= recognized_count).
Proof.
  split; [reflexivity|].
  intros l total rc vc. unfold validate_dates.
  destruct (Z.of_nat (List.length l) =? 0); [discriminate|].
  set (recognized := List.filter (fun c => negb (Q4fgh.is_default c)) l).
  intros [= <- <- <-].
  assert (Hrl : (List.length recognized <= List.length l)%nat)
    by apply List.filter_length_le.
  assert (Hv : 0 <= match apply_test year_test recognized with
                    | Ok mask =>
                        Z.of_nat (List.length (List.filter (fun b => b) mask))
                    | Raise _ => Z.of_nat (List.length recognized)
                    end <= Z.of_nat (List.length recognized)).
  { destruct (apply_test year_test recognized) as [mask|e] eqn:E; [|lia].
    pose proof (apply_test_length _ _ _ E).
    pose proof (List.filter_length_le (fun b => b) mask). lia. }
  split; [exact Hv|]. split; [lia|]. split; [reflexivity|].
  intros c Hc Hbad.
  assert (Hin : In c recognized).
  { apply List.filter_In. split; [exact Hc|].
    destruct Hbad as [->|(s & -> & Hs & _)]; [reflexivity|].
    cbn [Q4fgh.is_default]. apply negb_true_iff. now apply String.eqb_neq. }
  assert (Hr : exists e, year_test c = Raise e).
  { destruct Hbad as [->|(s & -> & _ & Hs)]; cbn [year_test]; [eauto|].
    rewrite Hs. eauto. }
  destruct (apply_test_raises _ _ _ Hin Hr) as [e ->].
  split; [reflexivity|].
  destruct recognized; [destruct Hin | simpl; lia].
Qed.

Lemma validate_dates_counts_witness :
  validate_dates [NaN; Str "2025-01-01"; Str "1799-01-01"] = Ok (3, 2, 2)
  /\ (2 = 2 /\ 1 <= 2).
Proof.
  split; [reflexivity|].
  apply (proj2 (proj2 (proj2 (proj2 validate_dates_counts
           [NaN; Str "2025-01-01"; Str "1799-01-01"] 3 2 2 eq_refl))) NaN).
  - simpl. auto.
  - now left.
Defined.

Lemma strip_default : strip Q4fgh.DEFAULT_DATE = Q4fgh.DEFAULT_DATE.
Proof. reflexivity. Qed.

(** X12: the counts of "verify attempts.py".  A valid date is a
    recognized one; NaN is first filled with the default and so counted as
    neither (where [validate_dates] counted it as recognized): its
    recognized count plus the number of NaN cells is at most the recognized
    count of [validate_dates]. *)
Theorem verify_counts_order :
  forall final_dates,
    let '(total_rows, recognized_count, valid_count) :=
      verify_counts final_dates in
    0 <= valid_count <= recognized_count
    /\ recognized_count
       + Z.of_nat (List.length (List.filter isna final_dates))
       <= Z.of_nat (List.length
            (List.filter (fun c => negb (Q4fgh.is_default c)) final_dates))
    /\ total_rows = Z.of_nat (List.length final_dates).
Proof.
  intros l. unfold verify_counts. rewrite List.length_map.
  split; [|split; [|reflexivity]].
  - split; [lia|]. apply inj_le.
    induction (map fillna_default l) as [|s col IH]; [simpl; lia|].
    cbn [List.filter].
    destruct (is_valid_in_range (Str s)) eqn:Ev.
    + assert (En : is_non_default s = true).
      { unfold is_valid_in_range in Ev. unfold is_non_default.
        destruct (String.eqb (strip s) Q4fgh.DEFAULT_DATE);
          [discriminate | reflexivity]. }
      rewrite En. cbn [List.length]. lia.
    + destruct (is_non_default s); cbn [List.length]; lia.
  - rewrite <- Nat2Z.inj_add. apply inj_le.
    induction l as [|c l IH]; [simpl; lia|].
    cbn [map List.filter].
    destruct c as [|s].
    + cbn [fillna_default isna Q4fgh.is_default negb].
      unfold is_non_default at 1. rewrite strip_default, String.eqb_refl.
      cbn [negb List.length]. lia.
    + cbn [fillna_default isna Q4fgh.is_default].
      destruct (is_non_default s) eqn:En.
      * assert (Hs : String.eqb s Q4fgh.DEFAULT_DATE = false).
        { apply String.eqb_neq. intros ->. unfold is_non_default in En.
          rewrite strip_default, String.eqb_refl in En. discriminate. }
        rewrite Hs. cbn [negb List.length]. lia.
      * destruct (negb (String.eqb s Q4fgh.DEFAULT_DATE));
          cbn [List.length]; lia.
Qed.

End ReportExtras.

(** * Facts about the string helpers *)

Module StringFacts.
Import PyStr.

Lemma chars_app a b : chars (a +:+ b) = chars a ++ chars b.
Proof.
  unfold chars. induction a as [|c a IH]; simpl; [reflexivity|].
  now rewrite IH.
Qed.

Lemma chars_of_str l : chars (str l) = l.
Proof. apply list_ascii_of_string_of_list_ascii. Qed.

Lemma lower_app a b : lower (a +:+ b) = lower a +:+ lower b.
Proof.
  unfold lower. rewrite chars_app, List.map_app.
  unfold str. generalize (map lower_char (chars a)) as x.
  intros x. induction x as [|c x IH]; simpl; [reflexivity|]. now rewrite IH.
Qed.

Lemma is_upper_lower_char c : is_upper (lower_char c) = false.
Proof. destruct c as [[] [] [] [] [] [] [] []]; reflexivity. Qed.

Lemma lower_char_idem c : lower_char (lower_char c) = lower_char c.
Proof. destruct c as [[] [] [] [] [] [] [] []]; reflexivity. Qed.

Lemma is_space_lower_char c : is_space (lower_char c) = is_space c.
Proof. destruct c as [[] [] [] [] [] [] [] []]; reflexivity. Qed.

Lemma lower_idem s : lower (lower s) = lower s.
Proof.
  unfold lower. rewrite chars_of_str, List.map_map. f_equal.
  apply List.map_ext. intros c. apply lower_char_idem.
Qed.

Lemma is_prefix_spec p l :
  is_prefix p l = true <-> exists r, l = p ++ r.
Proof.
  revert l. induction p as [|a p IH]; intros l; simpl.
  - split; [eauto | reflexivity].
  - destruct l as [|b l].
    + split; [discriminate | intros [r Hr]; discriminate].
    + destruct (Ascii.eqb_spec a b) as [->|Hne].
      * rewrite IH. split; intros [r Hr]; exists r; congruence.
      * split; [discriminate | intros [r Hr]; congruence].
Qed.

Lemma contains_chars_spec p l :
  contains_chars p l = true <-> exists pre post, l = pre ++ p ++ post.
Proof.
  induction l as [|b l IH].
  - cbn [contains_chars]. rewrite orb_false_r, is_prefix_spec. split.
    + intros [r Hr]. exists [], r. exact Hr.
    + intros (pre & post & H). destruct pre; [eauto | discriminate].
  - cbn [contains_chars]. rewrite orb_true_iff, is_prefix_spec, IH. split.
    + intros [[r Hr] | (pre & post & Hr)].
      * exists [], r. exact Hr.
      * exists (b :: pre), post. simpl. now rewrite Hr.
    + intros (pre & post & H). destruct pre as [|b' pre].
      * left. eauto.
      * right. injection H as _ H. eauto.
Qed.

Lemma contains_extend sub s pre post :
  contains sub s = true -> contains sub (pre +:+ s +:+ post) = true.
Proof.
  unfold contains. rewrite !chars_app, !contains_chars_spec.
  intros (p & q & ->). exists (chars pre ++ p), (q ++ chars post).
  now rewrite <- !app_assoc.
Qed.

Lemma contains_upper_lower kw t c :
  In c (chars kw) -> is_upper c = true -> contains kw (lower t) = false.
Proof.
  intros Hc Hu. destruct (contains kw (lower t)) eqn:E; [|reflexivity].
  exfalso. unfold contains in E. apply contains_chars_spec in E.
  destruct E as (pre & post & E).
  assert (Hin : In c (chars (lower t))).
  { rewrite E. apply List.in_or_app. right. apply List.in_or_app. now left. }
  unfold lower in Hin. rewrite chars_of_str in Hin.
  apply List.in_map_iff in Hin. destruct Hin as (c0 & <- & _).
  rewrite is_upper_lower_char in Hu. discriminate.
Qed.

End StringFacts.

(** * Facts about the evidence flags *)

Module EvidenceExtras.
Import PyStr Common StringFacts.
Import Evidence.

Lemma any_keyword_extend keywords s pre post :
  any_keyword keywords s = true ->
  any_keyword keywords (pre +:+ s +:+ post) = true.
Proof.
  unfold any_keyword. rewrite !List.existsb_exists.
  intros (kw & Hin & Hc). exists kw. split; [exact Hin|].
  now apply contains_extend.
Qed.

(** X13: the flags look for their keywords as substrings of the
    lower-cased text, so they do not depend on case, and a text that sets
    a flag still sets it with any text before and after it. *)
Theorem evidence_flags_substring :
  forall t pre post,
    has_audio_evidence (Str (lower t)) = has_audio_evidence (Str t)
    /\ has_image_evidence (Str (lower t)) = has_image_evidence (Str t)
    /\ (has_audio_evidence (Str t) = true ->
        has_audio_evidence (Str (pre +:+ t +:+ post)) = true)
    /\ (has_image_evidence (Str t) = true ->
        has_image_evidence (Str (pre +:+ t +:+ post)) = true).
Proof.
  intros t pre post. unfold has_audio_evidence, has_image_evidence.
  rewrite lower_idem, !lower_app.
  split; [reflexivity|]. split; [reflexivity|].
  split; apply any_keyword_extend.
Qed.

Lemma evidence_flags_substring_witness :
  has_audio_evidence (Str ("At night " +:+ "FOOTSTEPS" +:+ " echo upstairs"))
  = true
  /\ has_image_evidence (Str ("The " +:+ "transformation" +:+ " was complete"))
     = true.
Proof.
  split.
  - apply (proj1 (proj2 (proj2 (evidence_flags_substring
             "FOOTSTEPS" "At night " " echo upstairs")))). reflexivity.
  - apply (proj2 (proj2 (proj2 (evidence_flags_substring
             "transformation" "The " " was complete")))). reflexivity.
Defined.

(** X14: the keyword "EVP" can never be found, because the text is
    lower-cased before the search and the keyword is not: the audio flag
    is decided by the other keywords alone. *)
Theorem evp_keyword_is_dead :
  forall t,
    contains "EVP" (lower t) = false
    /\ has_audio_evidence (Str t)
       = any_keyword
           (List.filter (fun kw => negb (String.eqb kw "EVP")) AUDIO_KEYWORDS)
           (lower t).
Proof.
  intros t.
  assert (H : contains "EVP" (lower t) = false).
  { apply (contains_upper_lower "EVP" t "E"%char); [simpl; auto | reflexivity]. }
  split; [exact H|].
  unfold has_audio_evidence, any_keyword, AUDIO_KEYWORDS.
  cbn [List.filter String.eqb Ascii.eqb Bool.eqb negb existsb].
  rewrite H. reflexivity.
Qed.

End EvidenceExtras.

Module ColumnExtras.
Import PyStr Common.
Import Evidence.

Lemma existsb_eqb_in n l : existsb (String.eqb n) l = true <-> In n l.
Proof.
  rewrite List.existsb_exists. split.
  - intros (x & Hx & E). apply String.eqb_eq in E. now subst.
  - intros H. exists n. split; [exact H | apply String.eqb_refl].
Qed.

Lemma existsb_eqb_notin n l : ~ In n l -> existsb (String.eqb n) l = false.
Proof.
  intros H. destruct (existsb (String.eqb n) l) eqn:E; [|reflexivity].
  apply existsb_eqb_in in E. contradiction.
Qed.

Lemma index_from_app n l1 l2 i :
  ~ In n l1 -> index_from n (l1 ++ n :: l2) i = Some (i + List.length l1)%nat.
Proof.
  revert i. induction l1 as [|c l1 IH]; intros i H; simpl.
  - rewrite String.eqb_refl. f_equal. lia.
  - destruct (String.eqb_spec c n) as [->|_]; [simpl in H; tauto|].
    rewrite IH by (simpl in H; tauto). f_equal. lia.
Qed.

Lemma remove_column_app n l1 l2 :
  ~ In n l1 -> remove_column n (l1 ++ n :: l2) = l1 ++ l2.
Proof.
  induction l1 as [|c l1 IH]; intros H; simpl.
  - now rewrite String.eqb_refl.
  - destruct (String.eqb_spec c n) as [->|_]; [simpl in H; tauto|].
    rewrite IH by (simpl in H; tauto). reflexivity.
Qed.

Lemma insert_at l1 l2 n :
  ~ In n (l1 ++ l2) ->
  insert (List.length l1) n (l1 ++ l2) = Ok (l1 ++ n :: l2).
Proof.
  intros H. unfold insert. rewrite existsb_eqb_notin by assumption.
  rewrite List.length_app.
  destruct (Nat.ltb_spec (List.length l1 + List.length l2) (List.length l1));
    [lia|].
  rewrite <- (Nat.add_0_r (List.length l1)) at 1 2.
  rewrite List.firstn_app_2, List.skipn_app.
  rewrite Nat.add_0_r, List.skipn_all, Nat.sub_diag. simpl.
  now rewrite app_nil_r.
Qed.

Lemma set_column_fresh n l : ~ In n l -> set_column n l = l ++ [n].
Proof. intros H. unfold set_column. now rewrite existsb_eqb_notin. Qed.

Lemma set_column_present n l : In n l -> set_column n l = l.
Proof.
  intros H. unfold set_column.
  now rewrite (proj2 (existsb_eqb_in n l) H).
Qed.

Lemma get_loc_app n l1 l2 :
  ~ In n l1 -> get_loc n (l1 ++ n :: l2) = Ok (List.length l1).
Proof. intros H. unfold get_loc. now rewrite index_from_app. Qed.

Lemma pop_app n l1 l2 : ~ In n l1 -> pop n (l1 ++ n :: l2) = Ok (l1 ++ l2).
Proof.
  intros H. unfold pop.
  rewrite (proj2 (existsb_eqb_in n (l1 ++ n :: l2)))
    by (apply List.in_or_app; right; now left).
  now rewrite remove_column_app.
Qed.

Lemma getitem_present n l : In n l -> getitem n l = Ok tt.
Proof.
  intros H. unfold getitem. now rewrite (proj2 (existsb_eqb_in n l) H).
Qed.

(** X15: [add_evidence_columns] reads the description column, so on a
    frame without it it raises [KeyError].  On a frame with distinct
    column names that has the description and the date column and not
    yet the evidence columns, it puts the two evidence columns
    immediately to the left of "Haunted Places Date" and keeps the order
    of all other columns. *)
Theorem add_evidence_columns_fresh :
  (forall cols,
     ~ In "description" cols ->
     add_evidence_columns cols = Raise "KeyError: description")
  /\ forall before after,
       NoDup (before ++ "Haunted Places Date" :: after) ->
       In "description" (before ++ after) ->
       ~ In "Audio Evidence" (before ++ "Haunted Places Date" :: after) ->
       ~ In "Image/Video/Visual Evidence"
            (before ++ "Haunted Places Date" :: after) ->
       add_evidence_columns (before ++ "Haunted Places Date" :: after)
       = Ok (before ++ "Audio Evidence" :: "Image/Video/Visual Evidence"
                    :: "Haunted Places Date" :: after).
Proof.
  split.
  { intros cols H. unfold add_evidence_columns, getitem.
    now rewrite existsb_eqb_notin. }
  intros before after Hnd Hdesc HA HI. unfold add_evidence_columns.
  set (A := "Audio Evidence") in *.
  set (I := "Image/Video/Visual Evidence") in *.
  set (D := "Haunted Places Date") in *.
  assert (HD : ~ In D before).
  { apply NoDup_ListNoDup, List.NoDup_remove_2 in Hnd.
    intros H. apply Hnd, List.in_or_app. now left. }
  assert (Hdesc' : In "description" (before ++ D :: after)).
  { apply List.in_app_or in Hdesc. apply List.in_or_app.
    destruct Hdesc as [H|H]; [now left | right; now right]. }
  assert (HA1 : ~ In A before)
    by (intros H; apply HA, List.in_or_app; now left).
  assert (HA2 : ~ In A (D :: after))
    by (intros H; apply HA, List.in_or_app; now right).
  assert (HI1 : ~ In I before)
    by (intros H; apply HI, List.in_or_app; now left).
  assert (HI2 : ~ In I (D :: after))
    by (intros H; apply HI, List.in_or_app; now right).
  rewrite (getitem_present _ _ Hdesc'). cbn [bind].
  rewrite (set_column_fresh A) by assumption.
  rewrite getitem_present by (apply List.in_or_app; now left). cbn [bind].
  rewrite (set_column_fresh I).
  2: { intros H. apply List.in_app_or in H.
       destruct H as [H|[H|[]]]; [tauto | discriminate]. }
  replace (((before ++ D :: after) ++ [A]) ++ [I])
    with (before ++ D :: (after ++ [A; I]))
    by (now rewrite <- !app_assoc).
  rewrite get_loc_app by assumption. cbn [bind].
  replace (before ++ D :: (after ++ [A; I]))
    with ((before ++ D :: after) ++ A :: [I])
    by (now rewrite <- !app_assoc).
  rewrite pop_app by assumption. cbn [bind].
  rewrite pop_app by assumption. cbn [bind]. rewrite app_nil_r.
  rewrite insert_at by assumption. cbn [bind].
  replace (List.length before + 1)%nat with (List.length (before ++ [A]))
    by (rewrite List.length_app; reflexivity).
  replace (before ++ A :: D :: after) with ((before ++ [A]) ++ D :: after)
    by (now rewrite <- app_assoc).
  rewrite insert_at.
  - now rewrite <- app_assoc.
  - intros H. apply List.in_app_or in H. destruct H as [H|H]; [|tauto].
    apply List.in_app_or in H. destruct H as [H|[H|[]]];
      [tauto | discriminate].
Qed.

Lemma add_evidence_columns_fresh_witness :
  add_evidence_columns ["Haunted Places Date"; "state"]
  = Raise "KeyError: description"
  /\ add_evidence_columns
       (["city"; "description"] ++ "Haunted Places Date" :: ["state"])
     = Ok (["city"; "description"]
             ++ "Audio Evidence" :: "Image/Video/Visual Evidence"
                :: "Haunted Places Date" :: ["state"]).
Proof.
  split.
  - apply (proj1 add_evidence_columns_fresh).
    simpl. intuition discriminate.
  - apply (proj2 add_evidence_columns_fresh).
    + apply NoDup_ListNoDup.
      repeat (constructor; [simpl; intuition discriminate|]). constructor.
    + simpl. auto.
    + simpl. intuition discriminate.
    + simpl. intuition discriminate.
Defined.

(** X16: [add_evidence_columns] is not idempotent.  Applied to its own
    output (a frame with distinct column names and a description column)
    it reads the position of the date column before it pops the evidence
    columns to the left of it: with no column after the date the first
    [insert] is out of range, otherwise the evidence columns land behind
    the column that followed the date. *)
Theorem add_evidence_columns_rerun :
  forall before after,
    NoDup (before ++ "Audio Evidence" :: "Image/Video/Visual Evidence"
                  :: "Haunted Places Date" :: after) ->
    In "description" (before ++ after) ->
    add_evidence_columns
      (before ++ "Audio Evidence" :: "Image/Video/Visual Evidence"
              :: "Haunted Places Date" :: after)
    = match after with
      | [] => Raise "IndexError"
      | next :: after' =>
          Ok (before ++ "Haunted Places Date" :: next :: "Audio Evidence"
                     :: "Image/Video/Visual Evidence" :: after')
      end.
Proof.
  intros before after Hnd Hdesc. unfold add_evidence_columns.
  set (A := "Audio Evidence") in *.
  set (I := "Image/Video/Visual Evidence") in *.
  set (D := "Haunted Places Date") in *.
  assert (Hdesc' : In "description" (before ++ A :: I :: D :: after)).
  { apply List.in_app_or in Hdesc. apply List.in_or_app.
    destruct Hdesc as [H|H]; [now left | right; right; right; now right]. }
  apply NoDup_ListNoDup in Hnd.
  apply List.NoDup_remove in Hnd. destruct Hnd as [Hnd HA].
  apply List.NoDup_remove in Hnd. destruct Hnd as [Hnd HI].
  apply List.NoDup_remove in Hnd. destruct Hnd as [Hnd HD].
  assert (HA1 : ~ In A before)
    by (intros H; apply HA, List.in_or_app; now left).
  assert (HI1 : ~ In I before)
    by (intros H; apply HI, List.in_or_app; now left).
  assert (HD1 : ~ In D before)
    by (intros H; apply HD, List.in_or_app; now left).
  assert (HA' : ~ In A (before ++ D :: after)).
  { intros H. apply HA. apply List.in_app_or in H. apply List.in_or_app.
    destruct H as [H|H]; [now left | right; now right]. }
  rewrite (getitem_present _ _ Hdesc'). cbn [bind].
  rewrite (set_column_present A)
    by (apply List.in_or_app; right; now left).
  rewrite (getitem_present _ _ Hdesc'). cbn [bind].
  rewrite (set_column_present I)
    by (apply List.in_or_app; right; right; now left).
  assert (G : get_loc D (before ++ A :: I :: D :: after)
              = Ok (List.length (before ++ [A; I]))).
  { replace (before ++ A :: I :: D :: after)
      with ((before ++ [A; I]) ++ D :: after)
      by (now rewrite <- app_assoc).
    apply get_loc_app. intros H. apply List.in_app_or in H.
    destruct H as [H|[H|[H|[]]]]; [tauto | discriminate | discriminate]. }
  rewrite G. cbn [bind].
  rewrite (pop_app A before (I :: D :: after) HA1). cbn [bind].
  rewrite (pop_app I before (D :: after) HI1). cbn [bind].
  rewrite List.length_app. cbn [List.length].
  destruct after as [|next after'].
  - unfold insert at 1. rewrite existsb_eqb_notin by assumption.
    rewrite List.length_app. cbn [List.length].
    destruct (Nat.ltb_spec (List.length before + 1) (List.length before + 2));
      [reflexivity | lia].
  - replace (List.length before + 2)%nat
      with (List.length (before ++ [D; next]))
      by (rewrite List.length_app; reflexivity).
    assert (E1 : insert (List.length (before ++ [D; next])) A
                   (before ++ D :: next :: after')
                 = Ok ((before ++ [D; next]) ++ A :: after')).
    { replace (before ++ D :: next :: after')
        with ((before ++ [D; next]) ++ after')
        by (now rewrite <- app_assoc).
      apply insert_at. rewrite <- app_assoc. exact HA'. }
    rewrite E1. clear E1.
    cbn [bind].
    replace (List.length (before ++ [D; next]) + 1)%nat
      with (List.length ((before ++ [D; next]) ++ [A]))
      by (rewrite !List.length_app; reflexivity).
    replace ((before ++ [D; next]) ++ A :: after')
      with (((before ++ [D; next]) ++ [A]) ++ after')
      by (now rewrite <- !app_assoc).
    rewrite insert_at.
    + now rewrite <- !app_assoc.
    + rewrite <- !app_assoc. cbn [app]. intros H.
      apply List.in_app_or in H. destruct H as [H|[H|[H|[H|H]]]].
      * tauto.
      * discriminate.
      * apply HI, List.in_or_app. right. subst next. right. now left.
      * discriminate.
      * apply HI, List.in_or_app. right. right. now right.
Qed.

Lemma add_evidence_columns_rerun_witness :
  add_evidence_columns
    (["city"; "description"]
       ++ "Audio Evidence" :: "Image/Video/Visual Evidence"
          :: "Haunted Places Date" :: [])
  = Raise "IndexError"
  /\ add_evidence_columns
       (["city"; "description"]
          ++ "Audio Evidence" :: "Image/Video/Visual Evidence"
             :: "Haunted Places Date" :: ["state"])
     = Ok (["city"; "description"]
             ++ "Haunted Places Date" :: "state" :: "Audio Evidence"
                :: "Image/Video/Visual Evidence" :: []).
Proof.
  split.
  - apply (add_evidence_columns_rerun ["city"; "description"] []).
    + apply NoDup_ListNoDup.
      repeat (constructor; [simpl; intuition discriminate|]). constructor.
    + simpl. auto.
  - apply (add_evidence_columns_rerun ["city"; "description"] ["state"]).
    + apply NoDup_ListNoDup.
      repeat (constructor; [simpl; intuition discriminate|]). constructor.
    + simpl. auto.
Defined.

End ColumnExtras.

(** * Facts about the time of day and the witness count *)

Module TimeOfDayExtras.
Import PyStr Common StringFacts.
Import TimeOfDay.

Lemma lstrip_nil l : lstrip l = [] <-> List.Forall (fun c => is_space c = true) l.
Proof.
  induction l as [|c l IH]; simpl.
  - split; [constructor | reflexivity].
  - destruct (is_space c) eqn:E.
    + rewrite IH. split; [now constructor | now inversion 1].
    + split; [discriminate | inversion 1; congruence].
Qed.

Lemma lstrip_head l c l' : lstrip l = c :: l' -> is_space c = false.
Proof.
  induction l as [|x l IH]; simpl; [discriminate|].
  destruct (is_space x) eqn:E; [exact IH|]. now intros [= <- _].
Qed.

Lemma str_nil l : str l = EmptyString -> l = [].
Proof. destruct l; [reflexivity | discriminate]. Qed.

(** A string that strips to nothing consists of whitespace. *)
Lemma blank_spaces s :
  truthy (strip s) = false -> List.Forall (fun c => is_space c = true) (chars s).
Proof.
  unfold strip. intros H.
  assert (E : str (rev (lstrip (rev (lstrip (chars s))))) = EmptyString).
  { destruct (str _); [reflexivity | discriminate]. }
  apply str_nil in E.
  assert (E' : lstrip (rev (lstrip (chars s))) = []).
  { destruct (lstrip (rev (lstrip (chars s)))) as [|c l]; [reflexivity|].
    simpl in E. destruct (rev l); discriminate. }
  apply lstrip_nil in E'.
  destruct (lstrip (chars s)) as [|c l] eqn:El.
  - now apply lstrip_nil.
  - exfalso. pose proof (lstrip_head _ _ _ El) as Hc.
    rewrite List.Forall_forall in E'.
    rewrite (E' c) in Hc; [discriminate|].
    apply List.in_rev. rewrite List.rev_involutive. now left.
Qed.

Lemma split_spaces l :
  List.Forall (fun c => is_space c = true) l -> split_aux [] l = [].
Proof.
  induction 1 as [|c l Hc _ IH]; simpl; [reflexivity|]. now rewrite Hc.
Qed.

Lemma split_blank s : truthy (strip s) = false -> split (lower s) = [].
Proof.
  intros H. unfold split, lower. rewrite chars_of_str.
  apply split_spaces. apply blank_spaces in H.
  rewrite List.Forall_forall in H |- *. intros c Hc.
  apply List.in_map_iff in Hc. destruct Hc as (c0 & <- & Hc0).
  rewrite is_space_lower_char. now apply H.
Qed.

Lemma truthy_strip_empty s : truthy s = false -> truthy (strip s) = false.
Proof. destruct s; [reflexivity | discriminate]. Qed.

Lemma any_in_ext synonyms a b :
  (forall w, mem w a = mem w b) -> any_in synonyms a = any_in synonyms b.
Proof.
  intros H. unfold any_in. induction synonyms as [|w l IH]; simpl;
    [reflexivity|]. now rewrite H, IH.
Qed.

(** X17: the time of day is a function of the set of lower-cased,
    whitespace-separated tokens alone: the blank test changes nothing,
    and two texts with the same tokens, in any order and number, get the
    same label; morning words win over dusk words, dusk over evening. *)
Theorem time_of_day_by_tokens :
  forall text,
    let tokens := split (lower text) in
    parse_time_of_day text
    = (if any_in MORNING_SYNONYMS tokens then "Morning"
       else if any_in DUSK_SYNONYMS tokens then "Dusk"
       else if any_in EVENING_SYNONYMS tokens then "Evening"
       else "Unknown")
    /\ forall text',
         (forall w, mem w (split (lower text)) = mem w (split (lower text'))) ->
         parse_time_of_day text = parse_time_of_day text'.
Proof.
  assert (G : forall text,
            parse_time_of_day text
            = (if any_in MORNING_SYNONYMS (split (lower text)) then "Morning"
               else if any_in DUSK_SYNONYMS (split (lower text)) then "Dusk"
               else if any_in EVENING_SYNONYMS (split (lower text))
                    then "Evening"
               else "Unknown")).
  { intros text. unfold parse_time_of_day.
    destruct (truthy text) eqn:T1; cbn [negb orb].
    - destruct (truthy (strip text)) eqn:T2; cbn [negb]; [reflexivity|].
      now rewrite (split_blank _ T2).
    - now rewrite (split_blank _ (truthy_strip_empty _ T1)). }
  intros text. cbv zeta. split; [apply G|].
  intros text' H. rewrite !G.
  now rewrite !(any_in_ext _ _ _ H).
Qed.

Lemma time_of_day_by_tokens_witness :
  parse_time_of_day "Late at NIGHT, or at dawn"
  = parse_time_of_day "dawn  dawn or at late at night,".
Proof.
  apply (proj2 (time_of_day_by_tokens "Late at NIGHT, or at dawn")).
  intros w.
  change (split (lower "Late at NIGHT, or at dawn"))
    with ["late"; "at"; "night,"; "or"; "at"; "dawn"].
  change (split (lower "dawn  dawn or at late at night,"))
    with ["dawn"; "dawn"; "or"; "at"; "late"; "at"; "night,"].
  cbn [mem existsb].
  destruct (String.eqb w "late"), (String.eqb w "at"),
    (String.eqb w "night,"), (String.eqb w "or"), (String.eqb w "dawn");
    reflexivity.
Defined.

End TimeOfDayExtras.

Module WitnessExtras.
Import PyStr Common.
Import Witness Samples.

Lemma lemma_at_token d i keywords :
  mem "" keywords = false ->
  mem (lemma_at d i) keywords = true ->
  0 <= i < doc_len d
  /\ exists t, In t (tokens d) /\ mem (lower (lemma_ t)) keywords = true.
Proof.
  intros He. unfold lemma_at.
  destruct ((0 <=? i) && (i <? doc_len d)) eqn:R; [|congruence].
  apply andb_true_iff in R. destruct R as [R1 R2].
  apply Z.leb_le in R1. apply Z.ltb_lt in R2.
  destruct (nth_error (tokens d) (Z.to_nat i)) as [t|] eqn:E; [|congruence].
  intros H. split; [lia|]. exists t. split; [|exact H].
  eapply List.nth_error_In; eauto.
Qed.

Lemma mention_of_keyword d t :
  In t (tokens d) -> mem (lower (lemma_ t)) WITNESS_KEYWORDS = true ->
  has_witness_mention d = true.
Proof.
  intros Hin Hm. unfold has_witness_mention.
  apply List.existsb_exists. exists t. split; [exact Hin|]. now rewrite Hm.
Qed.

Lemma keyword_near_inv d ent_i :
  keyword_near d ent_i = true ->
  exists j, (j = ent_i + 1 \/ j = ent_i + 2 \/ j = ent_i - 1 \/ j = ent_i - 2)
            /\ 0 <= j < doc_len d
            /\ mem (lemma_at d j) WITNESS_KEYWORDS = true.
Proof.
  unfold keyword_near. cbn [existsb]. rewrite !orb_false_r.
  rewrite !orb_true_iff, !andb_true_iff.
  intros [[[_ H]|[_ H]]|[[_ H]|[_ H]]];
    destruct (lemma_at_token d _ WITNESS_KEYWORDS eq_refl H) as [Hr _];
    eexists; (split; [|split; [exact Hr | exact H]]); auto.
Qed.

Lemma death_context_inv d idx :
  death_context_nearby d idx = false ->
  forall i, idx < i <= idx + 5 -> i < doc_len d ->
    mem (lemma_at d i) IGNORE_CONTEXT = false.
Proof.
  unfold death_context_nearby. cbv zeta. intros H i Hi Hlen.
  assert (K : exists k, In k (seq 0 5) /\ i = idx + 1 + Z.of_nat k).
  { exists (Z.to_nat (i - idx - 1)). split; [|lia].
    apply List.in_seq. lia. }
  destruct K as (k & Hk & ->).
  destruct (mem _ IGNORE_CONTEXT) eqn:E; [|reflexivity].
  exfalso. rewrite <- Bool.not_true_iff_false in H. apply H.
  apply List.existsb_exists. exists k. split; [exact Hk|].
  cbv zeta. rewrite E, andb_true_r. apply Z.ltb_lt. lia.
Qed.

Lemma check_entities_inv d es v :
  check_entities d es = v -> v <> 0 ->
  exists ent,
    In ent es /\ label_ ent = "CARDINAL" /\ py_int (text ent) = Some v
    /\ death_context_nearby d (end_ ent - 1) = false
    /\ keyword_near d (end_ ent - 1) = true.
Proof.
  induction es as [|ent es IH]; cbn [check_entities]; [congruence|].
  intros H Hv.
  assert (R : check_entities d es = v ->
              exists e, In e (ent :: es) /\ label_ e = "CARDINAL"
                /\ py_int (text e) = Some v
                /\ death_context_nearby d (end_ e - 1) = false
                /\ keyword_near d (end_ e - 1) = true).
  { intros H'. destruct (IH H' Hv) as (e & He & R). exists e.
    split; [now right | exact R]. }
  destruct (String.eqb_spec (label_ ent) "CARDINAL") as [Hl|_]; [|auto].
  destruct (py_int (text ent)) as [val|] eqn:Ei; [|auto].
  destruct (death_context_nearby d (end_ ent - 1)) eqn:Ed; [auto|].
  destruct (keyword_near d (end_ ent - 1)) eqn:Ek; [|auto].
  subst val. exists ent. split; [now left|]. auto.
Qed.

(** X18: what a count returned by [check_cardinals] stands on: an entity
    labelled CARDINAL whose text [int] reads as that number, with no
    death word among the five tokens after its last token, and a witness
    word at most two tokens before or after its last token. *)
Theorem check_cardinals_sound :
  forall d v,
    check_cardinals d = v -> v <> 0 ->
    exists ent,
      In ent (ents d) /\ label_ ent = "CARDINAL"
      /\ py_int (text ent) = Some v
      /\ (forall i, end_ ent <= i < end_ ent + 5 -> i < doc_len d ->
            mem (lemma_at d i) IGNORE_CONTEXT = false)
      /\ (exists j,
            (j = end_ ent \/ j = end_ ent + 1
             \/ j = end_ ent - 2 \/ j = end_ ent - 3)
            /\ 0 <= j < doc_len d
            /\ mem (lemma_at d j) WITNESS_KEYWORDS = true).
Proof.
  intros d v H Hv. unfold check_cardinals in H.
  destruct (check_entities_inv d _ v H Hv) as (ent & Hin & Hl & Hi & Hd & Hk).
  exists ent. split; [exact Hin|]. split; [exact Hl|]. split; [exact Hi|].
  split.
  - intros i Hr Hlen. apply (death_context_inv d _ Hd); [lia | exact Hlen].
  - destruct (keyword_near_inv d _ Hk) as (j & Hj & Hr & Hm).
    exists j. split; [lia|]. auto.
Qed.

Lemma check_cardinals_sound_witness :
  exists ent,
    In ent (ents doc_three_people) /\ label_ ent = "CARDINAL"
    /\ py_int (text ent) = Some 3
    /\ (forall i, end_ ent <= i < end_ ent + 5 ->
          i < doc_len doc_three_people ->
          mem (lemma_at doc_three_people i) IGNORE_CONTEXT = false)
    /\ (exists j,
          (j = end_ ent \/ j = end_ ent + 1
           \/ j = end_ ent - 2 \/ j = end_ ent - 3)
          /\ 0 <= j < doc_len doc_three_people
          /\ mem (lemma_at doc_three_people j) WITNESS_KEYWORDS = true).
Proof.
  apply (check_cardinals_sound doc_three_people 3); [reflexivity | lia].
Defined.

Lemma fuzzy_number_positive lemma n :
  fuzzy_number lemma FUZZY_NUMBERS = Some n -> 0 < n.
Proof.
  unfold FUZZY_NUMBERS. cbn [fuzzy_number].
  repeat (destruct (String.eqb _ lemma); [intros [= <-]; lia|]).
  discriminate.
Qed.

Lemma fuzzy_loop_inv lemmas :
  forall before n,
    fuzzy_loop before lemmas = n -> n <> 0 ->
    exists i lemma nb,
      nth_error lemmas i = Some lemma
      /\ fuzzy_number lemma FUZZY_NUMBERS = Some n
      /\ (nth_error lemmas (S i) = Some nb
          \/ (i = O /\ before = Some nb)
          \/ (exists j, i = S j /\ nth_error lemmas j = Some nb))
      /\ mem nb WITNESS_KEYWORDS = true.
Proof.
  induction lemmas as [|lemma rest IH]; intros before n H Hn;
    cbn [fuzzy_loop] in H; [congruence|].
  assert (R : fuzzy_loop (Some lemma) rest = n ->
    exists i l nb,
      nth_error (lemma :: rest) i = Some l
      /\ fuzzy_number l FUZZY_NUMBERS = Some n
      /\ (nth_error (lemma :: rest) (S i) = Some nb
          \/ (i = O /\ before = Some nb)
          \/ (exists j, i = S j /\ nth_error (lemma :: rest) j = Some nb))
      /\ mem nb WITNESS_KEYWORDS = true).
  { intros H'. destruct (IH _ _ H' Hn) as (i & l & nb & H1 & H2 & H3 & H4).
    exists (S i), l, nb. split; [exact H1|]. split; [exact H2|].
    split; [|exact H4]. destruct H3 as [H3|[[-> H3]|(j & -> & H3)]].
    - now left.
    - right. right. exists O. split; [reflexivity|]. cbn. exact H3.
    - right. right. exists (S j). split; [reflexivity|]. exact H3. }
  destruct (fuzzy_number lemma FUZZY_NUMBERS) as [v|] eqn:Ef; [|auto].
  destruct rest as [|next rest'].
  - destruct before as [p|].
    + destruct (mem p WITNESS_KEYWORDS) eqn:Ep; [|auto].
      subst v. exists O, lemma, p. cbn. repeat split; auto.
    + auto.
  - destruct (mem next WITNESS_KEYWORDS) eqn:En.
    + subst v. exists O, lemma, next. cbn. repeat split; auto.
    + destruct before as [p|]; [|auto].
      destruct (mem p WITNESS_KEYWORDS) eqn:Ep; [|auto].
      subst v. exists O, lemma, p. cbn. repeat split; auto.
Qed.

(** X19: what a guess returned by [fuzzy_witness_synonyms] stands on: a
    token whose lemma is a key of [FUZZY_NUMBERS] with that value, and a
    witness word as the token right after or right before it; the guess
    is one of the table's values, so positive. *)
Theorem fuzzy_witness_synonyms_sound :
  forall d n,
    fuzzy_witness_synonyms d = n -> n <> 0 ->
    0 < n
    /\ exists i j,
         fuzzy_number (lemma_at d i) FUZZY_NUMBERS = Some n
         /\ 0 <= i < doc_len d
         /\ (j = i + 1 \/ j = i - 1)
         /\ 0 <= j < doc_len d
         /\ mem (lemma_at d j) WITNESS_KEYWORDS = true.
Proof.
  intros d n H Hn. unfold fuzzy_witness_synonyms in H.
  destruct (fuzzy_loop_inv _ _ _ H Hn) as (i & l & nb & H1 & H2 & H3 & H4).
  split; [eapply fuzzy_number_positive; eauto|].
  assert (L : forall k x,
             nth_error (map (fun t => lower (lemma_ t)) (tokens d)) k = Some x ->
             lemma_at d (Z.of_nat k) = x
             /\ 0 <= Z.of_nat k < doc_len d).
  { intros k x Hk.
    assert (Hlt : (k < List.length (tokens d))%nat).
    { rewrite <- (List.length_map (fun t => lower (lemma_ t))).
      apply List.nth_error_Some. congruence. }
    rewrite List.nth_error_map in Hk.
    unfold lemma_at, doc_len.
    replace ((0 <=? Z.of_nat k) && (Z.of_nat k <? Z.of_nat (List.length (tokens d))))
      with true by (symmetry; apply andb_true_iff; split;
                    [apply Z.leb_le | apply Z.ltb_lt]; lia).
    rewrite Nat2Z.id.
    destruct (nth_error (tokens d) k) as [t|]; [|discriminate].
    cbn in Hk. injection Hk as <-. split; [reflexivity | lia]. }
  destruct (L _ _ H1) as [E1 R1].
  exists (Z.of_nat i).
  destruct H3 as [H3|[[_ H3]|(i' & -> & H3)]]; [|discriminate|].
  - destruct (L _ _ H3) as [E3 R3]. exists (Z.of_nat (S i)).
    rewrite E1, E3. repeat split; try lia; auto.
  - destruct (L _ _ H3) as [E3 R3]. exists (Z.of_nat i').
    rewrite E1, E3. repeat split; try lia; auto.
Qed.

Lemma fuzzy_witness_synonyms_sound_witness :
  0 < 4
  /\ exists i j,
       fuzzy_number (lemma_at doc_several_people i) FUZZY_NUMBERS = Some 4
       /\ 0 <= i < doc_len doc_several_people
       /\ (j = i + 1 \/ j = i - 1)
       /\ 0 <= j < doc_len doc_several_people
       /\ mem (lemma_at doc_several_people j) WITNESS_KEYWORDS = true.
Proof.
  apply (fuzzy_witness_synonyms_sound doc_several_people 4);
    [reflexivity | lia].
Defined.

Lemma check_cardinals_mention d :
  check_cardinals d <> 0 -> has_witness_mention d = true.
Proof.
  intros Hv. unfold check_cardinals in Hv.
  destruct (check_entities_inv d _ _ eq_refl Hv) as (ent & _ & _ & _ & _ & Hk).
  destruct (keyword_near_inv d _ Hk) as (j & _ & _ & Hm).
  destruct (lemma_at_token d j WITNESS_KEYWORDS eq_refl Hm)
    as (_ & t & Ht & Hk').
  eapply mention_of_keyword; eauto.
Qed.

Lemma fuzzy_mention d :
  fuzzy_witness_synonyms d <> 0 -> has_witness_mention d = true.
Proof.
  intros Hv. unfold fuzzy_witness_synonyms in Hv.
  destruct (fuzzy_loop_inv _ _ _ eq_refl Hv) as (i & l & nb & _ & _ & H3 & H4).
  assert (K : exists k,
             nth_error (map (fun t => lower (lemma_ t)) (tokens d)) k
             = Some nb).
  { destruct H3 as [H3|[[_ H3]|(j & _ & H3)]]; [eauto|discriminate|eauto]. }
  destruct K as (k & Hk). rewrite List.nth_error_map in Hk.
  destruct (nth_error (tokens d) k) as [t|] eqn:Et; [|discriminate].
  cbn in Hk. injection Hk as <-.
  apply (mention_of_keyword d t); [|exact H4].
  eapply List.nth_error_In; eauto.
Qed.

(** X20: [advanced_witness_count] is never negative, is 0 on the empty
    text, and on any other text is positive exactly when the document
    has a witness mention: every count the two numeric passes return
    rests on a witness word, which the third pass would find too.  When
    neither numeric pass finds a positive number, the count is 1 or 0. *)
Theorem witness_count_positive_iff :
  forall (nlp : string -> doc) text,
    0 <= advanced_witness_count nlp text
    /\ advanced_witness_count nlp "" = 0
    /\ (truthy text = true ->
        (0 < advanced_witness_count nlp text
         <-> has_witness_mention (nlp text) = true)
        /\ (check_cardinals (nlp text) <= 0 ->
            fuzzy_witness_synonyms (nlp text) <= 0 ->
            advanced_witness_count nlp text
            = if has_witness_mention (nlp text) then 1 else 0)).
Proof.
  intros nlp text. unfold advanced_witness_count. cbn [truthy negb].
  split; [|split; [reflexivity|]].
  - destruct (negb (truthy text)); [lia|]. cbv zeta.
    destruct (0 <? check_cardinals (nlp text)) eqn:E1;
      [apply Z.ltb_lt in E1; lia|].
    destruct (0 <? fuzzy_witness_synonyms (nlp text)) eqn:E2;
      [apply Z.ltb_lt in E2; lia|].
    destruct (has_witness_mention (nlp text)); lia.
  - intros ->. cbn [negb]. cbv zeta. split.
    + destruct (0 <? check_cardinals (nlp text)) eqn:E1.
      { apply Z.ltb_lt in E1. split; [intros _|intros _; exact E1].
        apply check_cardinals_mention. lia. }
      destruct (0 <? fuzzy_witness_synonyms (nlp text)) eqn:E2.
      { apply Z.ltb_lt in E2. split; [intros _|intros _; exact E2].
        apply fuzzy_mention. lia. }
      destruct (has_witness_mention (nlp text)); split;
        intros; try lia; try reflexivity; discriminate.
    + intros H1 H2.
      replace (0 <? check_cardinals (nlp text)) with false
        by (symmetry; apply Z.ltb_ge; exact H1).
      replace (0 <? fuzzy_witness_synonyms (nlp text)) with false
        by (symmetry; apply Z.ltb_ge; exact H2).
      reflexivity.
Qed.

Lemma witness_count_positive_iff_witness :
  (0 < advanced_witness_count (fun _ => doc_several_people) "x"
   <-> has_witness_mention doc_several_people = true)
  /\ (check_cardinals doc_several_people <= 0 ->
      fuzzy_witness_synonyms doc_several_people <= 0 ->
      advanced_witness_count (fun _ => doc_several_people) "x"
      = if has_witness_mention doc_several_people then 1 else 0).
Proof.
  apply (proj2 (proj2 (witness_count_positive_iff
                         (fun _ => doc_several_people) "x"))).
  reflexivity.
Defined.

End WitnessExtras.

(** * Facts about the event and apparition types *)

Module EventExtras.
Import PyStr Common DatesFacts.
Import EventType EventVocabulary.

Lemma split_aux_no_space l :
  forall cur,
    forallb (fun c => negb (is_space c)) cur = true ->
    Forall (fun w => no_space w = true) (split_aux cur l).
Proof.
  assert (R : forall cur,
             forallb (fun c => negb (is_space c)) cur = true ->
             no_space (str (rev cur)) = true).
  { intros cur F. unfold no_space. rewrite chars_str.
    rewrite List.forallb_forall in *. intros x Hx. apply F.
    now apply List.in_rev. }
  induction l as [|c l IH]; intros cur F; cbn [split_aux].
  - destruct cur; [constructor|]. constructor; [now apply R | constructor].
  - destruct (is_space c) eqn:S.
    + destruct cur as [|d cur]; [now apply IH|].
      constructor; [now apply R | now apply IH].
    + apply IH. cbn [forallb]. now rewrite S, F.
Qed.

Lemma any_token_filter (p : string -> bool) keywords tokens :
  Forall (fun w => p w = true) tokens ->
  any_token (List.filter p keywords) tokens = any_token keywords tokens.
Proof.
  intros F. unfold any_token.
  induction keywords as [|kw keywords IH]; [reflexivity|].
  cbn [List.filter existsb]. destruct (p kw) eqn:E.
  - cbn [existsb]. now rewrite IH.
  - rewrite IH.
    replace (existsb (String.eqb kw) tokens) with false; [reflexivity|].
    symmetry. apply Bool.not_true_iff_false. intros H.
    apply List.existsb_exists in H. destruct H as (t & Ht & Heq).
    apply String.eqb_eq in Heq. subst t.
    rewrite List.Forall_forall in F. specialize (F _ Ht). congruence.
Qed.

Section Labels.
Variable lemmatize : string -> string.
Variables murder_keywords death_keywords supernatural_keywords : list string.

Let tokens_of (description : cell) : list string :=
  map lemmatize (split (lower (str_of_cell description))).

(** X21: the event label by the three matches.  It names "Murder"
    exactly when a murder keyword is a token, "Death" exactly when a
    death keyword is one, and "Supernatural" exactly when a
    supernatural keyword is one and not both others are: a description
    matching all three sets is labelled "Murder, Death".  The label is
    "Unknown" exactly when nothing matches. *)
Theorem categorize_event_label :
  forall description,
    let label := categorize_event lemmatize murder_keywords death_keywords
                   supernatural_keywords description in
    let murder_match := any_token murder_keywords (tokens_of description) in
    let death_match := any_token death_keywords (tokens_of description) in
    let supernatural_match :=
      any_token supernatural_keywords (tokens_of description) in
    contains "Murder" label = murder_match
    /\ contains "Death" label = death_match
    /\ contains "Supernatural" label
       = supernatural_match && negb (murder_match && death_match)
    /\ (label = "Unknown" <->
        murder_match = false /\ death_match = false
        /\ supernatural_match = false).
Proof.
  intros description. cbv zeta. unfold categorize_event, tokens_of.
  cbv zeta.
  destruct (any_token murder_keywords _), (any_token death_keywords _),
    (any_token supernatural_keywords _);
    cbn [andb negb];
    (split; [vm_compute; reflexivity|]);
    (split; [vm_compute; reflexivity|]);
    (split; [vm_compute; reflexivity|]);
    split; intros H; try discriminate H; try reflexivity;
    try (destruct H as (H1 & H2 & H3); discriminate); auto.
Qed.

(** X22: a keyword with whitespace in it never matches.  The tokens
    come from [str.split()], so they hold no whitespace; when the
    lemmatizer does not bring any in, [categorize_event] gives the same
    label with all such keywords ("pass away", "shadow figure", the
    multi-word WordNet lemmas) removed from the three sets. *)
Theorem event_multiword_keywords_dead :
  forall description,
    (forall w, no_space w = true -> no_space (lemmatize w) = true) ->
    categorize_event lemmatize murder_keywords death_keywords
      supernatural_keywords description
    = categorize_event lemmatize
        (List.filter no_space murder_keywords)
        (List.filter no_space death_keywords)
        (List.filter no_space supernatural_keywords) description.
Proof.
  intros description Hl. unfold categorize_event. cbv zeta.
  assert (F : Forall (fun w => no_space w = true)
                (map lemmatize (split (lower (str_of_cell description))))).
  { apply List.Forall_map.
    eapply List.Forall_impl; [|apply split_aux_no_space; reflexivity].
    intros w Hw. cbv beta. now apply Hl. }
  now rewrite !(any_token_filter no_space _ _ F).
Qed.

End Labels.

Lemma event_multiword_keywords_dead_witness :
  categorize_event (fun w => w) ["kill"] ["die"; "pass away"] ["ghost"]
    (Str "They pass away")
  = categorize_event (fun w => w)
      (List.filter no_space ["kill"])
      (List.filter no_space ["die"; "pass away"])
      (List.filter no_space ["ghost"]) (Str "They pass away").
Proof.
  apply (event_multiword_keywords_dead (fun w => w) ["kill"]
           ["die"; "pass away"] ["ghost"] (Str "They pass away")).
  intros w H. exact H.
Defined.

End EventExtras.

Module ApparitionExtras.
Import PyStr Re Common EventType.
Import Apparition.

Lemma positions_from_spec keywords words :
  forall i p,
    In p (positions_from i keywords words) <->
    exists k word,
      p = i + Z.of_nat k /\ nth_error words k = Some word
      /\ existsb (String.eqb word) keywords = true.
Proof.
  induction words as [|w words IH]; intros i p; cbn [positions_from].
  - split; [intros []|]. intros (k & word & _ & H & _). now destruct k.
  - assert (R : In p (positions_from (i + 1) keywords words) <->
                exists k word, p = i + Z.of_nat (S k)
                  /\ nth_error (w :: words) (S k) = Some word
                  /\ existsb (String.eqb word) keywords = true).
    { rewrite IH. split; intros (k & word & -> & H1 & H2);
        exists k, word; (split; [lia|]); auto. }
    destruct (existsb (String.eqb w) keywords) eqn:E.
    + cbn [In]. rewrite R. split.
      * intros [<-|(k & word & H)].
        -- exists O, w. cbn. split; [lia|]. auto.
        -- exists (S k), word. exact H.
      * intros ([|k] & word & -> & H1 & H2).
        -- left. lia.
        -- right. exists k, word. auto.
    + rewrite R. split.
      * intros (k & word & H). exists (S k), word. exact H.
      * intros ([|k] & word & -> & H1 & H2).
        -- cbn in H1. injection H1 as <-. congruence.
        -- exists k, word. auto.
Qed.

Lemma any_word_positions keywords words :
  any_word keywords words = true <-> positions keywords words <> [].
Proof.
  unfold positions. generalize 0.
  induction words as [|w words IH]; intros i;
    cbn [any_word existsb positions_from].
  - split; [discriminate | congruence].
  - destruct (existsb (String.eqb w) keywords); cbn [orb].
    + split; [discriminate | reflexivity].
    + apply IH.
Qed.

Lemma near_spec gs xs :
  near gs xs = true <->
  exists g m, In g gs /\ In m xs /\ Z.abs (m - g) <= 4.
Proof.
  unfold near. rewrite List.existsb_exists. split.
  - intros (g & Hg & H). apply List.existsb_exists in H.
    destruct H as (m & Hm & H). apply Z.leb_le in H. eauto.
  - intros (g & m & Hg & Hm & H). exists g. split; [exact Hg|].
    apply List.existsb_exists. exists m. split; [exact Hm|].
    now apply Z.leb_le.
Qed.

Section Labels.
Variable lemmatize : string -> string.
Variables ghost_keywords orb_keywords ufo_keywords uap_keywords
          male_keywords female_keywords child_keywords group_keywords
  : list string.

Let categorize :=
  categorize_apparition lemmatize ghost_keywords orb_keywords ufo_keywords
    uap_keywords male_keywords female_keywords child_keywords group_keywords.
Let words := words_of lemmatize.

Lemma near_positions keywords ws :
  near (positions ghost_keywords ws) (positions keywords ws) = true
  <-> near_ghost ghost_keywords keywords ws.
Proof.
  rewrite near_spec. unfold positions, near_ghost. split.
  - intros (g & m & Hg & Hm & H).
    apply positions_from_spec in Hg. apply positions_from_spec in Hm.
    destruct Hg as (kg & wg & -> & G1 & G2).
    destruct Hm as (km & wm & -> & M1 & M2).
    exists kg, km, wg, wm. repeat split; auto.
  - intros (g & m & wg & wm & G1 & G2 & M1 & M2 & H).
    exists (Z.of_nat g), (Z.of_nat m).
    split; [apply positions_from_spec; exists g, wg; auto|].
    split; [apply positions_from_spec; exists m, wm; auto|]. exact H.
Qed.

(** X23: the three apparition columns hang together.  Type I is
    "Unknown" exactly when no word is an orb, UFO, UAP or ghost keyword;
    without a ghost keyword Type II and Type III are both "N/A"; with
    one, Type I names "Ghost", Type II is "Several Ghosts" or "Single
    Ghost" by the group keywords, and Type III is never "N/A". *)
Theorem apparition_columns_consistent :
  forall description,
    let '(type_I, type_II, type_III) := categorize description in
    let ws := words description in
    (type_I = "Unknown" <->
       any_word orb_keywords ws = false /\ any_word ufo_keywords ws = false
       /\ any_word uap_keywords ws = false
       /\ any_word ghost_keywords ws = false)
    /\ (any_word ghost_keywords ws = false ->
        type_II = "N/A" /\ type_III = "N/A")
    /\ (any_word ghost_keywords ws = true ->
        contains "Ghost" type_I = true
        /\ type_II = (if any_word group_keywords ws
                      then "Several Ghosts" else "Single Ghost")
        /\ type_III <> "N/A").
Proof.
  intros description. unfold categorize, categorize_apparition, words.
  cbv zeta.
  destruct (any_word orb_keywords _), (any_word ufo_keywords _),
    (any_word uap_keywords _), (any_word ghost_keywords _);
    cbn [app existsb String.eqb Ascii.eqb Bool.eqb orb];
    (split; [split; [intros H; try discriminate H; auto
                    | intros (H1 & H2 & H3 & H4); try discriminate;
                      reflexivity]|]);
    (split; [intros H; try discriminate H; auto|]);
    intros H; try discriminate H;
    (split; [vm_compute; reflexivity|]);
    (split; [reflexivity|]);
    destruct (near _ (positions male_keywords _)),
      (near _ (positions female_keywords _)),
      (near _ (positions child_keywords _)); vm_compute; discriminate.
Qed.

(** X24: Type III names "Male Ghost" ("Female Ghost", "Child Ghost")
    exactly when a male (female, child) keyword stands within four
    words of a ghost keyword; the distance is counted in lemmatized
    words, in both directions, and 0 is allowed. *)
Theorem apparition_type_III_near :
  forall description,
    let type_III := snd (categorize description) in
    let ws := words description in
    (contains "Male Ghost" type_III = true
       <-> near_ghost ghost_keywords male_keywords ws)
    /\ (contains "Female Ghost" type_III = true
       <-> near_ghost ghost_keywords female_keywords ws)
    /\ (contains "Child Ghost" type_III = true
       <-> near_ghost ghost_keywords child_keywords ws).
Proof.
  intros description. cbv zeta. rewrite <- !near_positions.
  unfold categorize, categorize_apparition, words. cbv zeta.
  assert (G : any_word ghost_keywords (words_of lemmatize description) = false ->
              forall keywords,
                near (positions ghost_keywords (words_of lemmatize description))
                     (positions keywords (words_of lemmatize description))
                = false).
  { intros H keywords.
    destruct (positions ghost_keywords _) eqn:E; [reflexivity|].
    exfalso. rewrite <- Bool.not_true_iff_false in H. apply H.
    apply any_word_positions. congruence. }
  destruct (any_word orb_keywords _), (any_word ufo_keywords _),
    (any_word uap_keywords _),
    (any_word ghost_keywords (words_of lemmatize description)) eqn:Eg;
    cbn [app existsb String.eqb Ascii.eqb Bool.eqb orb snd];
    try (rewrite !(G eq_refl); vm_compute; intuition discriminate);
    destruct (near _ (positions male_keywords _)),
      (near _ (positions female_keywords _)),
      (near _ (positions child_keywords _));
    vm_compute; intuition discriminate.
Qed.

End Labels.

Lemma apparition_columns_consistent_witness :
  let '(type_I, type_II, type_III) :=
    categorize_apparition (fun w => w) ["ghost"] ["orb"] [] [] ["man"] []
      [] ["many"] (Str "The Ghost of a man") in
  contains "Ghost" type_I = true
  /\ type_II = "Single Ghost"
  /\ type_III <> "N/A".
Proof.
  pose proof (apparition_columns_consistent (fun w => w) ["ghost"] ["orb"]
                [] [] ["man"] [] [] ["many"] (Str "The Ghost of a man")) as H.
  vm_compute in H. vm_compute.
  destruct H as (_ & _ & H). apply H. reflexivity.
Defined.

End ApparitionExtras.

Module FindallExtras.
Import PyStr Re Common DatesFacts.
Import Apparition.

(** The longest prefix of word characters, and what follows it. *)
Lemma word_prefix l :
  exists run tail,
    l = run ++ tail /\ forallb is_word run = true
    /\ word_opt (head tail) = false.
Proof.
  induction l as [|c l (run & tail & E & F & T)].
  - exists [], []. auto.
  - destruct (is_word c) eqn:W.
    + exists (c :: run), tail. cbn. rewrite W, F, E. auto.
    + exists [], (c :: l). cbn. auto.
Qed.

Lemma rep_class_greedy {A} (k : mstate -> option A) tail cs r run :
  forall lo pv,
    forallb is_word run = true -> word_opt (head tail) = false ->
    (lo <= List.length run)%nat ->
    k (MState (last_opt pv run) tail cs) = Some r ->
    rep_class is_word lo None pv (run ++ tail) cs k = Some r.
Proof.
  induction run as [|c run IH]; intros lo pv F T L K.
  - cbn in L. assert (lo = O) by lia. subst lo. cbn [app last_opt] in *.
    destruct tail as [|d tail]; cbn [rep_class]; [exact K|].
    cbn in T. rewrite T. cbn [andb]. exact K.
  - cbn [forallb] in F. apply andb_true_iff in F. destruct F as [W F].
    cbn [app rep_class]. rewrite W. cbn [hi_open andb hi_pred].
    rewrite (IH (Nat.pred lo) (Some c) F T); [reflexivity | cbn in L; lia|].
    exact K.
Qed.

Lemma last_opt_word pv run :
  forallb is_word run = true -> run <> [] ->
  word_opt (last_opt pv run) = true.
Proof.
  revert pv. induction run as [|c run IH]; intros pv F N; [congruence|].
  cbn [forallb] in F. apply andb_true_iff in F. destruct F as [W F].
  cbn [last_opt]. destruct run as [|d run]; [exact W|].
  apply IH; [exact F | discriminate].
Qed.

(** A match of [\b\w+\b] at a word start is the whole run. *)
Lemma match_word_start pv c run tail :
  word_opt pv = false ->
  forallb is_word (c :: run) = true -> word_opt (head tail) = false ->
  match_here word_pattern pv ((c :: run) ++ tail)
  = Some (MatchObj (str (c :: run)) []).
Proof.
  intros P F T. unfold match_here, word_pattern.
  cbn [seqs Re.run Plus]. unfold at_boundary at 1.
  cbn [prev rest app head]. rewrite P.
  assert (W : is_word c = true).
  { cbn [forallb] in F. now apply andb_true_iff in F. }
  cbn [word_opt]. rewrite W. cbn [xorb].
  change (c :: run ++ tail) with ((c :: run) ++ tail).
  erewrite rep_class_greedy; [| exact F | exact T | cbn; lia |].
  2:{ unfold at_boundary. cbn [prev rest].
      rewrite (last_opt_word pv (c :: run) F), T by discriminate.
      cbn [xorb]. reflexivity. }
  cbn [rest caps map]. now rewrite consumed_app.
Qed.

(** No match where no word starts. *)
Lemma match_word_none pv l :
  word_opt pv = true \/ word_opt (head l) = false ->
  match_here word_pattern pv l = None.
Proof.
  intros H. unfold match_here, word_pattern.
  cbn [seqs Re.run Plus]. unfold at_boundary at 1. cbn [prev rest].
  destruct (word_opt (head l)) eqn:T.
  - destruct H as [H|H]; [|discriminate]. rewrite H. reflexivity.
  - destruct (xorb (word_opt pv) false); [|reflexivity].
    destruct l as [|d l]; cbn [rep_class]; [reflexivity|].
    cbn in T. rewrite T. reflexivity.
Qed.

Lemma findall_skip r tail xs :
  forall pv,
    findall_from r pv (xs ++ tail) (List.length xs)
    = findall_from r (last_opt pv xs) tail O.
Proof.
  induction xs as [|c xs IH]; intros pv.
  - reflexivity.
  - cbn [app List.length findall_from last_opt]. apply IH.
Qed.

Lemma word_runs_aux_app run tail :
  forall cur,
    forallb is_word run = true ->
    word_runs_aux cur (run ++ tail) = word_runs_aux (rev run ++ cur) tail.
Proof.
  induction run as [|c run IH]; intros cur F; [reflexivity|].
  cbn [forallb] in F. apply andb_true_iff in F. destruct F as [W F].
  cbn [app word_runs_aux rev]. rewrite W, (IH _ F).
  now rewrite <- List.app_assoc.
Qed.

Lemma findall_word_runs n :
  forall l pv,
    (List.length l <= n)%nat -> word_opt pv = false ->
    findall_from word_pattern pv l O = word_runs_aux [] l.
Proof.
  induction n as [|n IH]; intros l pv L P.
  - destruct l; [|cbn in L; lia].
    cbn [findall_from word_runs_aux].
    now rewrite match_word_none by (right; reflexivity).
  - destruct l as [|c l].
    { cbn [findall_from word_runs_aux].
      now rewrite match_word_none by (right; reflexivity). }
    destruct (is_word c) eqn:W.
    + destruct (word_prefix l) as (run & tail & -> & F & T).
      assert (F' : forallb is_word (c :: run) = true)
        by (cbn [forallb]; now rewrite W, F).
      change (c :: run ++ tail) with ((c :: run) ++ tail).
      rewrite (word_runs_aux_app (c :: run) tail [] F'), List.app_nil_r.
      cbn [findall_from app].
      change (c :: run ++ tail) with ((c :: run) ++ tail).
      rewrite (match_word_start pv c run tail P F' T).
      cbn [group0]. rewrite length_str. cbn [List.length Nat.pred].
      rewrite findall_skip.
      assert (Lw : word_opt (last_opt (Some c) run) = true)
        by (apply (last_opt_word pv (c :: run) F'); discriminate).
      assert (R : exists d cur, rev (c :: run) = d :: cur).
      { destruct (rev (c :: run)) as [|d cur] eqn:E; [|eauto].
        apply (f_equal (@List.length ascii)) in E.
        rewrite List.length_rev in E. discriminate E. }
      destruct R as (d' & cur & R).
      assert (R' : str (rev (d' :: cur)) = str (c :: run))
        by (now rewrite <- R, List.rev_involutive).
      rewrite R.
      destruct tail as [|d tail].
      * cbn [findall_from word_runs_aux].
        rewrite match_word_none by (right; reflexivity).
        now rewrite R'.
      * cbn in T. cbn [findall_from word_runs_aux]. rewrite T.
        rewrite match_word_none by (left; exact Lw).
        rewrite (IH tail (Some d)).
        -- now rewrite R'.
        -- cbn in L. rewrite List.length_app in L. cbn in L. lia.
        -- exact T.
    + cbn [findall_from word_runs_aux]. rewrite W.
      rewrite match_word_none by (right; cbn; exact W).
      apply IH; [cbn in L; lia | exact W].
Qed.

Lemma word_runs_aux_words l :
  forall cur,
    forallb is_word cur = true ->
    Forall (fun w => w <> ""%string /\ all_word w = true)
           (word_runs_aux cur l).
Proof.
  assert (R : forall c cur, forallb is_word (c :: cur) = true ->
            str (rev (c :: cur)) <> ""%string
            /\ all_word (str (rev (c :: cur))) = true).
  { intros c cur F. split.
    - intros E. apply (f_equal String.length) in E.
      rewrite length_str, List.length_rev in E. discriminate E.
    - unfold all_word. rewrite chars_str. rewrite List.forallb_forall in *.
      intros x Hx. apply F. now apply List.in_rev. }
  induction l as [|c l IH]; intros cur F; cbn [word_runs_aux].
  - destruct cur as [|d cur]; [constructor|].
    constructor; [now apply R | constructor].
  - destruct (is_word c) eqn:W.
    + apply IH. cbn [forallb]. now rewrite W, F.
    + destruct cur as [|d cur]; [now apply IH|].
      constructor; [now apply R | now apply IH].
Qed.

(** X25: [re.findall(r'\b\w+\b', s)] returns the maximal runs of word
    characters of [s], left to right; so every word handed to the
    lemmatizer is non-empty and made of word characters only. *)
Theorem findall_words_are_runs :
  forall s,
    findall word_pattern s = word_runs s
    /\ Forall (fun w => w <> ""%string /\ all_word w = true)
              (findall word_pattern s).
Proof.
  intros s.
  assert (E : findall word_pattern s = word_runs s).
  { unfold findall, word_runs.
    apply (findall_word_runs (List.length (chars s))); [lia | reflexivity]. }
  split; [exact E|]. rewrite E. now apply word_runs_aux_words.
Qed.

Lemma findall_words_all_word s :
  Forall (fun w => all_word w = true) (findall word_pattern s).
Proof.
  unfold findall.
  rewrite (findall_word_runs (List.length (chars s))); [|lia|reflexivity].
  eapply List.Forall_impl; [|apply word_runs_aux_words; reflexivity].
  intros w [_ H]. exact H.
Qed.

Lemma existsb_filter (p : string -> bool) keywords word :
  p word = true ->
  existsb (String.eqb word) (List.filter p keywords)
  = existsb (String.eqb word) keywords.
Proof.
  intros Hp. induction keywords as [|kw keywords IH]; [reflexivity|].
  cbn [List.filter existsb]. destruct (p kw) eqn:E.
  - cbn [existsb]. now rewrite IH.
  - rewrite IH. destruct (String.eqb_spec word kw) as [->|_];
      [congruence | reflexivity].
Qed.

Lemma any_word_filter (p : string -> bool) keywords words :
  Forall (fun w => p w = true) words ->
  any_word (List.filter p keywords) words = any_word keywords words.
Proof.
  unfold any_word. induction 1 as [|w words Hw _ IH]; [reflexivity|].
  cbn [existsb]. now rewrite IH, existsb_filter.
Qed.

Lemma positions_filter (p : string -> bool) keywords words :
  Forall (fun w => p w = true) words ->
  positions (List.filter p keywords) words = positions keywords words.
Proof.
  unfold positions. intros F. generalize 0.
  induction F as [|w words Hw _ IH]; intros z; [reflexivity|].
  cbn [positions_from]. rewrite existsb_filter by exact Hw.
  now rewrite !IH.
Qed.

(** X26: a keyword that is not one run of word characters never
    matches.  The words come from [\b\w+\b], so when the lemmatizer
    keeps them made of word characters, [categorize_apparition] gives
    the same three columns with all other keywords ("light ball",
    "flying saucer", "unidentified aerial phenomenon", ...) removed
    from the eight sets. *)
Theorem apparition_multiword_keywords_dead :
  forall lemmatize ghost orb ufo uap male female child group description,
    (forall w, all_word w = true -> all_word (lemmatize w) = true) ->
    categorize_apparition lemmatize ghost orb ufo uap male female child
      group description
    = categorize_apparition lemmatize
        (List.filter all_word ghost) (List.filter all_word orb)
        (List.filter all_word ufo) (List.filter all_word uap)
        (List.filter all_word male) (List.filter all_word female)
        (List.filter all_word child) (List.filter all_word group)
        description.
Proof.
  intros lemmatize ghost orb ufo uap male female child group description Hl.
  unfold categorize_apparition. cbv zeta.
  assert (F : Forall (fun w => all_word w = true)
                (words_of lemmatize description)).
  { unfold words_of. apply List.Forall_map.
    eapply List.Forall_impl; [|apply findall_words_all_word].
    intros w Hw. cbv beta. now apply Hl. }
  now rewrite !(any_word_filter all_word _ _ F),
    !(positions_filter all_word _ _ F).
Qed.

Lemma apparition_multiword_keywords_dead_witness :
  categorize_apparition (fun w => w) ["ghost"] ["orb"; "light ball"] [] []
    ["man"] [] [] [] (Str "A light ball")
  = categorize_apparition (fun w => w)
      (List.filter all_word ["ghost"])
      (List.filter all_word ["orb"; "light ball"])
      (List.filter all_word []) (List.filter all_word [])
      (List.filter all_word ["man"]) (List.filter all_word [])
      (List.filter all_word []) (List.filter all_word [])
      (Str "A light ball").
Proof.
  apply (apparition_multiword_keywords_dead (fun w => w) ["ghost"]
           ["orb"; "light ball"] [] [] ["man"] [] [] [] (Str "A light ball")).
  intros w H. exact H.
Defined.

End FindallExtras.
